(** * Image placement (STM32MP1 BL2) and SiP call dispatch (QEMU SBSA)

    A shallow embedding of two translation units of Trusted Firmware-A:

    - [plat/st/stm32mp1/bl2_plat_setup.c]: [bl2_plat_handle_post_image_load],
      the post-load hook that patches the image descriptor table from the
      firmware configuration and classifies the loaded trusted OS image;
    - the SBSA SiP service: the reader of the hardware description blob
      ([read_platform_version], [read_platform_config_from_dt],
      [read_cpuinfo_from_dt], [sip_svc_init]) and the SMC handler
      [sbsa_sip_smc_handler].

    C integers are [Z] with the wrap-around of their width written out.
    Globals and the descriptor table are threaded as explicit state; code
    that can halt returns an [outcome]. *)

From stdpp Require Import base option list strings gmap.
From Stdlib Require Import ZArith Lia.

Local Open Scope Z_scope.

(** ** Machine integers *)

(** Value of an unsigned [w]-bit object after storing [x] into it. *)
Definition wrap (w : Z) (x : Z) : Z := x mod 2 ^ w.

Definition u32 (x : Z) : Z := wrap 32 x.
Definition u64 (x : Z) : Z := wrap 64 x.

(** Conversion of a 32-bit pattern to [int] (two's complement). *)
Definition to_int (x : Z) : Z :=
  let y := u32 x in if y <? 2 ^ 31 then y else y - 2 ^ 32.

(** [~x] on a 32-bit unsigned operand. *)
Definition not32 (x : Z) : Z := Z.lxor (u32 x) 0xFFFFFFFF.

(** ** Outcomes of code that may halt *)

Inductive outcome (A : Type) : Type :=
| Done (a : A)      (* ran to its end *)
| Panic             (* panic(): the boot stops here *)
| AssertFail        (* an assert() did not hold *)
| NullDeref.        (* a NULL pointer was dereferenced *)

Arguments Done {A} a.
Arguments Panic {A}.
Arguments AssertFail {A}.
Arguments NullDeref {A}.

Definition obind {A B : Type} (m : outcome A) (k : A -> outcome B) : outcome B :=
  match m with
  | Done a => k a
  | Panic => Panic
  | AssertFail => AssertFail
  | NullDeref => NullDeref
  end.

Declare Scope outcome_scope.
Delimit Scope outcome_scope with outcome.
Notation "'do' x <- m ; k" := (obind m (fun x => k))
  (at level 10, x pattern, m at level 100, k at level 200) : outcome_scope.
Local Open Scope outcome_scope.

(** Dereference of a pointer that may be NULL. *)
Definition deref {A : Type} (p : option A) : outcome A :=
  match p with Some a => Done a | None => NullDeref end.

(** [assert(p != NULL)] followed by uses of [p]. *)
Definition assert_non_null {A : Type} (p : option A) : outcome A :=
  match p with Some a => Done a | None => AssertFail end.

(** * Part I: the SBSA SiP service *)

(** ** Function identifiers *)

Definition SMC_FASTCALL : Z := 0x80000000.
Definition SMC64_FUNCTION : Z := Z.lor SMC_FASTCALL 0x40000000.
Definition SIP_FUNCTION : Z := Z.lor SMC64_FUNCTION 0x02000000.
Definition SIP_FUNCTION_ID (n : Z) : Z := Z.lor SIP_FUNCTION n.

Definition SIP_SVC_VERSION : Z := SIP_FUNCTION_ID 1.
Definition SIP_SVC_GET_GIC : Z := SIP_FUNCTION_ID 100.
Definition SIP_SVC_GET_GIC_ITS : Z := SIP_FUNCTION_ID 101.
Definition SIP_SVC_GET_CPU_COUNT : Z := SIP_FUNCTION_ID 200.
Definition SIP_SVC_GET_CPU_NODE : Z := SIP_FUNCTION_ID 201.

(** Modelled from the spec: the header that defines the two status codes
    lies outside the two translation units. The spec asks for an "unknown function"
    status and a distinct "invalid parameter" status whose values are fixed by
    the calling convention; these are the convention's -1 and -3, as they
    appear in a 64-bit result register. *)
Definition SMC_UNK : Z := u64 (-1).
Definition SMC_ARCH_CALL_INVAL_PARAM : Z := u64 (-3).

(** ** Platform descriptor state *)

Record cpu_data : Type := { nodeid : Z; mpidr : Z }.

Definition cpu_data_zero : cpu_data := {| nodeid := 0; mpidr := 0 |}.

#[global] Instance cpu_data_inhabited : Inhabited cpu_data :=
  populate cpu_data_zero.

(** The file-scope objects of the service. [num_cpus] and [cpu] are the
    members of [dynamic_platform_info], [cpu] being the array
    [cpu[PLATFORM_CORE_COUNT]]. C gives no meaning to a store past its end;
    [cpu_overrun] keeps each such store (slot index and value, newest first)
    so that it stays visible, and the array itself is left as it was.
    [gicd_base] and [gicr_base] are the objects behind [sbsa_set_gic_bases],
    [sbsa_get_gicd] and [sbsa_get_gicr]. *)
Record sbsa_state : Type := {
  platform_version_major : Z;
  platform_version_minor : Z;
  gic_its_addr : Z;
  gicd_base : Z;
  gicr_base : Z;
  num_cpus : Z;
  cpu : list cpu_data;
  cpu_overrun : list (Z * cpu_data)
}.

(** ** The hardware description blob, as the property reader reports it *)

(** The root node: each field is the result of [fdt_getprop] for that
    property name, [None] for NULL, [Some v] for a pointer to the big-endian
    cell of value [v]. *)
Record dt_root_node : Type := {
  machine_version_major : option Z;
  machine_version_minor : option Z
}.

(** The [/intc] node. [intc_reg] tells whether [fdt_getprop] finds a "reg"
    property; [intc_reg0] and [intc_reg1] are what
    [fdt_get_reg_props_by_index] stores for index 0 and 1 ([None]: it returns
    an error and stores nothing). [intc_its] is the [/intc/its] sub-node, if
    any, with the result of reading its register entry 0. *)
Record dt_intc_node : Type := {
  intc_reg : bool;
  intc_reg0 : option Z;
  intc_reg1 : option Z;
  intc_its : option (option Z)
}.

(** A sub-node of [/cpus]. [cpu_reg] is [Some v] when the node has a "reg"
    property and [fdt_get_reg_props_by_index] stores [v] for entry 0, [None]
    when nothing is stored into [mpidr]. [cpu_numa_node_id] likewise for
    "numa-node-id" and [fdt_read_uint32]. *)
Record dt_cpu_node : Type := {
  cpu_name : string;
  cpu_reg : option Z;
  cpu_numa_node_id : option Z
}.

(** The blob. [dt_open_err] and [dt_header_err] are the values returned by
    [fdt_open_into] and [fdt_check_header]; [dt_root], [dt_intc] and
    [dt_cpus] are the nodes found at "/", "/intc" and "/cpus" ([None]:
    [fdt_path_offset] is negative). The sub-nodes of [/cpus] are in blob
    order. *)
Record dtb_t : Type := {
  dt_open_err : Z;
  dt_header_err : Z;
  dt_root : option dt_root_node;
  dt_intc : option dt_intc_node;
  dt_cpus : option (list dt_cpu_node)
}.

(** Result words written by [SMC_RET1], [SMC_RET2] and [SMC_RET3]: the
    macros store that many leading result registers and return. *)
Inductive smc_ret : Type :=
| SMC_RET1 (x0 : Z)
| SMC_RET2 (x0 x1 : Z)
| SMC_RET3 (x0 x1 x2 : Z).

Section sbsa_sip_svc.

(** Capacity of the per-CPU array. *)
Variable PLATFORM_CORE_COUNT : Z.

(** The predicate on the SMC flags word that tells the caller's world. *)
Variable is_caller_non_secure : Z -> bool.

(** Static storage is zero-initialised. *)
Definition sbsa_state_init : sbsa_state :=
  {| platform_version_major := 0;
     platform_version_minor := 0;
     gic_its_addr := 0;
     gicd_base := 0;
     gicr_base := 0;
     num_cpus := 0;
     cpu := replicate (Z.to_nat PLATFORM_CORE_COUNT) cpu_data_zero;
     cpu_overrun := [] |}.

(** [dynamic_platform_info.cpu[i] = v]. *)
Definition store_cpu (st : sbsa_state) (i : Z) (v : cpu_data) : sbsa_state :=
  if (0 <=? i) && (i <? PLATFORM_CORE_COUNT) then
    {| platform_version_major := platform_version_major st;
       platform_version_minor := platform_version_minor st;
       gic_its_addr := gic_its_addr st;
       gicd_base := gicd_base st;
       gicr_base := gicr_base st;
       num_cpus := num_cpus st;
       cpu := <[Z.to_nat i := v]> (cpu st);
       cpu_overrun := cpu_overrun st |}
  else
    {| platform_version_major := platform_version_major st;
       platform_version_minor := platform_version_minor st;
       gic_its_addr := gic_its_addr st;
       gicd_base := gicd_base st;
       gicr_base := gicr_base st;
       num_cpus := num_cpus st;
       cpu := cpu st;
       cpu_overrun := (i, v) :: cpu_overrun st |}.

Definition set_num_cpus (st : sbsa_state) (n : Z) : sbsa_state :=
  {| platform_version_major := platform_version_major st;
     platform_version_minor := platform_version_minor st;
     gic_its_addr := gic_its_addr st;
     gicd_base := gicd_base st;
     gicr_base := gicr_base st;
     num_cpus := n;
     cpu := cpu st;
     cpu_overrun := cpu_overrun st |}.

Definition set_version (st : sbsa_state) (major minor : Z) : sbsa_state :=
  {| platform_version_major := major;
     platform_version_minor := minor;
     gic_its_addr := gic_its_addr st;
     gicd_base := gicd_base st;
     gicr_base := gicr_base st;
     num_cpus := num_cpus st;
     cpu := cpu st;
     cpu_overrun := cpu_overrun st |}.

(** Modelled from the spec: [sbsa_set_gic_bases], [sbsa_get_gicd] and
    [sbsa_get_gicr] are declared but not defined in this translation unit. The
    spec keeps the "interrupt-controller distributor/redistributor base
    addresses" in the platform descriptor, written once by the reader and
    returned as they are by the interrupt-controller-bases query. *)
Definition sbsa_set_gic_bases (st : sbsa_state) (gicd gicr : Z) : sbsa_state :=
  {| platform_version_major := platform_version_major st;
     platform_version_minor := platform_version_minor st;
     gic_its_addr := gic_its_addr st;
     gicd_base := gicd;
     gicr_base := gicr;
     num_cpus := num_cpus st;
     cpu := cpu st;
     cpu_overrun := cpu_overrun st |}.

Definition sbsa_get_gicd (st : sbsa_state) : Z := gicd_base st.

Definition sbsa_get_gicr (st : sbsa_state) : Z := gicr_base st.

Definition set_gic_its_addr (st : sbsa_state) (a : Z) : sbsa_state :=
  {| platform_version_major := platform_version_major st;
     platform_version_minor := platform_version_minor st;
     gic_its_addr := a;
     gicd_base := gicd_base st;
     gicr_base := gicr_base st;
     num_cpus := num_cpus st;
     cpu := cpu st;
     cpu_overrun := cpu_overrun st |}.

(** The sibling walk of [read_cpuinfo_from_dt]: the body of
    [while (node > 0)], once per node from the current one to the last
    sibling. [cpu], [nodeid] and [mpidr] are the locals of that name. *)
Fixpoint cpu_walk (nodes : list dt_cpu_node) (cpu nodeid mpidr : Z)
    (st : sbsa_state) : Z * sbsa_state :=
  match nodes with
  | [] => (cpu, st)
  | node :: rest =>
      let mpidr :=
        match cpu_reg node with Some v => u64 v | None => mpidr end in
      let nodeid :=
        match cpu_numa_node_id node with Some v => u32 v | None => nodeid end in
      let st := store_cpu st cpu {| nodeid := nodeid; mpidr := u32 mpidr |} in
      cpu_walk rest (cpu + 1) nodeid mpidr st
  end.

(** The nodes the walk visits: the one [fdt_path_offset] finds for
    "/cpus/cpu@0", then every later sibling through [fdt_next_subnode]. *)
Fixpoint from_cpu0 (nodes : list dt_cpu_node) : list dt_cpu_node :=
  match nodes with
  | [] => []
  | node :: rest =>
      if String.eqb (cpu_name node) "cpu@0" then node :: rest
      else from_cpu0 rest
  end.

(** [mpidr0] is the value the uninitialised local [mpidr] happens to
    hold on entry. *)
Definition read_cpuinfo_from_dt (mpidr0 : Z) (dtb : dtb_t) (st : sbsa_state)
    : outcome sbsa_state :=
  match dt_cpus dtb with
  | None => Panic
  | Some subnodes =>
      let '(cpu, st) := cpu_walk (from_cpu0 subnodes) 0 0 (u64 mpidr0) st in
      Done (set_num_cpus st (u32 cpu))
  end.

Definition read_platform_config_from_dt (dtb : dtb_t) (st : sbsa_state)
    : sbsa_state :=
  match dt_intc dtb with
  | None => st
  | Some node =>
      if negb (intc_reg node) then st
      else
        match intc_reg0 node with
        | None => st
        | Some gicd =>
            match intc_reg1 node with
            | None => st
            | Some gicr =>
                let st := sbsa_set_gic_bases st (u64 gicd) (u64 gicr) in
                match intc_its node with
                | None => st
                | Some None => st
                | Some (Some its) => set_gic_its_addr st (u64 its)
                end
            end
        end
  end.

(** [fdt32_ld(p)]: loads the big-endian cell [p] points to. *)
Definition fdt32_ld (p : option Z) : outcome Z :=
  do v <- deref p; Done (u32 v).

Definition read_platform_version (dtb : dtb_t) (st : sbsa_state)
    : outcome sbsa_state :=
  match dt_root dtb with
  | Some node =>
      do major <- fdt32_ld (machine_version_major node);
      let st := set_version st (to_int major) (platform_version_minor st) in
      do minor <- fdt32_ld (machine_version_minor node);
      Done (set_version st (platform_version_major st) (to_int minor))
  | None => Done st
  end.

Definition sip_svc_init (mpidr0 : Z) (dtb : dtb_t) (st : sbsa_state)
    : outcome sbsa_state :=
  if dt_open_err dtb <? 0 then Done st
  else if dt_header_err dtb <? 0 then Done st
  else
    do st <- read_platform_version dtb st;
    let st := read_platform_config_from_dt dtb st in
    read_cpuinfo_from_dt mpidr0 dtb st.

(** The handler reads the state and writes result registers only; the
    result is the words it writes. [x2], [x3], [x4] and the cookie are not
    looked at. *)
Definition sbsa_sip_smc_handler (st : sbsa_state)
    (smc_fid x1 x2 x3 x4 flags : Z) : smc_ret :=
  let ns := is_caller_non_secure flags in
  if negb ns then SMC_RET1 SMC_UNK
  else if smc_fid =? SIP_SVC_VERSION then
    SMC_RET3 0 (u64 (platform_version_major st))
               (u64 (platform_version_minor st))
  else if smc_fid =? SIP_SVC_GET_GIC then
    SMC_RET3 0 (sbsa_get_gicd st) (sbsa_get_gicr st)
  else if smc_fid =? SIP_SVC_GET_GIC_ITS then
    SMC_RET2 0 (gic_its_addr st)
  else if smc_fid =? SIP_SVC_GET_CPU_COUNT then
    SMC_RET2 0 (num_cpus st)
  else if smc_fid =? SIP_SVC_GET_CPU_NODE then
    let index := u64 x1 in
    if index <? PLATFORM_CORE_COUNT then
      SMC_RET3 0 (nodeid (cpu st !!! Z.to_nat index))
                 (mpidr (cpu st !!! Z.to_nat index))
    else SMC_RET1 SMC_ARCH_CALL_INVAL_PARAM
  else SMC_RET1 SMC_UNK.

End sbsa_sip_svc.

(** * Part II: the STM32MP1 post-load hook *)

(** ** Image descriptors *)

(** The descriptor structures are declared in headers outside the two
    translation units; the records below have the members the hook reads or
    writes, under their C names, and the remaining members of the spec's image
    record. *)

(** [image_info_t]; [h_attr] is [h.attr]. *)
Record image_info_t : Type := {
  h_attr : Z;
  image_base : Z;
  image_size : Z;
  image_max_size : Z
}.

(** [entry_point_info_t] of an AArch32 build; [arg0] to [arg3] are
    [args.arg0] to [args.arg3]. *)
Record entry_point_info_t : Type := {
  pc : Z;
  spsr : Z;
  lr_svc : Z;
  arg0 : Z;
  arg1 : Z;
  arg2 : Z;
  arg3 : Z
}.

Record bl_mem_params_node_t : Type := {
  image_id : Z;
  image_info : image_info_t;
  ep_info : entry_point_info_t
}.

(** An entry of the Config Store. *)
Record dyn_cfg_dtb_info_t : Type := {
  config_addr : Z;
  config_max_size : Z
}.

(** Field stores. *)
Definition set_image_info (f : image_info_t -> image_info_t)
    (n : bl_mem_params_node_t) : bl_mem_params_node_t :=
  {| image_id := image_id n; image_info := f (image_info n); ep_info := ep_info n |}.

Definition set_ep_info (f : entry_point_info_t -> entry_point_info_t)
    (n : bl_mem_params_node_t) : bl_mem_params_node_t :=
  {| image_id := image_id n; image_info := image_info n; ep_info := f (ep_info n) |}.

Definition with_h_attr (v : Z) (i : image_info_t) : image_info_t :=
  {| h_attr := v; image_base := image_base i;
     image_size := image_size i; image_max_size := image_max_size i |}.

Definition with_image_base (v : Z) (i : image_info_t) : image_info_t :=
  {| h_attr := h_attr i; image_base := v;
     image_size := image_size i; image_max_size := image_max_size i |}.

Definition with_image_max_size (v : Z) (i : image_info_t) : image_info_t :=
  {| h_attr := h_attr i; image_base := image_base i;
     image_size := image_size i; image_max_size := v |}.

Definition with_pc (v : Z) (e : entry_point_info_t) : entry_point_info_t :=
  {| pc := v; spsr := spsr e; lr_svc := lr_svc e;
     arg0 := arg0 e; arg1 := arg1 e; arg2 := arg2 e; arg3 := arg3 e |}.

Definition with_lr_svc (v : Z) (e : entry_point_info_t) : entry_point_info_t :=
  {| pc := pc e; spsr := spsr e; lr_svc := v;
     arg0 := arg0 e; arg1 := arg1 e; arg2 := arg2 e; arg3 := arg3 e |}.

Definition with_arg0 (v : Z) (e : entry_point_info_t) : entry_point_info_t :=
  {| pc := pc e; spsr := spsr e; lr_svc := lr_svc e;
     arg0 := v; arg1 := arg1 e; arg2 := arg2 e; arg3 := arg3 e |}.

Definition with_arg1 (v : Z) (e : entry_point_info_t) : entry_point_info_t :=
  {| pc := pc e; spsr := spsr e; lr_svc := lr_svc e;
     arg0 := arg0 e; arg1 := v; arg2 := arg2 e; arg3 := arg3 e |}.

Definition with_arg2 (v : Z) (e : entry_point_info_t) : entry_point_info_t :=
  {| pc := pc e; spsr := spsr e; lr_svc := lr_svc e;
     arg0 := arg0 e; arg1 := arg1 e; arg2 := v; arg3 := arg3 e |}.

(** The image descriptor table: the array of [bl_mem_params_node_t] the
    platform registers. A pointer to a node is its position in the array. *)
Abbreviation mem_params_table := (list bl_mem_params_node_t).

(** Modelled from the spec: [get_bl_mem_params_node] is defined outside the
    two translation units. The Image Descriptor Table is "a fixed, ordered set of
    image records", and getting a node is a lookup by identity that may find
    nothing: the first record of that identity, or NULL. *)
Fixpoint get_bl_mem_params_node (id : Z) (tbl : mem_params_table) : option nat :=
  match tbl with
  | [] => None
  | n :: rest =>
      if image_id n =? id then Some 0%nat
      else S <$> get_bl_mem_params_node id rest
  end.

(** State the hook works on: the table, and the cache maintenance it has
    asked for ([inv_dcache_range (addr, size)], newest first). *)
Record bl2_state : Type := {
  bl_mem_params_desc : mem_params_table;
  dcache_inv : list (Z * Z)
}.

(** Constants and build options the hook takes from the platform headers:
    the seven image identities, the skip-loading attribute bit, [EINVAL], the
    DDR layout, the OP-TEE load area, the MMC block size, and the options the
    [#if] lines test ([STM32MP_SDMMC] and [STM32MP_EMMC] are only tested
    together). *)
Class platform_def : Type := {
  FW_CONFIG_ID : Z;
  BL32_IMAGE_ID : Z;
  BL33_IMAGE_ID : Z;
  BL32_EXTRA1_IMAGE_ID : Z;
  BL32_EXTRA2_IMAGE_ID : Z;
  HW_CONFIG_ID : Z;
  TOS_FW_CONFIG_ID : Z;
  IMAGE_ATTRIB_SKIP_LOADING : Z;
  EINVAL : Z;
  STM32MP_DDR_BASE : Z;
  STM32MP_DDR_S_SIZE : Z;
  STM32MP_DDR_SHMEM_SIZE : Z;
  STM32MP_OPTEE_BASE : Z;
  STM32MP_OPTEE_SIZE : Z;
  MMC_BLOCK_SIZE : Z;
  STM32MP_USE_STM32IMAGE : bool;
  AARCH32_SP_OPTEE : bool;
  STM32MP_SDMMC : bool;
  STM32MP_EMMC : bool
}.

(** What one pass of the firmware-config loop hands back: go on with the
    next identity, or leave the function with a value. *)
Inductive loop_exit : Type :=
| Continue (tbl : mem_params_table)
| Return (err : Z) (tbl : mem_params_table).

Section bl2_plat_setup.

Context `{pd : platform_def}.

(** The Config Store as [set_config_info] and [fconf_populate] leave it. *)
Variable dtb_infos : gmap Z dyn_cfg_dtb_info_t.

(** [dt_get_ddr_size ()], a [uint32_t] read from the device tree. *)
Variable dt_get_ddr_size : Z.

(** [optee_header_is_valid (addr)]: whether the bytes at [addr] start with
    a composite header. *)
Variable optee_header_is_valid : Z -> bool.

(** [parse_optee_header (ep, pager, paged)]: its return value and what it
    leaves in the three objects it is given pointers to. *)
Variable parse_optee_header :
  entry_point_info_t -> image_info_t -> image_info_t ->
  Z * entry_point_info_t * image_info_t * image_info_t.

(** Modelled from the spec: the getter behind [FCONF_GET_PROPERTY (dyn_cfg,
    dtb, id)] is defined outside the two translation units. The Config Store
    is "an in-memory table mapping a configuration-blob identifier to its
    resolved base address and maximum size", and "absence of an entry for an
    optional identity is not an error": the getter yields the entry, or
    NULL. *)
Definition dyn_cfg_dtb_info_getter (id : Z) : option dyn_cfg_dtb_info_t :=
  dtb_infos !! id.

(** Modelled from the spec: [dyn_cfg_dtb_info_get_index] is defined outside
    the two translation units as well; the hook only compares its result with
    [FCONF_INVALID_IDX], which says that the same table has no entry of that
    identifier. *)
Definition dyn_cfg_dtb_info_invalid_idx (id : Z) : bool :=
  bool_decide (dtb_infos !! id = None).

Definition image_ids : list Z :=
  [BL32_IMAGE_ID; BL33_IMAGE_ID; HW_CONFIG_ID; TOS_FW_CONFIG_ID].

(** [STM32MP_DDR_BASE + (dt_get_ddr_size() - STM32MP_DDR_S_SIZE -
    STM32MP_DDR_SHMEM_SIZE)], in [unsigned int]. *)
Definition paged_image_base : Z :=
  u32 (STM32MP_DDR_BASE +
       u32 (u32 (dt_get_ddr_size - STM32MP_DDR_S_SIZE) - STM32MP_DDR_SHMEM_SIZE)).

(** The body of the loop over [image_ids], for [image_ids[i] = id];
    [idx_invalid] is [idx == FCONF_INVALID_IDX]. *)
Definition fw_config_body (idx_invalid : bool) (id : Z) (tbl : mem_params_table)
    : outcome loop_exit :=
  if (id =? TOS_FW_CONFIG_ID) && idx_invalid then Done (Continue tbl)
  else
    do bl_mem_params <- assert_non_null (get_bl_mem_params_node id tbl);
    match dyn_cfg_dtb_info_getter id with
    | None => Done (Continue tbl)
    | Some config_info =>
        let tbl :=
          alter (set_image_info (with_image_base (config_addr config_info)))
                bl_mem_params tbl in
        let tbl :=
          alter (set_image_info (with_image_max_size (config_max_size config_info)))
                bl_mem_params tbl in
        let tbl :=
          alter (set_image_info (fun i =>
                   with_h_attr (Z.land (h_attr i) (not32 IMAGE_ATTRIB_SKIP_LOADING)) i))
                bl_mem_params tbl in
        if id =? BL32_IMAGE_ID then
          let tbl :=
            alter (set_ep_info (with_pc (config_addr config_info)))
                  bl_mem_params tbl in
          do pager_mem_params <-
            deref (get_bl_mem_params_node BL32_EXTRA1_IMAGE_ID tbl);
          let tbl :=
            alter (set_image_info (with_image_base (config_addr config_info)))
                  pager_mem_params tbl in
          let tbl :=
            alter (set_image_info (with_image_max_size (config_max_size config_info)))
                  pager_mem_params tbl in
          do paged_mem_params <-
            deref (get_bl_mem_params_node BL32_EXTRA2_IMAGE_ID tbl);
          let tbl :=
            alter (set_image_info (with_image_base paged_image_base))
                  paged_mem_params tbl in
          let tbl :=
            alter (set_image_info (with_image_max_size STM32MP_DDR_S_SIZE))
                  paged_mem_params tbl in
          Done (Continue tbl)
        else if id =? BL33_IMAGE_ID then
          let tbl :=
            alter (set_ep_info (with_pc (config_addr config_info)))
                  bl_mem_params tbl in
          Done (Continue tbl)
        else if (id =? HW_CONFIG_ID) || (id =? TOS_FW_CONFIG_ID) then
          Done (Continue tbl)
        else Done (Return (- EINVAL) tbl)
    end.

(** [for (i = 0U; i < ARRAY_SIZE(image_ids); i++)]. *)
Fixpoint fw_config_loop (idx_invalid : bool) (ids : list Z) (tbl : mem_params_table)
    : outcome loop_exit :=
  match ids with
  | [] => Done (Continue tbl)
  | id :: rest =>
      do r <- fw_config_body idx_invalid id tbl;
      match r with
      | Continue tbl => fw_config_loop idx_invalid rest tbl
      | Return err tbl => Done (Return err tbl)
      end
  end.

(** The [FW_CONFIG_ID] case. *)
Definition handle_fw_config (tbl : mem_params_table) : outcome loop_exit :=
  let idx_invalid := dyn_cfg_dtb_info_invalid_idx TOS_FW_CONFIG_ID in
  fw_config_loop idx_invalid image_ids tbl.

(** The [BL32_IMAGE_ID] case; [bl_mem_params] points to the node of the
    image that was loaded. *)
Definition handle_bl32 (bl_mem_params : nat) (tbl : mem_params_table)
    : outcome mem_params_table :=
  do node <- deref (tbl !! bl_mem_params);
  if optee_header_is_valid (image_base (image_info node)) then
    let tbl :=
      alter (set_ep_info (with_pc (image_base (image_info node))))
            bl_mem_params tbl in
    let pager := get_bl_mem_params_node BL32_EXTRA1_IMAGE_ID tbl in
    let paged := get_bl_mem_params_node BL32_EXTRA2_IMAGE_ID tbl in
    do pager_mem_params <- assert_non_null pager;
    do paged_mem_params <- assert_non_null paged;
    let tbl :=
      if STM32MP_USE_STM32IMAGE && AARCH32_SP_OPTEE then
        let tbl :=
          alter (set_image_info (with_image_base STM32MP_OPTEE_BASE))
                pager_mem_params tbl in
        let tbl :=
          alter (set_image_info (with_image_max_size STM32MP_OPTEE_SIZE))
                pager_mem_params tbl in
        let tbl :=
          alter (set_image_info (with_image_base
                   (u32 (u32 (u32 (STM32MP_DDR_BASE + dt_get_ddr_size)
                              - STM32MP_DDR_S_SIZE)
                         - STM32MP_DDR_SHMEM_SIZE))))
                paged_mem_params tbl in
        alter (set_image_info (with_image_max_size STM32MP_DDR_S_SIZE))
              paged_mem_params tbl
      else tbl in
    do ep <- deref (ep_info <$> tbl !! bl_mem_params);
    do pager_info <- deref (image_info <$> tbl !! pager_mem_params);
    do paged_info <- deref (image_info <$> tbl !! paged_mem_params);
    let '(err, ep, pager_info, paged_info) :=
      parse_optee_header ep pager_info paged_info in
    let tbl := alter (set_ep_info (fun _ => ep)) bl_mem_params tbl in
    let tbl := alter (set_image_info (fun _ => pager_info)) pager_mem_params tbl in
    let tbl := alter (set_image_info (fun _ => paged_info)) paged_mem_params tbl in
    if negb (err =? 0) then Panic
    else
      do paged_node <- deref (tbl !! paged_mem_params);
      let tbl :=
        alter (set_ep_info (with_arg0 (image_base (image_info paged_node))))
              bl_mem_params tbl in
      let tbl := alter (set_ep_info (with_arg1 0)) bl_mem_params tbl in
      let tbl := alter (set_ep_info (with_arg2 0)) bl_mem_params tbl in
      Done tbl
  else
    do tbl <-
      (if negb STM32MP_USE_STM32IMAGE then
         let tbl :=
           alter (set_ep_info (with_pc (image_base (image_info node))))
                 bl_mem_params tbl in
         let tos_fw_mem_params := get_bl_mem_params_node TOS_FW_CONFIG_ID tbl in
         do tos_fw_node <- deref (tos_fw_mem_params ≫= (tbl !!.));
         Done (alter (set_image_info (fun i =>
                        with_image_max_size
                          (u32 (image_max_size i
                                + image_max_size (image_info tos_fw_node))) i))
                     bl_mem_params tbl)
       else Done tbl);
    Done (alter (set_ep_info (with_arg0 0)) bl_mem_params tbl).

(** The [BL33_IMAGE_ID] case. *)
Definition handle_bl33 (bl_mem_params : nat) (tbl : mem_params_table)
    : outcome mem_params_table :=
  do bl32_mem_params <- assert_non_null (get_bl_mem_params_node BL32_IMAGE_ID tbl);
  do node <- deref (tbl !! bl_mem_params);
  Done (alter (set_ep_info (with_lr_svc (pc (ep_info node)))) bl32_mem_params tbl).

(** The block under [#if STM32MP_SDMMC || STM32MP_EMMC]. *)
Definition invalidate_mmc_tail (image_id : Z) (bl_mem_params : nat) (st : bl2_state)
    : outcome bl2_state :=
  if STM32MP_SDMMC || STM32MP_EMMC then
    if image_id =? FW_CONFIG_ID then Done st
    else
      do node <- deref (bl_mem_params_desc st !! bl_mem_params);
      if Z.land (h_attr (image_info node)) IMAGE_ATTRIB_SKIP_LOADING =? 0 then
        Done {| bl_mem_params_desc := bl_mem_params_desc st;
                dcache_inv :=
                  (u32 (image_base (image_info node) + image_size (image_info node)),
                   u32 (2 * MMC_BLOCK_SIZE)) :: dcache_inv st |}
      else Done st
  else Done st.

(** [bl2_plat_handle_post_image_load (image_id)]: the value returned and
    the state left behind. *)
Definition bl2_plat_handle_post_image_load (image_id : Z) (st : bl2_state)
    : outcome (Z * bl2_state) :=
  let err := 0 in
  let tbl := bl_mem_params_desc st in
  do bl_mem_params <- assert_non_null (get_bl_mem_params_node image_id tbl);
  do r <-
    (if negb STM32MP_USE_STM32IMAGE && (image_id =? FW_CONFIG_ID) then
       handle_fw_config tbl
     else if image_id =? BL32_IMAGE_ID then
       do tbl <- handle_bl32 bl_mem_params tbl; Done (Continue tbl)
     else if image_id =? BL33_IMAGE_ID then
       do tbl <- handle_bl33 bl_mem_params tbl; Done (Continue tbl)
     else Done (Continue tbl));
  match r with
  | Return e tbl =>
      Done (e, {| bl_mem_params_desc := tbl; dcache_inv := dcache_inv st |})
  | Continue tbl =>
      do st <- invalidate_mmc_tail image_id bl_mem_params
                 {| bl_mem_params_desc := tbl; dcache_inv := dcache_inv st |};
      Done (err, st)
  end.

End bl2_plat_setup.

(** ** The reset reason report *)

(** The flag masks of the reset status register, from the clock controller
    header. *)
Class rcc_def : Type := {
  RCC_MP_RSTSCLRR_PORRSTF : Z;
  RCC_MP_RSTSCLRR_BORRSTF : Z;
  RCC_MP_RSTSCLRR_PADRSTF : Z;
  RCC_MP_RSTSCLRR_HCSSRSTF : Z;
  RCC_MP_RSTSCLRR_VCORERSTF : Z;
  RCC_MP_RSTSCLRR_MPSYSRSTF : Z;
  RCC_MP_RSTSCLRR_MCSYSRSTF : Z;
  RCC_MP_RSTSCLRR_IWDG1RSTF : Z;
  RCC_MP_RSTSCLRR_IWDG2RSTF : Z;
  RCC_MP_RSTSCLRR_STDBYRSTF : Z;
  RCC_MP_RSTSCLRR_CSTDBYRSTF : Z;
  RCC_MP_RSTSCLRR_MPUP0RSTF : Z;
  RCC_MP_RSTSCLRR_MPUP1RSTF : Z
}.

(** The lines [print_reset_reason] can log, named after their level and
    text. *)
Inductive reset_log : Type :=
| WARN_Reset_reason_unknown
| INFO_Reset_reason (rstsr : Z)
| INFO_System_exits_from_STANDBY
| INFO_MPU_exits_from_CSTANDBY
| INFO_Power_on_Reset
| INFO_Brownout_Reset
| INFO_System_reset_generated_by_MCU
| INFO_Local_reset_generated_by_MCU
| INFO_System_reset_generated_by_MPU
| INFO_Reset_due_to_a_clock_failure_on_HSE
| INFO_IWDG1_Reset
| INFO_IWDG2_Reset
| INFO_MPU_Processor_0_Reset
| INFO_MPU_Processor_1_Reset
| INFO_Pad_Reset_from_NRST
| INFO_Reset_due_to_a_failure_of_VDD_CORE
| ERROR_Unidentified_reset_reason.

(** [(rstsr & mask) != 0U]. *)
Definition flag_set (rstsr mask : Z) : bool := negb (Z.land rstsr mask =? 0).

(** [print_reset_reason], for the value [rstsr] read from the status
    register: the lines logged, in order. *)
Definition print_reset_reason `{rd : rcc_def} (rstsr : Z) : list reset_log :=
  if rstsr =? 0 then [WARN_Reset_reason_unknown]
  else
    INFO_Reset_reason rstsr ::
    (if negb (flag_set rstsr RCC_MP_RSTSCLRR_PADRSTF)
        && flag_set rstsr RCC_MP_RSTSCLRR_STDBYRSTF
     then [INFO_System_exits_from_STANDBY]
     else if negb (flag_set rstsr RCC_MP_RSTSCLRR_PADRSTF)
             && flag_set rstsr RCC_MP_RSTSCLRR_CSTDBYRSTF
     then [INFO_MPU_exits_from_CSTANDBY]
     else if flag_set rstsr RCC_MP_RSTSCLRR_PORRSTF
     then [INFO_Power_on_Reset]
     else if flag_set rstsr RCC_MP_RSTSCLRR_BORRSTF
     then [INFO_Brownout_Reset]
     else if flag_set rstsr RCC_MP_RSTSCLRR_MCSYSRSTF
     then
       if flag_set rstsr RCC_MP_RSTSCLRR_PADRSTF
       then [INFO_System_reset_generated_by_MCU]
       else [INFO_Local_reset_generated_by_MCU]
     else if flag_set rstsr RCC_MP_RSTSCLRR_MPSYSRSTF
     then [INFO_System_reset_generated_by_MPU]
     else if flag_set rstsr RCC_MP_RSTSCLRR_HCSSRSTF
     then [INFO_Reset_due_to_a_clock_failure_on_HSE]
     else if flag_set rstsr RCC_MP_RSTSCLRR_IWDG1RSTF
     then [INFO_IWDG1_Reset]
     else if flag_set rstsr RCC_MP_RSTSCLRR_IWDG2RSTF
     then [INFO_IWDG2_Reset]
     else if flag_set rstsr RCC_MP_RSTSCLRR_MPUP0RSTF
     then [INFO_MPU_Processor_0_Reset]
     else if flag_set rstsr RCC_MP_RSTSCLRR_MPUP1RSTF
     then [INFO_MPU_Processor_1_Reset]
     else if flag_set rstsr RCC_MP_RSTSCLRR_PADRSTF
     then [INFO_Pad_Reset_from_NRST]
     else if flag_set rstsr RCC_MP_RSTSCLRR_VCORERSTF
     then [INFO_Reset_due_to_a_failure_of_VDD_CORE]
     else [ERROR_Unidentified_reset_reason]).

(** * Part III: the per-CPU sequence of the spec, and reference inputs *)

(** The entries of the spec's Platform Descriptor Cache: "for each
    [sub-node], reads an affinity/routing identifier from its first register
    entry and an optional NUMA-node identifier (defaulting to the previous
    iteration's value if absent). Appends one {node_id, affinity_id} entry per
    sub-node found, in traversal order". [nodeid] and [mpidr] are the values
    carried over from the previous sub-node. *)
Fixpoint spec_cpu_entries (nodes : list dt_cpu_node) (nodeid mpidr : Z)
    : list cpu_data :=
  match nodes with
  | [] => []
  | node :: rest =>
      let mpidr := default mpidr (u64 <$> cpu_reg node) in
      let nodeid := default nodeid (u32 <$> cpu_numa_node_id node) in
      {| nodeid := nodeid; mpidr := u32 mpidr |}
        :: spec_cpu_entries rest nodeid mpidr
  end.

(** The sequence for a whole blob: the sub-nodes of [/cpus] from "cpu@0"
    on, starting from node id 0. *)
Definition spec_cpu_sequence (mpidr0 : Z) (dtb : dtb_t) : list cpu_data :=
  match dt_cpus dtb with
  | Some subnodes => spec_cpu_entries (from_cpu0 subnodes) 0 (u64 mpidr0)
  | None => []
  end.

(** Whether initialisation gets as far as reading the blob. *)
Definition dt_usable (dtb : dtb_t) : bool :=
  negb (dt_open_err dtb <? 0) && negb (dt_header_err dtb <? 0).

(** ** Reference inputs *)

(** The flags test of the calling convention: bit 0 of the flags word is set
    for a caller in the non-secure world. *)
Definition flags_bit0 (flags : Z) : bool := Z.testbit flags 0.

(** Sub-node number [i] of [/cpus]: named "cpu@0" for the first, with [i] as
    its affinity identifier and no NUMA property. *)
Definition numbered_cpu (i : nat) : dt_cpu_node :=
  {| cpu_name := match i with O => "cpu@0" | S _ => "cpu@n" end;
     cpu_reg := Some (Z.of_nat i);
     cpu_numa_node_id := None |}.

(** A well-formed blob of version 0.9 with [n] processing units and no
    interrupt controller node. *)
Definition dtb_with_cpus (n : nat) : dtb_t :=
  {| dt_open_err := 0;
     dt_header_err := 0;
     dt_root := Some {| machine_version_major := Some 0;
                        machine_version_minor := Some 9 |};
     dt_intc := None;
     dt_cpus := Some (numbered_cpu <$> seq 0 n) |}.

(** A well-formed blob whose root node has no version properties. *)
Definition dtb_without_version : dtb_t :=
  {| dt_open_err := 0;
     dt_header_err := 0;
     dt_root := Some {| machine_version_major := None;
                        machine_version_minor := None |};
     dt_intc := None;
     dt_cpus := Some [numbered_cpu 0] |}.

(** The state a run of the initialisation ends in, when it ends. *)
Definition state_after {A : Type} (dflt : A) (r : outcome A) : A :=
  match r with Done a => a | _ => dflt end.

(** A platform of four cores, initialised from a blob with three. *)
Definition sbsa_three_of_four : sbsa_state :=
  state_after (sbsa_state_init 4)
    (sip_svc_init 4 0 (dtb_with_cpus 3) (sbsa_state_init 4)).

(** ** Views of the image descriptor table *)

(** The record [get_bl_mem_params_node (id)] points to, if any. *)
Definition image_record (id : Z) (tbl : mem_params_table)
    : option bl_mem_params_node_t :=
  get_bl_mem_params_node id tbl ≫= (tbl !!.).

(** The skip-loading attribute of a record is set. *)
Definition skip_loading `{pd : platform_def} (n : bl_mem_params_node_t) : bool :=
  negb (Z.land (h_attr (image_info n)) IMAGE_ATTRIB_SKIP_LOADING =? 0).

(** The identities the hook names are pairwise different constants: the
    case labels of its two [switch] statements have to differ for the file to
    compile, and the identities of the two extra images are numbers of their
    own. *)
Definition ids_distinct `{pd : platform_def} : Prop :=
  NoDup [FW_CONFIG_ID; BL32_IMAGE_ID; BL33_IMAGE_ID; HW_CONFIG_ID;
         TOS_FW_CONFIG_ID; BL32_EXTRA1_IMAGE_ID; BL32_EXTRA2_IMAGE_ID].

(** The table registers a record for each of these identities. *)
Definition table_complete `{pd : platform_def} (tbl : mem_params_table) : Prop :=
  Forall (λ id, is_Some (get_bl_mem_params_node id tbl))
    [FW_CONFIG_ID; BL32_IMAGE_ID; BL33_IMAGE_ID; HW_CONFIG_ID;
     TOS_FW_CONFIG_ID; BL32_EXTRA1_IMAGE_ID; BL32_EXTRA2_IMAGE_ID].

(** What the firmware-config pass stores into the record of an iterated
    identity that has a config entry. *)
Definition config_patch `{pd : platform_def} (id : Z) (ci : dyn_cfg_dtb_info_t)
    (n : bl_mem_params_node_t) : bl_mem_params_node_t :=
  let n := set_image_info (with_image_base (config_addr ci)) n in
  let n := set_image_info (with_image_max_size (config_max_size ci)) n in
  let n := set_image_info (λ i,
             with_h_attr (Z.land (h_attr i) (not32 IMAGE_ATTRIB_SKIP_LOADING)) i) n in
  if (id =? BL32_IMAGE_ID) || (id =? BL33_IMAGE_ID)
  then set_ep_info (with_pc (config_addr ci)) n else n.

(** What it stores into the pager record when the trusted OS has an entry. *)
Definition pager_patch (ci : dyn_cfg_dtb_info_t) (n : bl_mem_params_node_t)
    : bl_mem_params_node_t :=
  set_image_info (with_image_max_size (config_max_size ci))
    (set_image_info (with_image_base (config_addr ci)) n).

(** What it stores into the paged-overlay record in that case. *)
Definition paged_patch `{pd : platform_def} (dt_get_ddr_size : Z)
    (n : bl_mem_params_node_t) : bl_mem_params_node_t :=
  set_image_info (with_image_max_size STM32MP_DDR_S_SIZE)
    (set_image_info (with_image_base (paged_image_base dt_get_ddr_size)) n).

(** The effect of the pass for [image_ids[i] = id] on the record of [id'],
    given the Config Store. *)
Definition body_effect `{pd : platform_def}
    (dtb_infos : gmap Z dyn_cfg_dtb_info_t) (dt_get_ddr_size : Z)
    (id id' : Z) (r : option bl_mem_params_node_t)
    : option bl_mem_params_node_t :=
  match dtb_infos !! id with
  | None => r
  | Some ci =>
      if decide (id' = id) then config_patch id ci <$> r
      else if decide (id = BL32_IMAGE_ID ∧ id' = BL32_EXTRA1_IMAGE_ID)
      then pager_patch ci <$> r
      else if decide (id = BL32_IMAGE_ID ∧ id' = BL32_EXTRA2_IMAGE_ID)
      then paged_patch dt_get_ddr_size <$> r
      else r
  end.

(** ** A reference platform for the post-load hook *)

(** Identity numbers, attribute bit and DDR layout of an STM32MP1 build
    that loads its images from a FIP off an SD card or eMMC. *)
Definition stm32mp1_reference : platform_def :=
  {| FW_CONFIG_ID := 31;
     BL32_IMAGE_ID := 4;
     BL33_IMAGE_ID := 5;
     BL32_EXTRA1_IMAGE_ID := 21;
     BL32_EXTRA2_IMAGE_ID := 22;
     HW_CONFIG_ID := 23;
     TOS_FW_CONFIG_ID := 26;
     IMAGE_ATTRIB_SKIP_LOADING := 2;
     EINVAL := 22;
     STM32MP_DDR_BASE := 0xC0000000;
     STM32MP_DDR_S_SIZE := 0x01E00000;
     STM32MP_DDR_SHMEM_SIZE := 0x00200000;
     STM32MP_OPTEE_BASE := 0x2FFC0000;
     STM32MP_OPTEE_SIZE := 0x00040000;
     MMC_BLOCK_SIZE := 512;
     STM32MP_USE_STM32IMAGE := false;
     AARCH32_SP_OPTEE := false;
     STM32MP_SDMMC := true;
     STM32MP_EMMC := true |}.

Definition ep_info_zero : entry_point_info_t :=
  {| pc := 0; spsr := 0; lr_svc := 0; arg0 := 0; arg1 := 0; arg2 := 0; arg3 := 0 |}.

(** A descriptor as compiled in: not yet loaded, no entry point. *)
Definition compiled_node (id attr base max : Z) : bl_mem_params_node_t :=
  {| image_id := id;
     image_info := {| h_attr := attr; image_base := base;
                      image_size := 0; image_max_size := max |};
     ep_info := ep_info_zero |}.

(** The table of the reference platform: the firmware config is loaded, the
    other images wait for the firmware config to place them. *)
Definition reference_table : mem_params_table :=
  [ compiled_node 31 0 0x2FFC0000 0x2000;
    compiled_node 4 2 0 0;
    compiled_node 21 2 0 0;
    compiled_node 22 2 0 0;
    compiled_node 23 2 0 0;
    compiled_node 26 2 0 0x1000;
    compiled_node 5 2 0 0;
    compiled_node 3 0 0x2FFC2000 0x10000 ].

Definition reference_state : bl2_state :=
  {| bl_mem_params_desc := reference_table; dcache_inv := [] |}.

(** A Config Store with entries for the trusted OS, the normal-world loader
    and the hardware config, and none for the trusted OS config. *)
Definition reference_config : gmap Z dyn_cfg_dtb_info_t :=
  <[4 := {| config_addr := 0xDE000000; config_max_size := 0x01E00000 |}]>
  (<[5 := {| config_addr := 0xC0100000; config_max_size := 0x02000000 |}]>
  (<[23 := {| config_addr := 0xC4000000; config_max_size := 0x00040000 |}]> ∅)).

(** 512 MiB of DDR. *)
Definition reference_ddr_size : Z := 0x20000000.

(** Memory in which no image starts with a composite header. *)
Definition no_composite_header (addr : Z) : bool := false.

(** Memory in which every image does. *)
Definition composite_header_everywhere (addr : Z) : bool := true.

(** A parser that rejects every header and leaves its arguments alone. *)
Definition parse_fails (ep : entry_point_info_t) (pager paged : image_info_t)
    : Z * entry_point_info_t * image_info_t * image_info_t :=
  (-1, ep, pager, paged).

(** The table once the firmware config of the reference platform has been
    handled. *)
Definition reference_state_resolved : bl2_state :=
  snd (state_after (0, reference_state)
         (bl2_plat_handle_post_image_load (pd := stm32mp1_reference)
            reference_config reference_ddr_size no_composite_header parse_fails
            31 reference_state)).

(** ** Further views and reference inputs *)

(** Whether the version reader gets through the blob: no root node, or a
    root node with both version properties. *)
Definition dt_version_readable (dtb : dtb_t) : bool :=
  match dt_root dtb with
  | None => true
  | Some root =>
      bool_decide (is_Some (machine_version_major root))
      && bool_decide (is_Some (machine_version_minor root))
  end.

(** A well-formed blob of version 0.9 with an interrupt controller, its
    translation service and two processing units. *)
Definition dtb_with_gic : dtb_t :=
  {| dt_open_err := 0;
     dt_header_err := 0;
     dt_root := Some {| machine_version_major := Some 0;
                        machine_version_minor := Some 9 |};
     dt_intc := Some {| intc_reg := true;
                        intc_reg0 := Some 0x40060000;
                        intc_reg1 := Some 0x40080000;
                        intc_its := Some (Some 0x44081000) |};
     dt_cpus := Some (numbered_cpu <$> seq 0 2) |}.

(** A blob that [fdt_open_into] rejects. *)
Definition dtb_unusable : dtb_t :=
  {| dt_open_err := -9;
     dt_header_err := 0;
     dt_root := None;
     dt_intc := None;
     dt_cpus := None |}.

(** The descriptor fields other than the per-CPU array, its count and the
    overrun record. *)
Definition descriptor_header (st : sbsa_state) : Z * Z * Z * Z * Z :=
  (platform_version_major st, platform_version_minor st,
   gic_its_addr st, gicd_base st, gicr_base st).

(** A well-formed blob whose /cpus node has a topology map before "cpu@0",
    then two processing units, the first on NUMA node 1 and the second with
    an affinity identifier wider than 32 bits and no NUMA property, then one
    more sub-node that is no processing unit. *)
Definition dtb_with_cpu_map : dtb_t :=
  {| dt_open_err := 0;
     dt_header_err := 0;
     dt_root := Some {| machine_version_major := Some 0;
                        machine_version_minor := Some 9 |};
     dt_intc := None;
     dt_cpus := Some [ {| cpu_name := "cpu-map"; cpu_reg := None;
                          cpu_numa_node_id := None |};
                       {| cpu_name := "cpu@0"; cpu_reg := Some 0;
                          cpu_numa_node_id := Some 1 |};
                       {| cpu_name := "cpu@1"; cpu_reg := Some 0x100000001;
                          cpu_numa_node_id := None |};
                       {| cpu_name := "idle-states"; cpu_reg := None;
                          cpu_numa_node_id := None |} ] |}.

(** A well-formed blob of version 0.9 whose /cpus node has no sub-node
    named "cpu@0". *)
Definition dtb_without_cpu0 : dtb_t :=
  {| dt_open_err := 0;
     dt_header_err := 0;
     dt_root := Some {| machine_version_major := Some 0;
                        machine_version_minor := Some 9 |};
     dt_intc := None;
     dt_cpus := Some [ {| cpu_name := "cpu-map"; cpu_reg := None;
                          cpu_numa_node_id := None |};
                       {| cpu_name := "cpu@1"; cpu_reg := Some 1;
                          cpu_numa_node_id := None |} ] |}.

(** The four-core platform after each of these blobs. *)
Definition sbsa_after (dtb : dtb_t) : sbsa_state :=
  state_after (sbsa_state_init 4) (sip_svc_init 4 0 dtb (sbsa_state_init 4)).

(** The table registers a record for each identity the hook cannot do
    without while it handles the firmware config. *)
Definition table_core `{pd : platform_def} (tbl : mem_params_table) : Prop :=
  Forall (λ id, is_Some (get_bl_mem_params_node id tbl))
    [FW_CONFIG_ID; BL32_IMAGE_ID; BL33_IMAGE_ID; HW_CONFIG_ID;
     BL32_EXTRA1_IMAGE_ID; BL32_EXTRA2_IMAGE_ID].

(** The same, and a record for the trusted OS config if the Config Store
    has an entry for it. *)
Definition table_ready `{pd : platform_def}
    (dtb_infos : gmap Z dyn_cfg_dtb_info_t) (tbl : mem_params_table) : Prop :=
  table_core tbl
  ∧ (is_Some (dtb_infos !! TOS_FW_CONFIG_ID) ->
     is_Some (get_bl_mem_params_node TOS_FW_CONFIG_ID tbl)).

(** The reference table without a record for the trusted OS config. *)
Definition reference_table_sans_tos : mem_params_table :=
  [ compiled_node 31 0 0x2FFC0000 0x2000;
    compiled_node 4 2 0 0;
    compiled_node 21 2 0 0;
    compiled_node 22 2 0 0;
    compiled_node 23 2 0 0;
    compiled_node 5 2 0 0 ].

(** A Config Store with an entry for the trusted OS config as well. *)
Definition reference_config_with_tos : gmap Z dyn_cfg_dtb_info_t :=
  <[26 := {| config_addr := 0xDFE00000; config_max_size := 0x1000 |}]>
  reference_config.

(** A parser that accepts every header: it moves the entry point past a
    header of 0x1C bytes and leaves the two load areas as it found them. *)
Definition parse_succeeds (ep : entry_point_info_t) (pager paged : image_info_t)
    : Z * entry_point_info_t * image_info_t * image_info_t :=
  (0, with_pc (pc ep + 0x1C) ep, pager, paged).

Definition reference_state_sans_tos : bl2_state :=
  {| bl_mem_params_desc := reference_table_sans_tos; dcache_inv := [] |}.

(** The reference platform built to load STM32 images with OP-TEE. *)
Definition stm32mp1_reference_stm32image : platform_def :=
  {| FW_CONFIG_ID := 31;
     BL32_IMAGE_ID := 4;
     BL33_IMAGE_ID := 5;
     BL32_EXTRA1_IMAGE_ID := 21;
     BL32_EXTRA2_IMAGE_ID := 22;
     HW_CONFIG_ID := 23;
     TOS_FW_CONFIG_ID := 26;
     IMAGE_ATTRIB_SKIP_LOADING := 2;
     EINVAL := 22;
     STM32MP_DDR_BASE := 0xC0000000;
     STM32MP_DDR_S_SIZE := 0x01E00000;
     STM32MP_DDR_SHMEM_SIZE := 0x00200000;
     STM32MP_OPTEE_BASE := 0x2FFC0000;
     STM32MP_OPTEE_SIZE := 0x00040000;
     MMC_BLOCK_SIZE := 512;
     STM32MP_USE_STM32IMAGE := true;
     AARCH32_SP_OPTEE := true;
     STM32MP_SDMMC := true;
     STM32MP_EMMC := true |}.

(** The load area of the pager as the parser is given it: the one the record
    holds, or, in a build that loads STM32 images with OP-TEE, the one the
    hook writes into the record just before the call. *)
Definition preset_pager_area `{pd : platform_def} (i : image_info_t)
    : image_info_t :=
  if STM32MP_USE_STM32IMAGE && AARCH32_SP_OPTEE then
    with_image_max_size STM32MP_OPTEE_SIZE
      (with_image_base STM32MP_OPTEE_BASE i)
  else i.

(** The same for the paged overlay. *)
Definition preset_paged_area `{pd : platform_def} (dt_get_ddr_size : Z)
    (i : image_info_t) : image_info_t :=
  if STM32MP_USE_STM32IMAGE && AARCH32_SP_OPTEE then
    with_image_max_size STM32MP_DDR_S_SIZE
      (with_image_base
         (u32 (u32 (u32 (STM32MP_DDR_BASE + dt_get_ddr_size)
                    - STM32MP_DDR_S_SIZE)
               - STM32MP_DDR_SHMEM_SIZE)) i)
  else i.

(** A parser that rejects a header when the area for the pager has no room
    for 64 KiB, and otherwise accepts it as [parse_succeeds] does. *)
Definition parse_needs_room (ep : entry_point_info_t)
    (pager paged : image_info_t)
    : Z * entry_point_info_t * image_info_t * image_info_t :=
  if image_max_size pager <? 0x10000 then (-1, ep, pager, paged)
  else (0, with_pc (pc ep + 0x1C) ep, pager, paged).

(** The reference store as a later population of it may leave it: the
    entries for the identities the hook iterates over are the same, and there
    is one more, for the firmware config itself. *)
Definition reference_config_repopulated : gmap Z dyn_cfg_dtb_info_t :=
  <[31 := {| config_addr := 0x2FFC0000; config_max_size := 0x2000 |}]>
  reference_config.

(** * Part IV: properties of the SiP service *)

Section sbsa_sip_svc_facts.

Variable PLATFORM_CORE_COUNT : Z.
Variable is_caller_non_secure : Z -> bool.

Local Abbreviation store_cpu := (store_cpu PLATFORM_CORE_COUNT).
Local Abbreviation cpu_walk := (cpu_walk PLATFORM_CORE_COUNT).
Local Abbreviation sip_svc_init := (sip_svc_init PLATFORM_CORE_COUNT).
Local Abbreviation read_cpuinfo_from_dt := (read_cpuinfo_from_dt PLATFORM_CORE_COUNT).
Local Abbreviation sbsa_state_init := (sbsa_state_init PLATFORM_CORE_COUNT).
Local Abbreviation sbsa_sip_smc_handler :=
  (sbsa_sip_smc_handler PLATFORM_CORE_COUNT is_caller_non_secure).

Lemma u64_small x : 0 <= x < 2 ^ 64 -> u64 x = x.
Proof. intros Hx. unfold u64, wrap. by apply Z.mod_small. Qed.

Lemma u32_le x : 0 <= x -> u32 x <= x.
Proof. intros Hx. unfold u32, wrap. apply Z.mod_le; lia. Qed.

Lemma store_cpu_length st i v :
  length (cpu (store_cpu st i v)) = length (cpu st).
Proof.
  unfold store_cpu. destruct (_ && _); simpl; [apply length_insert | done].
Qed.

Lemma store_cpu_lookup_ne st i v (j : nat) :
  Z.of_nat j ≠ i -> cpu (store_cpu st i v) !! j = cpu st !! j.
Proof.
  intros Hne. unfold store_cpu. destruct (_ && _) eqn:Hin; simpl; [|done].
  apply list_lookup_insert_ne. lia.
Qed.

Lemma store_cpu_lookup_eq st i v :
  0 <= i < PLATFORM_CORE_COUNT ->
  length (cpu st) = Z.to_nat PLATFORM_CORE_COUNT ->
  cpu (store_cpu st i v) !! Z.to_nat i = Some v.
Proof.
  intros Hi Hlen. unfold store_cpu.
  replace ((0 <=? i) && (i <? PLATFORM_CORE_COUNT)) with true
    by (symmetry; apply andb_true_intro; split; lia).
  simpl. apply list_lookup_insert_eq. lia.
Qed.

(** The walk counts every node it visits, whatever the capacity. *)
Lemma cpu_walk_count nodes c nid mp st :
  (cpu_walk nodes c nid mp st).1 = c + Z.of_nat (length nodes).
Proof.
  revert c nid mp st. induction nodes as [|node rest IH]; intros; simpl.
  - lia.
  - rewrite IH. lia.
Qed.

Lemma cpu_walk_length nodes c nid mp st :
  length (cpu (cpu_walk nodes c nid mp st).2) = length (cpu st).
Proof.
  revert c nid mp st. induction nodes as [|node rest IH]; intros; simpl.
  - done.
  - rewrite IH. apply store_cpu_length.
Qed.

(** Slots outside the range the walk covers keep their content. *)
Lemma cpu_walk_lookup_outside nodes c nid mp st (j : nat) :
  Z.of_nat j < c ∨ c + Z.of_nat (length nodes) <= Z.of_nat j ->
  cpu (cpu_walk nodes c nid mp st).2 !! j = cpu st !! j.
Proof.
  revert c nid mp st. induction nodes as [|node rest IH]; intros c nid mp st Hj.
  - done.
  - simpl. rewrite IH by (simpl in Hj; lia).
    apply store_cpu_lookup_ne. simpl in Hj. lia.
Qed.

(** Slot [c + k], when it exists, holds the [k]-th entry of the sequence. *)
Lemma cpu_walk_lookup_entry nodes c nid mp st (k : nat) e :
  0 <= c ->
  length (cpu st) = Z.to_nat PLATFORM_CORE_COUNT ->
  spec_cpu_entries nodes nid mp !! k = Some e ->
  c + Z.of_nat k < PLATFORM_CORE_COUNT ->
  cpu (cpu_walk nodes c nid mp st).2 !! Z.to_nat (c + Z.of_nat k) = Some e.
Proof.
  revert c nid mp st k e.
  induction nodes as [|node rest IH]; intros c nid mp st k e Hc Hlen He Hk.
  - done.
  - destruct k as [|k].
    + simpl in He. injection He as <-. simpl.
      rewrite cpu_walk_lookup_outside by lia.
      replace (c + Z.of_nat 0) with c by lia.
      destruct (cpu_reg node), (cpu_numa_node_id node);
        simpl; apply store_cpu_lookup_eq; (lia || done).
    + simpl in He |- *.
      replace (c + Z.of_nat (S k)) with ((c + 1) + Z.of_nat k) by lia.
      apply IH; try lia.
      * by rewrite store_cpu_length.
      * by destruct (cpu_reg node), (cpu_numa_node_id node).
Qed.

Lemma spec_cpu_entries_length nodes nid mp :
  length (spec_cpu_entries nodes nid mp) = length nodes.
Proof.
  revert nid mp. induction nodes as [|node rest IH]; intros; simpl; [done|].
  by rewrite IH.
Qed.

Lemma read_platform_version_cpu dtb st st' :
  read_platform_version dtb st = Done st' -> cpu st' = cpu st.
Proof.
  unfold read_platform_version.
  destruct (dt_root dtb) as [r|]; [|by intros [= <-]].
  destruct (machine_version_major r); [|done].
  destruct (machine_version_minor r); [|done].
  simpl. by intros [= <-].
Qed.

Lemma read_platform_config_from_dt_cpu dtb st :
  cpu (read_platform_config_from_dt dtb st) = cpu st.
Proof.
  unfold read_platform_config_from_dt.
  destruct (dt_intc dtb) as [node|]; [|done].
  destruct (intc_reg node); [|done]. simpl.
  destruct (intc_reg0 node); [|done].
  destruct (intc_reg1 node); [|done].
  by destruct (intc_its node) as [[?|]|].
Qed.

(** What initialisation leaves in the per-CPU objects. *)
Lemma sip_svc_init_cpus mpidr0 dtb st0 st :
  sip_svc_init mpidr0 dtb st0 = Done st ->
  (dt_usable dtb = false ∧ st = st0) ∨
  (dt_usable dtb = true ∧ ∃ subnodes st1,
     dt_cpus dtb = Some subnodes ∧ cpu st1 = cpu st0 ∧
     num_cpus st = u32 (Z.of_nat (length (from_cpu0 subnodes))) ∧
     cpu st = cpu (cpu_walk (from_cpu0 subnodes) 0 0 (u64 mpidr0) st1).2).
Proof.
  unfold sip_svc_init, dt_usable.
  destruct (dt_open_err dtb <? 0); [intros [= <-]; by left|].
  destruct (dt_header_err dtb <? 0); [intros [= <-]; by left|].
  intros Hinit. right. split; [done|].
  destruct (read_platform_version dtb st0) as [sv| | |] eqn:Hv; try done.
  simpl in Hinit. unfold read_cpuinfo_from_dt in Hinit.
  destruct (dt_cpus dtb) as [subnodes|]; [|done].
  exists subnodes, (read_platform_config_from_dt dtb sv).
  split; [done|].
  pose proof (cpu_walk_count (from_cpu0 subnodes) 0 0 (u64 mpidr0)
                (read_platform_config_from_dt dtb sv)) as Hcount.
  destruct (cpu_walk _ _ _ _ _) as [n sw]. simpl in Hcount.
  injection Hinit as <-. simpl. rewrite Hcount. split_and!; try done.
  rewrite read_platform_config_from_dt_cpu.
  by apply (read_platform_version_cpu dtb).
Qed.

(** The count is the number of sub-nodes visited; the capacity of the array
    plays no part in it. *)
Lemma num_cpus_follows_node_count mpidr0 dtb st0 st subnodes :
  sip_svc_init mpidr0 dtb st0 = Done st ->
  dt_usable dtb = true ->
  dt_cpus dtb = Some subnodes ->
  num_cpus st = u32 (Z.of_nat (length (from_cpu0 subnodes))).
Proof.
  intros [[Hu _]|[_ (nodes & st1 & Hcpus & _ & Hnum & _)]]%sip_svc_init_cpus
    Husable Hsub; congruence.
Qed.

(** The version reader leaves the state alone only when the root node is
    not found; with a root node, a missing property is loaded through. *)
Lemma read_platform_version_no_root dtb st :
  dt_root dtb = None -> read_platform_version dtb st = Done st.
Proof. intros Hroot. unfold read_platform_version. by rewrite Hroot. Qed.

Lemma read_platform_version_missing_major dtb st root :
  dt_root dtb = Some root ->
  machine_version_major root = None ->
  read_platform_version dtb st = NullDeref.
Proof.
  intros Hroot Hmajor. unfold read_platform_version. by rewrite Hroot, Hmajor.
Qed.

(** The array keeps its declared number of slots. *)
Lemma sip_svc_init_length mpidr0 dtb st :
  sip_svc_init mpidr0 dtb sbsa_state_init = Done st ->
  length (cpu st) = Z.to_nat PLATFORM_CORE_COUNT.
Proof.
  intros [[_ ->]|[_ (subnodes & st1 & _ & Hst1 & _ & ->)]]%sip_svc_init_cpus.
  - apply length_replicate.
  - rewrite cpu_walk_length, Hst1. apply length_replicate.
Qed.

(** After initialisation, every slot below both [num_cpus] and the capacity
    holds the entry of the sequence at that position. *)
Lemma sip_svc_init_entry mpidr0 dtb st index :
  sip_svc_init mpidr0 dtb sbsa_state_init = Done st ->
  0 <= index < num_cpus st ->
  index < PLATFORM_CORE_COUNT ->
  spec_cpu_sequence mpidr0 dtb !! Z.to_nat index
    = Some (cpu st !!! Z.to_nat index).
Proof.
  intros Hinit Hidx Hcap.
  destruct (sip_svc_init_cpus _ _ _ _ Hinit)
    as [[_ ->]|[_ (subnodes & st1 & Hcpus & Hst1 & Hnum & Hcpu)]].
  - simpl in Hidx. lia.
  - unfold spec_cpu_sequence. rewrite Hcpus.
    assert (Z.of_nat (length (from_cpu0 subnodes)) ≤ index -> False) as Hlt.
    { intros Hge. rewrite Hnum in Hidx.
      pose proof (u32_le (Z.of_nat (length (from_cpu0 subnodes)))). lia. }
    destruct (spec_cpu_entries (from_cpu0 subnodes) 0 (u64 mpidr0)
                !! Z.to_nat index) as [e|] eqn:He.
    + f_equal. symmetry. apply list_lookup_total_correct. rewrite Hcpu.
      replace index with (0 + Z.of_nat (Z.to_nat index)) at 1 by lia.
      apply cpu_walk_lookup_entry; try done; try lia.
      rewrite Hst1. apply length_replicate.
    + apply lookup_ge_None in He. rewrite spec_cpu_entries_length in He. lia.
Qed.

Lemma handler_wrong_world st smc_fid x1 x2 x3 x4 flags :
  is_caller_non_secure flags = false ->
  sbsa_sip_smc_handler st smc_fid x1 x2 x3 x4 flags = SMC_RET1 SMC_UNK.
Proof. intros Hns. unfold sbsa_sip_smc_handler. by rewrite Hns. Qed.

Lemma handler_cpu_node st x1 x2 x3 x4 flags :
  is_caller_non_secure flags = true ->
  sbsa_sip_smc_handler st SIP_SVC_GET_CPU_NODE x1 x2 x3 x4 flags =
    if u64 x1 <? PLATFORM_CORE_COUNT then
      SMC_RET3 0 (nodeid (cpu st !!! Z.to_nat (u64 x1)))
                 (mpidr (cpu st !!! Z.to_nat (u64 x1)))
    else SMC_RET1 SMC_ARCH_CALL_INVAL_PARAM.
Proof. intros Hns. unfold sbsa_sip_smc_handler. by rewrite Hns. Qed.

Lemma handler_unrecognized st smc_fid x1 x2 x3 x4 flags :
  smc_fid ∉ [SIP_SVC_VERSION; SIP_SVC_GET_GIC; SIP_SVC_GET_GIC_ITS;
             SIP_SVC_GET_CPU_COUNT; SIP_SVC_GET_CPU_NODE] ->
  sbsa_sip_smc_handler st smc_fid x1 x2 x3 x4 flags = SMC_RET1 SMC_UNK.
Proof.
  intros Hfid. unfold sbsa_sip_smc_handler.
  destruct (is_caller_non_secure flags); [|done]. cbn [negb].
  repeat match goal with
         | |- context [smc_fid =? ?c] =>
             destruct (Z.eqb_spec smc_fid c) as [->|_];
             [exfalso; apply Hfid; set_solver|]
         end.
  done.
Qed.

(** C2: whatever the function id and the arguments, a request whose flags do
    not show a non-secure caller gets the single word [SMC_UNK], and that is
    the very result an unrecognized function id gets. *)
Theorem wrong_world_gets_unknown_function st smc_fid x1 x2 x3 x4 flags :
  is_caller_non_secure flags = false ->
  sbsa_sip_smc_handler st smc_fid x1 x2 x3 x4 flags = SMC_RET1 SMC_UNK
  ∧ ∀ fid' y1 y2 y3 y4 flags',
      fid' ∉ [SIP_SVC_VERSION; SIP_SVC_GET_GIC; SIP_SVC_GET_GIC_ITS;
              SIP_SVC_GET_CPU_COUNT; SIP_SVC_GET_CPU_NODE] ->
      sbsa_sip_smc_handler st fid' y1 y2 y3 y4 flags'
        = sbsa_sip_smc_handler st smc_fid x1 x2 x3 x4 flags.
Proof.
  intros Hns. split; [by apply handler_wrong_world|].
  intros fid' y1 y2 y3 y4 flags' Hfid.
  rewrite (handler_wrong_world st smc_fid) by done.
  by apply handler_unrecognized.
Qed.

(** C4: after initialisation, a cpu-node query with an index below the
    capacity returns (0, nodeid of the slot, mpidr of the slot), and when the
    index is also below [num_cpus] the slot is the entry of that position in
    the traversal sequence; with an index at or above the capacity it returns
    the single invalid-parameter word, which is not the unknown-function
    word. *)
Theorem cpu_node_query_result mpidr0 dtb st index x2 x3 x4 flags :
  sip_svc_init mpidr0 dtb sbsa_state_init = Done st ->
  is_caller_non_secure flags = true ->
  0 <= index < 2 ^ 64 ->
  (index < PLATFORM_CORE_COUNT ->
     sbsa_sip_smc_handler st SIP_SVC_GET_CPU_NODE index x2 x3 x4 flags
       = SMC_RET3 0 (nodeid (cpu st !!! Z.to_nat index))
                    (mpidr (cpu st !!! Z.to_nat index))
     ∧ (index < num_cpus st ->
          spec_cpu_sequence mpidr0 dtb !! Z.to_nat index
            = Some (cpu st !!! Z.to_nat index)))
  ∧ (PLATFORM_CORE_COUNT <= index ->
       sbsa_sip_smc_handler st SIP_SVC_GET_CPU_NODE index x2 x3 x4 flags
         = SMC_RET1 SMC_ARCH_CALL_INVAL_PARAM)
  ∧ SMC_RET1 SMC_ARCH_CALL_INVAL_PARAM ≠ SMC_RET1 SMC_UNK.
Proof.
  intros Hinit Hns Hidx. rewrite handler_cpu_node, u64_small by done.
  split_and!.
  - intros Hcap. rewrite (proj2 (Z.ltb_lt _ _) Hcap). split; [done|].
    intros Hnum. apply sip_svc_init_entry; (done || lia).
  - intros Hcap. by rewrite (proj2 (Z.ltb_ge _ _) Hcap).
  - by vm_compute.
Qed.

(** C6, as amended: the guard of a cpu-node query is the capacity of the
    array and nothing else.  At or above the capacity the query never returns
    a three-word result, and a non-secure caller gets the invalid-parameter
    word; below the capacity a non-secure caller gets the three-word result
    holding the slot as it stands, whether [num_cpus] is above the index or
    not. *)
Theorem cpu_node_query_beyond_capacity st index x2 x3 x4 flags :
  0 <= index < 2 ^ 64 ->
  (PLATFORM_CORE_COUNT <= index ->
     (∀ a b c,
        sbsa_sip_smc_handler st SIP_SVC_GET_CPU_NODE index x2 x3 x4 flags
          ≠ SMC_RET3 a b c)
     ∧ (is_caller_non_secure flags = true ->
          sbsa_sip_smc_handler st SIP_SVC_GET_CPU_NODE index x2 x3 x4 flags
            = SMC_RET1 SMC_ARCH_CALL_INVAL_PARAM))
  ∧ (index < PLATFORM_CORE_COUNT ->
     is_caller_non_secure flags = true ->
     sbsa_sip_smc_handler st SIP_SVC_GET_CPU_NODE index x2 x3 x4 flags
       = SMC_RET3 0 (nodeid (cpu st !!! Z.to_nat index))
                    (mpidr (cpu st !!! Z.to_nat index))).
Proof.
  intros Hidx. split.
  - intros Hcap. destruct (is_caller_non_secure flags) eqn:Hns.
    + rewrite handler_cpu_node, u64_small by done.
      rewrite (proj2 (Z.ltb_ge _ _) Hcap). by split.
    + rewrite handler_wrong_world by done. by split.
  - intros Hcap Hns. rewrite handler_cpu_node, u64_small by done.
    by rewrite (proj2 (Z.ltb_lt _ _) Hcap).
Qed.

End sbsa_sip_svc_facts.

Lemma wrong_world_gets_unknown_function_witness :
  flags_bit0 0 = false
  ∧ sbsa_sip_smc_handler 4 flags_bit0 sbsa_three_of_four
      SIP_SVC_VERSION 0 0 0 0 0 = SMC_RET1 SMC_UNK.
Proof.
  split; [reflexivity|].
  apply (proj1 (wrong_world_gets_unknown_function 4 flags_bit0
                  sbsa_three_of_four SIP_SVC_VERSION 0 0 0 0 0 eq_refl)).
Defined.

Lemma cpu_node_query_result_witness :
  sip_svc_init 4 0 (dtb_with_cpus 3) (sbsa_state_init 4) = Done sbsa_three_of_four
  ∧ sbsa_sip_smc_handler 4 flags_bit0 sbsa_three_of_four
      SIP_SVC_GET_CPU_NODE 2 0 0 0 1 = SMC_RET3 0 0 2
  ∧ spec_cpu_sequence 0 (dtb_with_cpus 3) !! 2%nat
      = Some {| nodeid := 0; mpidr := 2 |}.
Proof.
  assert (sip_svc_init 4 0 (dtb_with_cpus 3) (sbsa_state_init 4)
            = Done sbsa_three_of_four) as Hinit by (vm_compute; reflexivity).
  assert (flags_bit0 1 = true) as Hns by reflexivity.
  assert (0 <= 2 < 2 ^ 64) as Hidx by lia.
  destruct (cpu_node_query_result 4 flags_bit0 0 (dtb_with_cpus 3)
              sbsa_three_of_four 2 0 0 0 1 Hinit Hns Hidx) as (Hlt & _ & _).
  destruct Hlt as [Hret Hentry]; [lia|].
  split_and!; [exact Hinit | exact Hret |].
  apply Hentry. vm_compute. reflexivity.
Defined.

Lemma cpu_node_query_beyond_capacity_witness :
  (0 <= 4 < 2 ^ 64 ∧ 4 <= 4
   ∧ sbsa_sip_smc_handler 4 flags_bit0 sbsa_three_of_four
       SIP_SVC_GET_CPU_NODE 4 0 0 0 1 = SMC_RET1 SMC_ARCH_CALL_INVAL_PARAM)
  ∧ (0 <= 3 < 2 ^ 64 ∧ num_cpus sbsa_three_of_four <= 3 ∧ 3 < 4
     ∧ sbsa_sip_smc_handler 4 flags_bit0 sbsa_three_of_four
         SIP_SVC_GET_CPU_NODE 3 0 0 0 1 = SMC_RET3 0 0 0).
Proof.
  assert (0 <= 4 < 2 ^ 64) as Hidx by lia.
  assert (4 <= 4) as Hcap by lia.
  assert (0 <= 3 < 2 ^ 64) as Hidx' by lia.
  assert (num_cpus sbsa_three_of_four <= 3) as Hnum
    by (vm_compute; discriminate).
  assert (3 < 4) as Hcap' by lia.
  split.
  - split_and!; [done..|].
    apply (proj1 (cpu_node_query_beyond_capacity 4 flags_bit0
                    sbsa_three_of_four 4 0 0 0 1 Hidx) Hcap).
    reflexivity.
  - split_and!; [done..|].
    apply (proj2 (cpu_node_query_beyond_capacity 4 flags_bit0
                    sbsa_three_of_four 3 0 0 0 1 Hidx') Hcap').
    reflexivity.
Defined.

(** C6, as the claim has it, fails: on a platform of four cores initialised
    with three, index 3 is not below [num_cpus], and the query returns a
    three-word result holding the content of slot 3, which the traversal never
    wrote. *)
Lemma cpu_node_query_reports_unpopulated_slot :
  sip_svc_init 4 0 (dtb_with_cpus 3) (sbsa_state_init 4) = Done sbsa_three_of_four
  ∧ ¬ (∀ index x2 x3 x4 flags a b c,
         num_cpus sbsa_three_of_four <= index ->
         sbsa_sip_smc_handler 4 flags_bit0 sbsa_three_of_four
           SIP_SVC_GET_CPU_NODE index x2 x3 x4 flags ≠ SMC_RET3 a b c).
Proof.
  split; [vm_compute; reflexivity|].
  intros Hclaim.
  apply (Hclaim 3 0 0 0 1 0 0 0); [vm_compute; discriminate | reflexivity].
Qed.

(** C5: the count follows the number of sub-nodes visited, not the capacity
    of the array. On the platform's 512 slots, a blob with 513 processing
    units leaves [num_cpus] at 513, and the last store falls outside the
    array. *)
Theorem num_cpus_exceeds_capacity :
  ∃ st,
    sip_svc_init 512 0 (dtb_with_cpus 513) (sbsa_state_init 512) = Done st
    ∧ num_cpus st = 513
    ∧ ¬ (num_cpus st <= 512)
    ∧ cpu_overrun st = [(512, {| nodeid := 0; mpidr := 512 |})].
Proof.
  eexists. split_and!.
  - vm_compute. reflexivity.
  - reflexivity.
  - simpl. lia.
  - reflexivity.
Qed.

(** C9: with the root node present and the version properties absent, the
    reader loads through the NULL pointer [fdt_getprop] returned; the version
    is not left at 0.0 and initialisation does not get past this step. *)
Theorem missing_version_property_dereferences_null :
  read_platform_version dtb_without_version (sbsa_state_init 512) = NullDeref
  ∧ sip_svc_init 512 0 dtb_without_version (sbsa_state_init 512) = NullDeref.
Proof. split; reflexivity. Qed.

(** * Part V: properties of the post-load hook *)

Section table_facts.

Implicit Types (tbl : mem_params_table) (f : bl_mem_params_node_t -> bl_mem_params_node_t).

(** A pointer handed out by the lookup points to a record of that
    identity. *)
Lemma get_node_lookup id tbl p :
  get_bl_mem_params_node id tbl = Some p ->
  ∃ n, tbl !! p = Some n ∧ image_id n = id.
Proof.
  revert p. induction tbl as [|n tbl IH]; intros p; simpl; [done|].
  destruct (Z.eqb_spec (image_id n) id) as [Heq|Hne].
  - intros [= <-]. by exists n.
  - destruct (get_bl_mem_params_node id tbl) as [q|]; [|done].
    intros [= <-]. by apply IH.
Qed.

(** Stores into fields other than [image_id] do not move any record. *)
Lemma get_node_alter f id p tbl :
  (∀ n, image_id (f n) = image_id n) ->
  get_bl_mem_params_node id (alter f p tbl) = get_bl_mem_params_node id tbl.
Proof.
  intros Hf. revert p. induction tbl as [|n tbl IH]; intros p; [done|].
  destruct p as [|p]; simpl.
  - by rewrite Hf.
  - change (list_alter f p tbl) with (alter f p tbl). by rewrite IH.
Qed.

Lemma image_record_alter f id id' p tbl :
  (∀ n, image_id (f n) = image_id n) ->
  get_bl_mem_params_node id tbl = Some p ->
  image_record id' (alter f p tbl)
    = if decide (id' = id) then f <$> image_record id' tbl
      else image_record id' tbl.
Proof.
  intros Hf Hp. unfold image_record. rewrite get_node_alter by done.
  case_decide as Hid.
  - subst id'. rewrite Hp. simpl. apply list_lookup_alter_eq.
  - destruct (get_bl_mem_params_node id' tbl) as [q|] eqn:Hq; [|done].
    simpl. apply list_lookup_alter_ne. intros ->.
    destruct (get_node_lookup _ _ _ Hp) as (n & Hn & Hidn).
    destruct (get_node_lookup _ _ _ Hq) as (n' & Hn' & Hidn').
    congruence.
Qed.

Lemma image_record_is_Some id tbl :
  is_Some (get_bl_mem_params_node id tbl) -> is_Some (image_record id tbl).
Proof.
  intros [p Hp]. unfold image_record. rewrite Hp. simpl.
  destruct (get_node_lookup _ _ _ Hp) as (n & Hn & _). by exists n.
Qed.

Lemma set_image_info_id g n : image_id (set_image_info g n) = image_id n.
Proof. done. Qed.

Lemma set_ep_info_id g n : image_id (set_ep_info g n) = image_id n.
Proof. done. Qed.

End table_facts.

Section post_image_load_facts.

Context `{pd : platform_def}.
Variable dtb_infos : gmap Z dyn_cfg_dtb_info_t.
Variable dt_get_ddr_size : Z.
Variable optee_header_is_valid : Z -> bool.
Variable parse_optee_header :
  entry_point_info_t -> image_info_t -> image_info_t ->
  Z * entry_point_info_t * image_info_t * image_info_t.

Local Abbreviation fw_config_body := (fw_config_body dtb_infos dt_get_ddr_size).
Local Abbreviation fw_config_loop := (fw_config_loop dtb_infos dt_get_ddr_size).
Local Abbreviation body_effect := (body_effect dtb_infos dt_get_ddr_size).
Local Abbreviation idx_invalid :=
  (dyn_cfg_dtb_info_invalid_idx dtb_infos TOS_FW_CONFIG_ID).

(** Pairwise inequalities out of [ids_distinct]. *)
Ltac distinct_ids H :=
  let H' := fresh in
  pose proof H as H'; unfold ids_distinct in H';
  repeat (apply NoDup_cons in H' as [? H']);
  clear H';
  repeat match goal with
         | Hn : _ ∉ _ :: _ |- _ => apply not_elem_of_cons in Hn as [? Hn]
         | Hn : _ ∉ [] |- _ => clear Hn
         end.

Lemma table_complete_pointer tbl id :
  table_complete tbl ->
  id ∈ [FW_CONFIG_ID; BL32_IMAGE_ID; BL33_IMAGE_ID; HW_CONFIG_ID;
        TOS_FW_CONFIG_ID; BL32_EXTRA1_IMAGE_ID; BL32_EXTRA2_IMAGE_ID] ->
  ∃ p, get_bl_mem_params_node id tbl = Some p.
Proof. intros Ht Hid. by apply (proj1 (Forall_forall _ _) Ht id). Qed.

(** The pointer [p] of identity [id], with its defining equation [Hp]. *)
Ltac pointer_of Ht id p Hp :=
  destruct (table_complete_pointer _ id Ht) as [p Hp];
  [solve [repeat constructor]|].

(** Decides the comparisons of identity constants in the goal. *)
Ltac eqb_ids :=
  repeat match goal with
         | |- context [?a =? ?a] => rewrite (Z.eqb_refl a)
         | Hn : ?a ≠ ?b |- context [?a =? ?b] =>
             rewrite (proj2 (Z.eqb_neq a b) Hn)
         | Hn : ?a ≠ ?b |- context [?b =? ?a] =>
             rewrite (proj2 (Z.eqb_neq b a) (not_eq_sym Hn))
         end.

(** Reads a record through the stores made at known pointers. *)
Ltac through_stores :=
  repeat match goal with
         | Hp : get_bl_mem_params_node ?id _ = Some ?p
           |- context [image_record ?id' (alter ?f ?p ?t)] =>
             rewrite (image_record_alter f id id' p t)
               by (try done; rewrite ?get_node_alter by done; exact Hp)
         end.

(** Settles a comparison of two reads of one record, case by case on the
    identity read. *)
Ltac record_cases tbl :=
  repeat case_decide; destruct_and?; subst; try congruence;
  try (exfalso;
       match goal with Hn : ¬ (_ ∧ _) |- _ => apply Hn; by split end);
  destruct (image_record _ tbl) as [?|]; try done; simpl;
  unfold config_patch; eqb_ids; done.

Lemma fw_config_body_spec id tbl :
  ids_distinct ->
  table_complete tbl ->
  id ∈ image_ids ->
  ∃ tbl',
    fw_config_body idx_invalid id tbl = Done (Continue tbl')
    ∧ (∀ id', get_bl_mem_params_node id' tbl' = get_bl_mem_params_node id' tbl)
    ∧ (∀ id', image_record id' tbl' = body_effect id id' (image_record id' tbl)).
Proof.
  intros Hd Ht Hid. distinct_ids Hd.
  pointer_of Ht BL32_IMAGE_ID p32 Hp32.
  pointer_of Ht BL33_IMAGE_ID p33 Hp33.
  pointer_of Ht HW_CONFIG_ID phw Hphw.
  pointer_of Ht TOS_FW_CONFIG_ID ptos Hptos.
  pointer_of Ht BL32_EXTRA1_IMAGE_ID pager Hpager.
  pointer_of Ht BL32_EXTRA2_IMAGE_ID paged Hpaged.
  unfold image_ids in Hid. rewrite !elem_of_cons in Hid.
  unfold fw_config_body, body_effect, dyn_cfg_dtb_info_getter,
    dyn_cfg_dtb_info_invalid_idx.
  destruct Hid as [->|[->|[->|[->|Hid]]]]; [| | | |by apply elem_of_nil in Hid].
  - eqb_ids. rewrite Hp32. simpl.
    destruct (dtb_infos !! BL32_IMAGE_ID) as [ci|] eqn:Hci; [|by eexists].
    rewrite !get_node_alter by done. rewrite Hpager. simpl.
    rewrite !get_node_alter by done. rewrite Hpaged. simpl.
    eexists. split_and!; [done| |].
    + intros id'. by rewrite !get_node_alter.
    + intros id'. rewrite !list_alter_alter_eq. through_stores.
      record_cases tbl.
  - eqb_ids. rewrite Hp33. simpl.
    destruct (dtb_infos !! BL33_IMAGE_ID) as [ci|] eqn:Hci; [|by eexists].
    eexists. split_and!; [done| |].
    + intros id'. by rewrite !get_node_alter.
    + intros id'. rewrite !list_alter_alter_eq. through_stores.
      record_cases tbl.
  - eqb_ids. rewrite Hphw. simpl.
    destruct (dtb_infos !! HW_CONFIG_ID) as [ci|] eqn:Hci; [|by eexists].
    eexists. split_and!; [done| |].
    + intros id'. by rewrite !get_node_alter.
    + intros id'. rewrite !list_alter_alter_eq. through_stores.
      record_cases tbl.
  - eqb_ids.
    destruct (dtb_infos !! TOS_FW_CONFIG_ID) as [ci|] eqn:Hci;
      [|by eexists].
    rewrite bool_decide_eq_false_2 by done. rewrite Hptos. simpl.
    eexists. split_and!; [done| |].
    + intros id'. by rewrite !get_node_alter.
    + intros id'. rewrite !list_alter_alter_eq. through_stores.
      record_cases tbl.
Qed.

Lemma table_complete_stable tbl tbl' :
  (∀ id, get_bl_mem_params_node id tbl' = get_bl_mem_params_node id tbl) ->
  table_complete tbl -> table_complete tbl'.
Proof.
  intros Hget Ht. unfold table_complete in *.
  eapply Forall_impl; [exact Ht|].
  intros id. simpl. by rewrite Hget.
Qed.

(** The whole loop: each pass goes on to the next, and a record ends up with
    the effects of the passes in order. *)
Lemma fw_config_loop_spec ids tbl :
  ids_distinct ->
  table_complete tbl ->
  Forall (λ id, id ∈ image_ids) ids ->
  ∃ tbl',
    fw_config_loop idx_invalid ids tbl = Done (Continue tbl')
    ∧ (∀ id', get_bl_mem_params_node id' tbl' = get_bl_mem_params_node id' tbl)
    ∧ (∀ id', image_record id' tbl'
              = foldl (λ r id, body_effect id id' r) (image_record id' tbl) ids).
Proof.
  intros Hd. revert tbl.
  induction ids as [|id ids IH]; intros tbl Ht Hids.
  - by exists tbl.
  - apply Forall_cons_1 in Hids as [Hid Hids].
    destruct (fw_config_body_spec id tbl Hd Ht Hid) as (tbl1 & Hrun & Hget & Hrec).
    destruct (IH tbl1 (table_complete_stable _ _ Hget Ht) Hids)
      as (tbl2 & Hrun2 & Hget2 & Hrec2).
    exists tbl2. simpl. rewrite Hrun. simpl. split_and!; [done| |].
    + intros id'. by rewrite Hget2.
    + intros id'. by rewrite Hrec2, Hrec.
Qed.

Lemma body_effect_other id id' r :
  id' ≠ id ->
  (id = BL32_IMAGE_ID -> id' ≠ BL32_EXTRA1_IMAGE_ID ∧ id' ≠ BL32_EXTRA2_IMAGE_ID) ->
  body_effect id id' r = r.
Proof.
  intros Hne Hextra. unfold body_effect.
  destruct (dtb_infos !! id); [|done].
  repeat case_decide; destruct_and?; try done; destruct Hextra; done.
Qed.

Lemma body_effect_self id r :
  body_effect id id r
    = match dtb_infos !! id with
      | Some ci => config_patch id ci <$> r
      | None => r
      end.
Proof.
  unfold body_effect. destruct (dtb_infos !! id); [|done].
  by case_decide.
Qed.

Lemma body_effect_paged ci r :
  BL32_EXTRA2_IMAGE_ID ≠ BL32_IMAGE_ID ->
  BL32_EXTRA2_IMAGE_ID ≠ BL32_EXTRA1_IMAGE_ID ->
  dtb_infos !! BL32_IMAGE_ID = Some ci ->
  body_effect BL32_IMAGE_ID BL32_EXTRA2_IMAGE_ID r
    = paged_patch dt_get_ddr_size <$> r.
Proof.
  intros Hne1 Hne2 Hci. unfold body_effect. rewrite Hci.
  repeat case_decide; destruct_and?; try done.
  exfalso. match goal with Hn : ¬ (_ ∧ _) |- _ => apply Hn; by split end.
Qed.

(** [attr &= ~m] leaves no bit of [m] set. *)
Lemma land_not32_clears a m : Z.land (Z.land a (not32 m)) m = 0.
Proof.
  rewrite <- Z.land_assoc.
  assert (Z.land (not32 m) m = 0) as ->; [|apply Z.land_0_r].
  apply Z.bits_inj'. intros k Hk.
  rewrite Z.land_spec, Z.bits_0. unfold not32, u32, wrap.
  rewrite Z.lxor_spec. change 4294967295 with (Z.ones 32).
  destruct (Z.lt_ge_cases k 32).
  - rewrite Z.mod_pow2_bits_low, Z.ones_spec_low by lia.
    by destruct (Z.testbit m k).
  - by rewrite Z.mod_pow2_bits_high, Z.ones_spec_high by lia.
Qed.

Lemma config_patch_placement id ci n :
  image_base (image_info (config_patch id ci n)) = config_addr ci
  ∧ image_max_size (image_info (config_patch id ci n)) = config_max_size ci
  ∧ skip_loading (config_patch id ci n) = false.
Proof.
  unfold config_patch, skip_loading.
  destruct ((id =? BL32_IMAGE_ID) || (id =? BL33_IMAGE_ID)); simpl;
    by rewrite land_not32_clears.
Qed.

Lemma paged_image_base_eq :
  paged_image_base dt_get_ddr_size
    = u32 (STM32MP_DDR_BASE + dt_get_ddr_size
           - STM32MP_DDR_S_SIZE - STM32MP_DDR_SHMEM_SIZE).
Proof.
  unfold paged_image_base, u32, wrap.
  rewrite Zminus_mod_idemp_l, Zplus_mod_idemp_r. f_equal. lia.
Qed.

Abbreviation post_image_load :=
  (bl2_plat_handle_post_image_load dtb_infos dt_get_ddr_size
     optee_header_is_valid parse_optee_header).

(** The firmware-config case as a whole: it returns 0, asks for no cache
    maintenance, and leaves each record with the effects of the four passes. *)
Lemma post_image_load_fw_config st :
  ids_distinct ->
  table_complete (bl_mem_params_desc st) ->
  STM32MP_USE_STM32IMAGE = false ->
  ∃ tbl',
    post_image_load FW_CONFIG_ID st
      = Done (0, {| bl_mem_params_desc := tbl'; dcache_inv := dcache_inv st |})
    ∧ (∀ id', image_record id' tbl'
              = foldl (λ r id, body_effect id id' r)
                      (image_record id' (bl_mem_params_desc st)) image_ids).
Proof.
  intros Hd Ht Himg.
  destruct (fw_config_loop_spec image_ids _ Hd Ht) as (tbl' & Hrun & _ & Hrec).
  { by apply Forall_forall. }
  exists tbl'. split; [|done].
  pointer_of Ht FW_CONFIG_ID pfw Hpfw.
  unfold post_image_load, bl2_plat_handle_post_image_load.
  rewrite Hpfw, Himg, Z.eqb_refl. simpl.
  unfold handle_fw_config. rewrite Hrun. simpl.
  unfold invalidate_mmc_tail. rewrite Z.eqb_refl.
  by destruct (STM32MP_SDMMC || STM32MP_EMMC).
Qed.

(** Drops from a read the passes that do not store into the record read. *)
Ltac foreign_passes :=
  repeat match goal with
         | |- context [body_effect ?a ?b ?r] =>
             rewrite (body_effect_other a b r)
               by (try intros ?; try split; congruence)
         end.

(** C3: while the firmware config is handled, the record of every identity
    in [image_ids] with an entry in the Config Store gets the entry's address
    as base and the entry's size as maximum size and loses the skip-loading
    attribute; the record of an identity without entry is left as it was. *)
Theorem fw_config_resolves_listed_images st id :
  ids_distinct ->
  table_complete (bl_mem_params_desc st) ->
  STM32MP_USE_STM32IMAGE = false ->
  id ∈ image_ids ->
  ∃ st' n,
    post_image_load FW_CONFIG_ID st = Done (0, st')
    ∧ image_record id (bl_mem_params_desc st) = Some n
    ∧ match dtb_infos !! id with
      | Some config_entry =>
          ∃ n', image_record id (bl_mem_params_desc st') = Some n'
                ∧ image_base (image_info n') = config_addr config_entry
                ∧ image_max_size (image_info n') = config_max_size config_entry
                ∧ skip_loading n' = false
      | None => image_record id (bl_mem_params_desc st') = Some n
      end.
Proof.
  intros Hd Ht Himg Hid.
  destruct (post_image_load_fw_config st Hd Ht Himg) as (tbl' & Hrun & Hrec).
  destruct (image_record_is_Some id (bl_mem_params_desc st)) as [n Hn].
  { apply (proj1 (Forall_forall _ _) Ht).
    unfold image_ids in Hid. rewrite !elem_of_cons in *. tauto. }
  eexists _, n. split_and!; [exact Hrun|exact Hn|]. simpl.
  rewrite (Hrec id), Hn. distinct_ids Hd.
  assert (foldl (λ r id0, body_effect id0 id r) (Some n) image_ids
          = body_effect id id (Some n)) as ->.
  { unfold image_ids in *. rewrite !elem_of_cons in Hid. simpl.
    destruct Hid as [->|[->|[->|[->|Hid]]]]; [| | | |by apply elem_of_nil in Hid].
    all: foreign_passes; reflexivity. }
  rewrite body_effect_self. destruct (dtb_infos !! id) as [ci|]; [|done].
  simpl. eexists. split; [done|]. apply config_patch_placement.
Qed.

(** The paged-overlay record after the firmware config is handled, when
    the trusted OS has an entry. *)
Lemma fw_config_paged_overlay st ci :
  ids_distinct ->
  table_complete (bl_mem_params_desc st) ->
  STM32MP_USE_STM32IMAGE = false ->
  dtb_infos !! BL32_IMAGE_ID = Some ci ->
  ∃ st' n,
    post_image_load FW_CONFIG_ID st = Done (0, st')
    ∧ image_record BL32_EXTRA2_IMAGE_ID (bl_mem_params_desc st)  = Some n
    ∧ image_record BL32_EXTRA2_IMAGE_ID (bl_mem_params_desc st')
        = Some (paged_patch dt_get_ddr_size n).
Proof.
  intros Hd Ht Himg Hci.
  destruct (post_image_load_fw_config st Hd Ht Himg) as (tbl' & Hrun & Hrec).
  destruct (image_record_is_Some BL32_EXTRA2_IMAGE_ID (bl_mem_params_desc st))
    as [n Hn].
  { apply (proj1 (Forall_forall _ _) Ht). rewrite !elem_of_cons. tauto. }
  eexists _, n. split_and!; [exact Hrun|exact Hn|]. simpl.
  rewrite (Hrec _), Hn. distinct_ids Hd. unfold image_ids. simpl.
  rewrite (body_effect_paged ci) by congruence. simpl.
  by foreign_passes.
Qed.

Lemma lookup_pointer id p (tbl : mem_params_table) :
  get_bl_mem_params_node id tbl = Some p -> tbl !! p = image_record id tbl.
Proof. intros Hp. unfold image_record. by rewrite Hp. Qed.

Lemma image_record_pointer id (tbl : mem_params_table) n :
  image_record id tbl = Some n ->
  ∃ p, get_bl_mem_params_node id tbl = Some p ∧ tbl !! p = Some n.
Proof.
  unfold image_record.
  destruct (get_bl_mem_params_node id tbl) as [p|]; [|done].
  by exists p.
Qed.

(** Turns reads through known pointers into reads of records. *)
Ltac as_records :=
  repeat match goal with
         | Hp : get_bl_mem_params_node ?id _ = Some ?p
           |- context [?t !! ?p] =>
             rewrite (lookup_pointer id p t)
               by (rewrite ?get_node_alter by done; exact Hp)
         end.

(** Decides the comparisons of identity constants that reads through
    stores leave behind. *)
Ltac decide_ids :=
  repeat match goal with
         | |- context [decide (?a = ?a)] =>
             rewrite (decide_True (P := a = a)) by done
         | |- context [decide (?a = ?b)] =>
             rewrite (decide_False (P := a = b)) by congruence
         end.

(** The cache maintenance at the end does not touch the table. *)
Lemma invalidate_mmc_tail_table image_id p st :
  is_Some (bl_mem_params_desc st !! p) ->
  ∃ st', invalidate_mmc_tail image_id p st = Done st'
         ∧ bl_mem_params_desc st' = bl_mem_params_desc st.
Proof.
  intros [n Hn]. unfold invalidate_mmc_tail.
  destruct (STM32MP_SDMMC || STM32MP_EMMC); [|by eexists].
  destruct (image_id =? FW_CONFIG_ID); [by eexists|].
  rewrite Hn. simpl. destruct (_ =? 0); by eexists.
Qed.

(** C7: a loaded trusted OS image without composite header is taken as
    monolithic: its entry point becomes its base address, its maximum size
    grows by the maximum size in the record of the trusted OS config (in
    32-bit arithmetic, hence by exactly that amount when the sum fits), and
    the first argument word becomes 0. *)
Theorem monolithic_trusted_os st n tos :
  ids_distinct ->
  STM32MP_USE_STM32IMAGE = false ->
  image_record BL32_IMAGE_ID (bl_mem_params_desc st) = Some n ->
  image_record TOS_FW_CONFIG_ID (bl_mem_params_desc st) = Some tos ->
  optee_header_is_valid (image_base (image_info n)) = false ->
  ∃ st' n',
    post_image_load BL32_IMAGE_ID st = Done (0, st')
    ∧ image_record BL32_IMAGE_ID (bl_mem_params_desc st') = Some n'
    ∧ image_base (image_info n') = image_base (image_info n)
    ∧ pc (ep_info n') = image_base (image_info n')
    ∧ image_max_size (image_info n')
        = u32 (image_max_size (image_info n) + image_max_size (image_info tos))
    ∧ (0 <= image_max_size (image_info n) + image_max_size (image_info tos) < 2 ^ 32 ->
       image_max_size (image_info n')
         = image_max_size (image_info n) + image_max_size (image_info tos))
    ∧ arg0 (ep_info n') = 0.
Proof.
  intros Hd Himg Hn Htos Hhdr. distinct_ids Hd.
  destruct (image_record_pointer _ _ _ Hn) as (p & Hp & Hpn).
  destruct (image_record_pointer _ _ _ Htos) as (pt & Hpt & Hptn).
  unfold post_image_load, bl2_plat_handle_post_image_load.
  rewrite Hp, Himg. simpl. eqb_ids. simpl.
  unfold handle_bl32. rewrite Hpn. simpl. rewrite Hhdr, Himg. simpl.
  rewrite !get_node_alter by done. rewrite Hpt. simpl.
  as_records. through_stores.
  rewrite decide_False by congruence. rewrite Htos. simpl.
  lazymatch goal with
  | |- context [invalidate_mmc_tail ?i ?q ?s] =>
      destruct (invalidate_mmc_tail_table i q s) as (st' & Htail & Hst')
  end.
  { simpl. as_records. through_stores. rewrite !decide_True by done.
    rewrite Hn. by eexists. }
  eexists st', _. rewrite Htail. split; [done|]. rewrite Hst'. simpl.
  through_stores. rewrite !decide_True by done. rewrite Hn. simpl.
  split_and!; try done.
  intros Hfit. unfold u32, wrap. by apply Z.mod_small.
Qed.

(** C8: a loaded trusted OS image that passes the header check and whose
    header then does not parse makes the hook panic; no value is returned.
    The parser is the platform's, called on what the hook hands it: the entry
    point information of the image with [pc] set to the image base, and the
    load areas of the two extra records, preset or not as the build has it. *)
Theorem malformed_composite_header_panics st n pager paged :
  ids_distinct ->
  image_record BL32_IMAGE_ID (bl_mem_params_desc st) = Some n ->
  image_record BL32_EXTRA1_IMAGE_ID (bl_mem_params_desc st) = Some pager ->
  image_record BL32_EXTRA2_IMAGE_ID (bl_mem_params_desc st) = Some paged ->
  optee_header_is_valid (image_base (image_info n)) = true ->
  (parse_optee_header (with_pc (image_base (image_info n)) (ep_info n))
     (preset_pager_area (image_info pager))
     (preset_paged_area dt_get_ddr_size (image_info paged))).1.1.1 ≠ 0 ->
  post_image_load BL32_IMAGE_ID st = Panic.
Proof.
  intros Hd Hn Hpg Hpd Hhdr Hparse. distinct_ids Hd.
  destruct (image_record_pointer _ _ _ Hn) as (p & Hp & Hpn).
  destruct (image_record_pointer _ _ _ Hpg) as (p1 & Hp1 & Hpn1).
  destruct (image_record_pointer _ _ _ Hpd) as (p2 & Hp2 & Hpn2).
  unfold post_image_load, bl2_plat_handle_post_image_load.
  rewrite Hp. simpl. eqb_ids. rewrite andb_false_r. simpl.
  unfold handle_bl32. rewrite Hpn. simpl. rewrite Hhdr.
  rewrite !get_node_alter by done. rewrite Hp1, Hp2. simpl.
  unfold preset_pager_area, preset_paged_area in Hparse. revert Hparse.
  destruct (STM32MP_USE_STM32IMAGE && AARCH32_SP_OPTEE); intros Hparse.
  all: rewrite ?list_alter_alter_eq; as_records; through_stores; decide_ids.
  all: rewrite Hn, Hpg, Hpd; simpl.
  all: match goal with
       | |- context [parse_optee_header ?e ?a ?b] =>
           assert ((parse_optee_header e a b).1.1.1 ≠ 0) as Herr
             by exact Hparse;
           destruct (parse_optee_header e a b) as [[[err ep'] pg'] pd']
       end.
  all: simpl in Herr; by rewrite (proj2 (Z.eqb_neq _ _) Herr).
Qed.

(** C10: for an identity that is none of firmware config, trusted OS and
    normal-world loader, the hook stores nothing into the table and returns
    0. *)
Theorem other_identity_is_a_no_op st image_id :
  image_id ≠ FW_CONFIG_ID ->
  image_id ≠ BL32_IMAGE_ID ->
  image_id ≠ BL33_IMAGE_ID ->
  is_Some (get_bl_mem_params_node image_id (bl_mem_params_desc st)) ->
  ∃ st',
    post_image_load image_id st = Done (0, st')
    ∧ bl_mem_params_desc st' = bl_mem_params_desc st.
Proof.
  intros Hfw H32 H33 [p Hp].
  unfold post_image_load, bl2_plat_handle_post_image_load.
  rewrite Hp. simpl. eqb_ids. rewrite andb_false_r. simpl.
  destruct (invalidate_mmc_tail_table image_id p
              {| bl_mem_params_desc := bl_mem_params_desc st;
                 dcache_inv := dcache_inv st |}) as (st' & -> & Hst').
  { simpl. destruct (get_node_lookup _ _ _ Hp) as (n & -> & _). by eexists. }
  by exists st'.
Qed.

(** ** Further properties of the post-load hook *)

Lemma table_core_pointer tbl id :
  table_core tbl ->
  id ∈ [FW_CONFIG_ID; BL32_IMAGE_ID; BL33_IMAGE_ID; HW_CONFIG_ID;
        BL32_EXTRA1_IMAGE_ID; BL32_EXTRA2_IMAGE_ID] ->
  ∃ p, get_bl_mem_params_node id tbl = Some p.
Proof. intros Ht Hid. by apply (proj1 (Forall_forall _ _) Ht id). Qed.

Ltac core_pointer_of Ht id p Hp :=
  destruct (table_core_pointer _ id Ht) as [p Hp];
  [solve [repeat constructor]|].

Lemma table_core_stable tbl tbl' :
  (∀ id, get_bl_mem_params_node id tbl' = get_bl_mem_params_node id tbl) ->
  table_core tbl -> table_core tbl'.
Proof.
  intros Hget Ht. unfold table_core in *.
  eapply Forall_impl; [exact Ht|].
  intros id. simpl. by rewrite Hget.
Qed.

(** One pass of the loop, when the trusted OS config may have neither entry
    nor record. *)
Lemma fw_config_body_ready id tbl :
  ids_distinct ->
  table_core tbl ->
  id ∈ image_ids ->
  (id = TOS_FW_CONFIG_ID -> is_Some (dtb_infos !! TOS_FW_CONFIG_ID) ->
   is_Some (get_bl_mem_params_node TOS_FW_CONFIG_ID tbl)) ->
  ∃ tbl',
    fw_config_body idx_invalid id tbl = Done (Continue tbl')
    ∧ (∀ id', get_bl_mem_params_node id' tbl' = get_bl_mem_params_node id' tbl)
    ∧ (∀ id', image_record id' tbl' = body_effect id id' (image_record id' tbl)).
Proof.
  intros Hd Ht Hid Htos. distinct_ids Hd.
  core_pointer_of Ht BL32_IMAGE_ID p32 Hp32.
  core_pointer_of Ht BL33_IMAGE_ID p33 Hp33.
  core_pointer_of Ht HW_CONFIG_ID phw Hphw.
  core_pointer_of Ht BL32_EXTRA1_IMAGE_ID pager Hpager.
  core_pointer_of Ht BL32_EXTRA2_IMAGE_ID paged Hpaged.
  unfold image_ids in Hid. rewrite !elem_of_cons in Hid.
  unfold fw_config_body, body_effect, dyn_cfg_dtb_info_getter,
    dyn_cfg_dtb_info_invalid_idx.
  destruct Hid as [->|[->|[->|[->|Hid]]]]; [| | | |by apply elem_of_nil in Hid].
  - eqb_ids. rewrite Hp32. simpl.
    destruct (dtb_infos !! BL32_IMAGE_ID) as [ci|] eqn:Hci; [|by eexists].
    rewrite !get_node_alter by done. rewrite Hpager. simpl.
    rewrite !get_node_alter by done. rewrite Hpaged. simpl.
    eexists. split_and!; [done| |].
    + intros id'. by rewrite !get_node_alter.
    + intros id'. rewrite !list_alter_alter_eq. through_stores.
      record_cases tbl.
  - eqb_ids. rewrite Hp33. simpl.
    destruct (dtb_infos !! BL33_IMAGE_ID) as [ci|] eqn:Hci; [|by eexists].
    eexists. split_and!; [done| |].
    + intros id'. by rewrite !get_node_alter.
    + intros id'. rewrite !list_alter_alter_eq. through_stores.
      record_cases tbl.
  - eqb_ids. rewrite Hphw. simpl.
    destruct (dtb_infos !! HW_CONFIG_ID) as [ci|] eqn:Hci; [|by eexists].
    eexists. split_and!; [done| |].
    + intros id'. by rewrite !get_node_alter.
    + intros id'. rewrite !list_alter_alter_eq. through_stores.
      record_cases tbl.
  - eqb_ids.
    destruct (dtb_infos !! TOS_FW_CONFIG_ID) as [ci|] eqn:Hci;
      [|by eexists].
    destruct (Htos eq_refl) as [ptos Hptos]; [by eexists|].
    rewrite bool_decide_eq_false_2 by done. rewrite Hptos. simpl.
    eexists. split_and!; [done| |].
    + intros id'. by rewrite !get_node_alter.
    + intros id'. rewrite !list_alter_alter_eq. through_stores.
      record_cases tbl.
Qed.

Lemma fw_config_loop_ready ids tbl :
  ids_distinct ->
  table_core tbl ->
  Forall (λ id, id ∈ image_ids) ids ->
  (TOS_FW_CONFIG_ID ∈ ids -> is_Some (dtb_infos !! TOS_FW_CONFIG_ID) ->
   is_Some (get_bl_mem_params_node TOS_FW_CONFIG_ID tbl)) ->
  ∃ tbl',
    fw_config_loop idx_invalid ids tbl = Done (Continue tbl')
    ∧ (∀ id', get_bl_mem_params_node id' tbl' = get_bl_mem_params_node id' tbl)
    ∧ (∀ id', image_record id' tbl'
              = foldl (λ r id, body_effect id id' r) (image_record id' tbl) ids).
Proof.
  intros Hd. revert tbl.
  induction ids as [|id ids IH]; intros tbl Ht Hids Htos.
  - by exists tbl.
  - apply Forall_cons_1 in Hids as [Hid Hids].
    destruct (fw_config_body_ready id tbl Hd Ht Hid) as (tbl1 & Hrun & Hget & Hrec).
    { intros ->. apply Htos. by left. }
    destruct (IH tbl1 (table_core_stable _ _ Hget Ht) Hids)
      as (tbl2 & Hrun2 & Hget2 & Hrec2).
    { intros Hin. rewrite Hget. apply Htos. by right. }
    exists tbl2. simpl. rewrite Hrun. simpl. split_and!; [done| |].
    + intros id'. by rewrite Hget2.
    + intros id'. by rewrite Hrec2, Hrec.
Qed.

(** The firmware-config case on a ready table. *)
Lemma post_image_load_fw_config_ready st :
  ids_distinct ->
  table_ready dtb_infos (bl_mem_params_desc st) ->
  STM32MP_USE_STM32IMAGE = false ->
  ∃ tbl',
    post_image_load FW_CONFIG_ID st
      = Done (0, {| bl_mem_params_desc := tbl'; dcache_inv := dcache_inv st |})
    ∧ (∀ id', get_bl_mem_params_node id' tbl'
              = get_bl_mem_params_node id' (bl_mem_params_desc st))
    ∧ (∀ id', image_record id' tbl'
              = foldl (λ r id, body_effect id id' r)
                      (image_record id' (bl_mem_params_desc st)) image_ids).
Proof.
  intros Hd [Ht Htos] Himg.
  destruct (fw_config_loop_ready image_ids _ Hd Ht) as (tbl' & Hrun & Hget & Hrec).
  { by apply Forall_forall. }
  { intros _. exact Htos. }
  exists tbl'. split; [|done].
  core_pointer_of Ht FW_CONFIG_ID pfw Hpfw.
  unfold post_image_load, bl2_plat_handle_post_image_load.
  rewrite Hpfw, Himg, Z.eqb_refl. simpl.
  unfold handle_fw_config. rewrite Hrun. simpl.
  unfold invalidate_mmc_tail. rewrite Z.eqb_refl.
  by destruct (STM32MP_SDMMC || STM32MP_EMMC).
Qed.

Lemma table_complete_ready tbl :
  table_complete tbl -> table_ready dtb_infos tbl.
Proof.
  intros Ht. split.
  - unfold table_core. apply Forall_forall. intros id Hid.
    apply (proj1 (Forall_forall _ _) Ht).
    rewrite !elem_of_cons in *. tauto.
  - intros _. apply (proj1 (Forall_forall _ _) Ht).
    rewrite !elem_of_cons. tauto.
Qed.

Local Abbreviation fw_config_effect id' r :=
  (foldl (λ acc id, body_effect id id' acc) r image_ids).

Lemma body_effect_absent id id' r :
  dtb_infos !! id = None -> body_effect id id' r = r.
Proof. intros Hci. unfold body_effect. by rewrite Hci. Qed.

Lemma body_effect_pager r :
  BL32_EXTRA1_IMAGE_ID ≠ BL32_IMAGE_ID ->
  body_effect BL32_IMAGE_ID BL32_EXTRA1_IMAGE_ID r
    = match dtb_infos !! BL32_IMAGE_ID with
      | Some ci => pager_patch ci <$> r
      | None => r
      end.
Proof.
  intros Hne. unfold body_effect.
  destruct (dtb_infos !! BL32_IMAGE_ID); [|done].
  repeat case_decide; destruct_and?; try done;
    exfalso; match goal with Hn : ¬ (_ ∧ _) |- _ => apply Hn; by split end.
Qed.

Lemma body_effect_overlay r :
  BL32_EXTRA2_IMAGE_ID ≠ BL32_IMAGE_ID ->
  BL32_EXTRA2_IMAGE_ID ≠ BL32_EXTRA1_IMAGE_ID ->
  body_effect BL32_IMAGE_ID BL32_EXTRA2_IMAGE_ID r
    = match dtb_infos !! BL32_IMAGE_ID with
      | Some ci => paged_patch dt_get_ddr_size <$> r
      | None => r
      end.
Proof.
  intros Hne1 Hne2.
  destruct (dtb_infos !! BL32_IMAGE_ID) as [ci|] eqn:Hci.
  - by apply (body_effect_paged ci).
  - by apply body_effect_absent.
Qed.

(** The four passes, seen from the record of one identity. *)
Lemma effects_on_listed id r :
  ids_distinct ->
  id ∈ image_ids ->
  fw_config_effect id r = body_effect id id r.
Proof.
  intros Hd Hid. distinct_ids Hd.
  unfold image_ids in *. rewrite !elem_of_cons in Hid. simpl.
  destruct Hid as [->|[->|[->|[->|Hid]]]]; [| | | |by apply elem_of_nil in Hid].
  all: foreign_passes; reflexivity.
Qed.

Lemma effects_on_pager r :
  ids_distinct ->
  fw_config_effect BL32_EXTRA1_IMAGE_ID r
    = match dtb_infos !! BL32_IMAGE_ID with
      | Some ci => pager_patch ci <$> r
      | None => r
      end.
Proof.
  intros Hd. distinct_ids Hd. unfold image_ids. simpl.
  rewrite body_effect_pager by congruence. by foreign_passes.
Qed.

Lemma effects_on_overlay r :
  ids_distinct ->
  fw_config_effect BL32_EXTRA2_IMAGE_ID r
    = match dtb_infos !! BL32_IMAGE_ID with
      | Some ci => paged_patch dt_get_ddr_size <$> r
      | None => r
      end.
Proof.
  intros Hd. distinct_ids Hd. unfold image_ids. simpl.
  rewrite body_effect_overlay by congruence. by foreign_passes.
Qed.

Lemma effects_on_other id' r :
  id' ∉ image_ids ->
  id' ≠ BL32_EXTRA1_IMAGE_ID ->
  id' ≠ BL32_EXTRA2_IMAGE_ID ->
  fw_config_effect id' r = r.
Proof.
  intros Hid H1 H2. unfold image_ids in *. rewrite !not_elem_of_cons in Hid.
  destruct Hid as (? & ? & ? & ? & _). simpl. by foreign_passes.
Qed.

(** X12: on a ready table, handling the firmware config returns 0 in every
    case, asks for no cache maintenance, moves no record, and leaves alone
    every record that is neither of an iterated identity nor one of the two
    extra images; the two extra images are left alone as well when the
    trusted OS has no config entry. *)
Theorem fw_config_frame st :
  ids_distinct ->
  table_ready dtb_infos (bl_mem_params_desc st) ->
  STM32MP_USE_STM32IMAGE = false ->
  ∃ st',
    post_image_load FW_CONFIG_ID st = Done (0, st')
    ∧ dcache_inv st' = dcache_inv st
    ∧ (∀ id', get_bl_mem_params_node id' (bl_mem_params_desc st')
              = get_bl_mem_params_node id' (bl_mem_params_desc st))
    ∧ (∀ id', id' ∉ image_ids ->
              id' ≠ BL32_EXTRA1_IMAGE_ID -> id' ≠ BL32_EXTRA2_IMAGE_ID ->
              image_record id' (bl_mem_params_desc st')
                = image_record id' (bl_mem_params_desc st))
    ∧ (dtb_infos !! BL32_IMAGE_ID = None ->
       image_record BL32_EXTRA1_IMAGE_ID (bl_mem_params_desc st')
         = image_record BL32_EXTRA1_IMAGE_ID (bl_mem_params_desc st)
       ∧ image_record BL32_EXTRA2_IMAGE_ID (bl_mem_params_desc st')
         = image_record BL32_EXTRA2_IMAGE_ID (bl_mem_params_desc st)).
Proof.
  intros Hd Ht Himg.
  destruct (post_image_load_fw_config_ready st Hd Ht Himg)
    as (tbl' & Hrun & Hget & Hrec).
  eexists. split_and!; [exact Hrun|done|exact Hget| |].
  - intros id' Hid H1 H2. simpl. rewrite Hrec. by apply effects_on_other.
  - intros Hci. simpl. rewrite !Hrec.
    by rewrite effects_on_pager, effects_on_overlay, Hci.
Qed.

(** X13: the trusted OS config is optional down to its record. With no
    entry for it in the Config Store the table need not register it: the
    firmware config is handled all the same, and each other iterated identity
    with an entry is placed as usual. *)
Theorem fw_config_without_tos_record st :
  ids_distinct ->
  table_core (bl_mem_params_desc st) ->
  STM32MP_USE_STM32IMAGE = false ->
  dtb_infos !! TOS_FW_CONFIG_ID = None ->
  get_bl_mem_params_node TOS_FW_CONFIG_ID (bl_mem_params_desc st) = None ->
  ∃ st',
    post_image_load FW_CONFIG_ID st = Done (0, st')
    ∧ ∀ id config_entry,
        id ∈ image_ids -> dtb_infos !! id = Some config_entry ->
        ∃ n', image_record id (bl_mem_params_desc st') = Some n'
              ∧ image_base (image_info n') = config_addr config_entry
              ∧ image_max_size (image_info n') = config_max_size config_entry
              ∧ skip_loading n' = false.
Proof.
  intros Hd Ht Himg Hci Hrec0.
  destruct (post_image_load_fw_config_ready st Hd) as (tbl' & Hrun & Hget & Hrec);
    [|done|].
  { split; [done|]. rewrite Hci. by intros [? ?]. }
  eexists. split; [exact Hrun|]. intros id ci Hid Hentry. simpl.
  rewrite Hrec, effects_on_listed, body_effect_self, Hentry by done.
  assert (id ≠ TOS_FW_CONFIG_ID) as Hne by congruence.
  destruct (image_record_is_Some id (bl_mem_params_desc st)) as [n Hn].
  { apply (proj1 (Forall_forall _ _) Ht).
    unfold image_ids in Hid. rewrite !elem_of_cons in *.
    destruct Hid as [->|[->|[->|[->|Hid]]]];
      first [tauto | congruence | by apply elem_of_nil in Hid]. }
  rewrite Hn. simpl. eexists. split; [done|]. apply config_patch_placement.
Qed.

Lemma fw_config_loop_app ids1 ids2 tbl :
  fw_config_loop idx_invalid (ids1 ++ ids2) tbl
    = obind (fw_config_loop idx_invalid ids1 tbl)
        (λ r, match r with
              | Continue tbl => fw_config_loop idx_invalid ids2 tbl
              | Return err tbl => Done (Return err tbl)
              end).
Proof.
  revert tbl. induction ids1 as [|id ids1 IH]; intros tbl; simpl; [done|].
  destruct (fw_config_body idx_invalid id tbl) as [[tbl1|err tbl1]| | |];
    simpl; by rewrite ?IH.
Qed.

(** X14: an entry for the trusted OS config without a record for it is a
    contract violation: the three passes before it run, and the fourth stops
    at the assertion on the record. *)
Theorem fw_config_entry_without_record_asserts st :
  ids_distinct ->
  table_core (bl_mem_params_desc st) ->
  STM32MP_USE_STM32IMAGE = false ->
  is_Some (dtb_infos !! TOS_FW_CONFIG_ID) ->
  get_bl_mem_params_node TOS_FW_CONFIG_ID (bl_mem_params_desc st) = None ->
  post_image_load FW_CONFIG_ID st = AssertFail.
Proof.
  intros Hd Ht Himg [ci Hci] Hnone.
  core_pointer_of Ht FW_CONFIG_ID pfw Hpfw.
  destruct (fw_config_loop_ready [BL32_IMAGE_ID; BL33_IMAGE_ID; HW_CONFIG_ID]
              _ Hd Ht) as (tbl3 & Hrun & Hget & _).
  { apply Forall_forall. intros id Hid. unfold image_ids.
    rewrite !elem_of_cons in *. tauto. }
  { distinct_ids Hd. rewrite !elem_of_cons. intros [?|[?|[?|H']]];
      first [congruence | by apply elem_of_nil in H']. }
  unfold post_image_load, bl2_plat_handle_post_image_load.
  rewrite Hpfw, Himg, Z.eqb_refl. simpl.
  unfold handle_fw_config.
  change image_ids
    with ([BL32_IMAGE_ID; BL33_IMAGE_ID; HW_CONFIG_ID] ++ [TOS_FW_CONFIG_ID]).
  rewrite fw_config_loop_app, Hrun. simpl.
  unfold fw_config_body, dyn_cfg_dtb_info_invalid_idx.
  rewrite Z.eqb_refl, bool_decide_eq_false_2 by (by rewrite Hci).
  simpl. by rewrite Hget, Hnone.
Qed.

(** X15: with an entry for the trusted OS, the pass seeds the pager record
    with the entry's address and size; in both extra records the attributes,
    the loaded size and the entry point information stay as they were, so
    neither loses its skip-loading attribute here. *)
Theorem fw_config_seeds_pager st config_entry :
  ids_distinct ->
  table_ready dtb_infos (bl_mem_params_desc st) ->
  STM32MP_USE_STM32IMAGE = false ->
  dtb_infos !! BL32_IMAGE_ID = Some config_entry ->
  ∃ st' pager pager' paged paged',
    post_image_load FW_CONFIG_ID st = Done (0, st')
    ∧ image_record BL32_EXTRA1_IMAGE_ID (bl_mem_params_desc st) = Some pager
    ∧ image_record BL32_EXTRA1_IMAGE_ID (bl_mem_params_desc st') = Some pager'
    ∧ image_record BL32_EXTRA2_IMAGE_ID (bl_mem_params_desc st) = Some paged
    ∧ image_record BL32_EXTRA2_IMAGE_ID (bl_mem_params_desc st') = Some paged'
    ∧ image_base (image_info pager') = config_addr config_entry
    ∧ image_max_size (image_info pager') = config_max_size config_entry
    ∧ h_attr (image_info pager') = h_attr (image_info pager)
    ∧ image_size (image_info pager') = image_size (image_info pager)
    ∧ ep_info pager' = ep_info pager
    ∧ h_attr (image_info paged') = h_attr (image_info paged)
    ∧ image_size (image_info paged') = image_size (image_info paged)
    ∧ ep_info paged' = ep_info paged.
Proof.
  intros Hd Ht Himg Hci.
  destruct (post_image_load_fw_config_ready st Hd Ht Himg)
    as (tbl' & Hrun & Hget & Hrec).
  destruct (image_record_is_Some BL32_EXTRA1_IMAGE_ID (bl_mem_params_desc st))
    as [pager Hpager].
  { apply (proj1 (Forall_forall _ _) (proj1 Ht)). rewrite !elem_of_cons. tauto. }
  destruct (image_record_is_Some BL32_EXTRA2_IMAGE_ID (bl_mem_params_desc st))
    as [paged Hpaged].
  { apply (proj1 (Forall_forall _ _) (proj1 Ht)). rewrite !elem_of_cons. tauto. }
  eexists _, pager, _, paged, _.
  split_and!; [exact Hrun|exact Hpager| |exact Hpaged| |..].
  - simpl. by rewrite Hrec, effects_on_pager, Hci, Hpager.
  - simpl. by rewrite Hrec, effects_on_overlay, Hci, Hpaged.
  - done.
  - done.
  - done.
  - done.
  - done.
  - done.
  - done.
  - done.
Qed.

(** X16: for an iterated identity with an entry, the pass sets the entry
    point for the trusted OS and the normal-world loader only; for the two
    config images the entry point information is untouched. In every case the
    loaded size is kept and the attributes lose the skip-loading bits and
    nothing else. *)
Theorem fw_config_entry_points st id config_entry :
  ids_distinct ->
  table_ready dtb_infos (bl_mem_params_desc st) ->
  STM32MP_USE_STM32IMAGE = false ->
  id ∈ image_ids ->
  dtb_infos !! id = Some config_entry ->
  ∃ st' n n',
    post_image_load FW_CONFIG_ID st = Done (0, st')
    ∧ image_record id (bl_mem_params_desc st) = Some n
    ∧ image_record id (bl_mem_params_desc st') = Some n'
    ∧ (id = BL32_IMAGE_ID ∨ id = BL33_IMAGE_ID ->
       ep_info n' = with_pc (config_addr config_entry) (ep_info n))
    ∧ (id = HW_CONFIG_ID ∨ id = TOS_FW_CONFIG_ID -> ep_info n' = ep_info n)
    ∧ image_size (image_info n') = image_size (image_info n)
    ∧ h_attr (image_info n')
        = Z.land (h_attr (image_info n)) (not32 IMAGE_ATTRIB_SKIP_LOADING).
Proof.
  intros Hd Ht Himg Hid Hci.
  destruct (post_image_load_fw_config_ready st Hd Ht Himg)
    as (tbl' & Hrun & Hget & Hrec).
  destruct (image_record_is_Some id (bl_mem_params_desc st)) as [n Hn].
  { destruct Ht as [Hcore Htos].
    destruct (decide (id = TOS_FW_CONFIG_ID)) as [->|Hne].
    - apply Htos. by eexists.
    - apply (proj1 (Forall_forall _ _) Hcore).
      unfold image_ids in Hid. rewrite !elem_of_cons in *.
      destruct Hid as [->|[->|[->|[->|Hid]]]];
        first [tauto | congruence | by apply elem_of_nil in Hid]. }
  eexists _, n, _. split_and!; [exact Hrun|exact Hn| |..].
  - simpl. by rewrite Hrec, effects_on_listed, body_effect_self, Hci, Hn.
  - intros Hor. unfold config_patch.
    replace ((id =? BL32_IMAGE_ID) || (id =? BL33_IMAGE_ID)) with true; [done|].
    symmetry. apply orb_true_iff. rewrite !Z.eqb_eq. exact Hor.
  - intros Hor. unfold config_patch. distinct_ids Hd.
    replace ((id =? BL32_IMAGE_ID) || (id =? BL33_IMAGE_ID)) with false; [done|].
    symmetry. apply orb_false_iff. rewrite !Z.eqb_neq.
    destruct Hor as [-> | ->]; split; congruence.
  - unfold config_patch. by destruct (_ || _).
  - unfold config_patch. by destruct (_ || _).
Qed.

Lemma config_patch_idempotent id ci n :
  config_patch id ci (config_patch id ci n) = config_patch id ci n.
Proof.
  unfold config_patch. destruct (_ || _); destruct n as [i [a b sz m] e];
    simpl; unfold set_image_info, set_ep_info, with_h_attr; simpl;
    by rewrite <- Z.land_assoc, Z.land_diag.
Qed.

Lemma fw_config_effect_idempotent id' r :
  ids_distinct ->
  fw_config_effect id' (fw_config_effect id' r) = fw_config_effect id' r.
Proof.
  intros Hd.
  destruct (decide (id' ∈ image_ids)) as [Hin|Hout].
  - rewrite !effects_on_listed, !body_effect_self by done.
    destruct (dtb_infos !! id'); [|done].
    destruct r; [|done]. simpl. by rewrite config_patch_idempotent.
  - destruct (decide (id' = BL32_EXTRA1_IMAGE_ID)) as [->|H1].
    { rewrite !effects_on_pager by done.
      destruct (dtb_infos !! BL32_IMAGE_ID); [|done]. by destruct r. }
    destruct (decide (id' = BL32_EXTRA2_IMAGE_ID)) as [->|H2].
    { rewrite !effects_on_overlay by done.
      destruct (dtb_infos !! BL32_IMAGE_ID); [|done]. by destruct r. }
    by rewrite !effects_on_other.
Qed.

(** The normal-world loader case as a whole. *)
Lemma post_image_load_bl33 st n33 n32 :
  ids_distinct ->
  image_record BL33_IMAGE_ID (bl_mem_params_desc st) = Some n33 ->
  image_record BL32_IMAGE_ID (bl_mem_params_desc st) = Some n32 ->
  ∃ st',
    post_image_load BL33_IMAGE_ID st = Done (0, st')
    ∧ (∀ id', get_bl_mem_params_node id' (bl_mem_params_desc st')
              = get_bl_mem_params_node id' (bl_mem_params_desc st))
    ∧ (∀ id', image_record id' (bl_mem_params_desc st')
              = if decide (id' = BL32_IMAGE_ID)
                then Some (set_ep_info (with_lr_svc (pc (ep_info n33))) n32)
                else image_record id' (bl_mem_params_desc st)).
Proof.
  intros Hd H33 H32. distinct_ids Hd.
  destruct (image_record_pointer _ _ _ H33) as (p33 & Hp33 & Hn33).
  destruct (image_record_pointer _ _ _ H32) as (p32 & Hp32 & Hn32).
  unfold post_image_load, bl2_plat_handle_post_image_load.
  rewrite Hp33. simpl. eqb_ids. rewrite andb_false_r. simpl.
  unfold handle_bl33. rewrite Hp32, Hn33. simpl.
  lazymatch goal with
  | |- context [invalidate_mmc_tail ?i ?q ?s] =>
      destruct (invalidate_mmc_tail_table i q s) as (st' & Htail & Hst')
  end.
  { simpl. as_records. through_stores. decide_ids. rewrite H33. by eexists. }
  exists st'. rewrite Htail. simpl. rewrite Hst'. simpl.
  split_and!; [done| |].
  - intros id'. by rewrite get_node_alter.
  - intros id'. through_stores.
    destruct (decide (id' = BL32_IMAGE_ID)) as [->|?]; [by rewrite H32|done].
Qed.

(** X18: after the normal-world loader is loaded, the hook copies its entry
    point into the [lr_svc] field of the trusted OS record, returns 0, and
    changes nothing else in that record or in any other. *)
Theorem bl33_sets_return_address st n33 n32 :
  ids_distinct ->
  image_record BL33_IMAGE_ID (bl_mem_params_desc st) = Some n33 ->
  image_record BL32_IMAGE_ID (bl_mem_params_desc st) = Some n32 ->
  ∃ st' n32',
    post_image_load BL33_IMAGE_ID st = Done (0, st')
    ∧ image_record BL32_IMAGE_ID (bl_mem_params_desc st') = Some n32'
    ∧ lr_svc (ep_info n32') = pc (ep_info n33)
    ∧ n32' = set_ep_info (with_lr_svc (pc (ep_info n33))) n32
    ∧ ∀ id', id' ≠ BL32_IMAGE_ID ->
             image_record id' (bl_mem_params_desc st')
               = image_record id' (bl_mem_params_desc st).
Proof.
  intros Hd H33 H32.
  destruct (post_image_load_bl33 st n33 n32 Hd H33 H32)
    as (st' & Hrun & _ & Hrec).
  exists st', (set_ep_info (with_lr_svc (pc (ep_info n33))) n32).
  split_and!; [exact Hrun| |done|done|].
  - by rewrite Hrec, decide_True.
  - intros id' Hne. by rewrite Hrec, decide_False.
Qed.

(** X19: the firmware config and the normal-world loader, handled in this
    order, leave the address of the loader's config entry in the [lr_svc]
    field of the trusted OS record. *)
Theorem fw_config_then_bl33_links_return st config_entry :
  ids_distinct ->
  table_ready dtb_infos (bl_mem_params_desc st) ->
  STM32MP_USE_STM32IMAGE = false ->
  dtb_infos !! BL33_IMAGE_ID = Some config_entry ->
  ∃ st1 st2 n32,
    post_image_load FW_CONFIG_ID st = Done (0, st1)
    ∧ post_image_load BL33_IMAGE_ID st1 = Done (0, st2)
    ∧ image_record BL32_IMAGE_ID (bl_mem_params_desc st2) = Some n32
    ∧ lr_svc (ep_info n32) = config_addr config_entry.
Proof.
  intros Hd Ht Himg Hci.
  destruct (post_image_load_fw_config_ready st Hd Ht Himg)
    as (tbl1 & Hrun1 & Hget1 & Hrec1).
  destruct (image_record_is_Some BL33_IMAGE_ID (bl_mem_params_desc st))
    as [n33 Hn33].
  { apply (proj1 (Forall_forall _ _) (proj1 Ht)). rewrite !elem_of_cons. tauto. }
  destruct (image_record_is_Some BL32_IMAGE_ID tbl1) as [n32 Hn32].
  { rewrite Hget1.
    apply (proj1 (Forall_forall _ _) (proj1 Ht)). rewrite !elem_of_cons. tauto. }
  destruct (post_image_load_bl33
              {| bl_mem_params_desc := tbl1; dcache_inv := dcache_inv st |}
              (config_patch BL33_IMAGE_ID config_entry n33) n32 Hd)
    as (st2 & Hrun2 & _ & Hrec2); [|done|].
  { simpl. rewrite Hrec1, effects_on_listed, body_effect_self, Hci, Hn33; [done..|].
    unfold image_ids. rewrite !elem_of_cons. tauto. }
  eexists _, st2, _. split_and!; [exact Hrun1|exact Hrun2| |].
  - by rewrite Hrec2, decide_True.
  - simpl. unfold config_patch.
    rewrite Z.eqb_refl, orb_true_r. done.
Qed.

(** X20: a composite trusted OS image whose header parses. In a build that
    does not preset the load areas, the parser is given the entry point
    information with [pc] set to the image base and the image information of
    the two extra records; what it leaves is stored back, the first argument
    word becomes the base of the paged overlay as the parser left it, the
    second and third become 0, and the hook returns 0. *)
Theorem composite_trusted_os_arguments st n pager paged ep' pager' paged' :
  ids_distinct ->
  STM32MP_USE_STM32IMAGE && AARCH32_SP_OPTEE = false ->
  image_record BL32_IMAGE_ID (bl_mem_params_desc st) = Some n ->
  image_record BL32_EXTRA1_IMAGE_ID (bl_mem_params_desc st) = Some pager ->
  image_record BL32_EXTRA2_IMAGE_ID (bl_mem_params_desc st) = Some paged ->
  optee_header_is_valid (image_base (image_info n)) = true ->
  parse_optee_header (with_pc (image_base (image_info n)) (ep_info n))
      (image_info pager) (image_info paged)
    = (0, ep', pager', paged') ->
  ∃ st',
    post_image_load BL32_IMAGE_ID st = Done (0, st')
    ∧ image_record BL32_IMAGE_ID (bl_mem_params_desc st')
        = Some (set_ep_info
                  (λ _, with_arg2 0 (with_arg1 0
                          (with_arg0 (image_base paged') ep'))) n)
    ∧ image_record BL32_EXTRA1_IMAGE_ID (bl_mem_params_desc st')
        = Some (set_image_info (λ _, pager') pager)
    ∧ image_record BL32_EXTRA2_IMAGE_ID (bl_mem_params_desc st')
        = Some (set_image_info (λ _, paged') paged)
    ∧ ∀ id', id' ≠ BL32_IMAGE_ID -> id' ≠ BL32_EXTRA1_IMAGE_ID ->
             id' ≠ BL32_EXTRA2_IMAGE_ID ->
             image_record id' (bl_mem_params_desc st')
               = image_record id' (bl_mem_params_desc st).
Proof.
  intros Hd Hflag Hn Hpg Hpd Hhdr Hparse. distinct_ids Hd.
  destruct (image_record_pointer _ _ _ Hn) as (p & Hp & Hpn).
  destruct (image_record_pointer _ _ _ Hpg) as (p1 & Hp1 & Hpn1).
  destruct (image_record_pointer _ _ _ Hpd) as (p2 & Hp2 & Hpn2).
  unfold post_image_load, bl2_plat_handle_post_image_load.
  rewrite Hp. simpl. eqb_ids. rewrite andb_false_r. simpl.
  unfold handle_bl32. rewrite Hpn. simpl. rewrite Hhdr, Hflag.
  rewrite !get_node_alter by done. rewrite Hp1, Hp2. simpl.
  as_records. through_stores. decide_ids. rewrite Hn, Hpg, Hpd. simpl.
  rewrite Hparse. simpl.
  as_records. through_stores. decide_ids. rewrite Hpd. simpl.
  lazymatch goal with
  | |- context [invalidate_mmc_tail ?i ?q ?s] =>
      destruct (invalidate_mmc_tail_table i q s) as (st' & Htail & Hst')
  end.
  { simpl. as_records. through_stores. decide_ids. rewrite Hn. by eexists. }
  exists st'. rewrite Htail. simpl. rewrite Hst'. simpl.
  split_and!; [done|..].
  - through_stores. decide_ids. by rewrite Hn.
  - through_stores. decide_ids. by rewrite Hpg.
  - through_stores. decide_ids. by rewrite Hpd.
  - intros id' H1 H2 H3. through_stores. by decide_ids.
Qed.

(** The monolithic case as a whole, in a build that loads from a FIP. *)
Lemma post_image_load_bl32_monolithic st n tos :
  ids_distinct ->
  STM32MP_USE_STM32IMAGE = false ->
  image_record BL32_IMAGE_ID (bl_mem_params_desc st) = Some n ->
  image_record TOS_FW_CONFIG_ID (bl_mem_params_desc st) = Some tos ->
  optee_header_is_valid (image_base (image_info n)) = false ->
  ∃ st',
    post_image_load BL32_IMAGE_ID st = Done (0, st')
    ∧ (∀ id', image_record id' (bl_mem_params_desc st')
              = if decide (id' = BL32_IMAGE_ID)
                then Some (set_ep_info (with_arg0 0)
                             (set_image_info
                                (with_image_max_size
                                   (u32 (image_max_size (image_info n)
                                         + image_max_size (image_info tos))))
                                (set_ep_info
                                   (with_pc (image_base (image_info n))) n)))
                else image_record id' (bl_mem_params_desc st)).
Proof.
  intros Hd Himg Hn Htos Hhdr. distinct_ids Hd.
  destruct (image_record_pointer _ _ _ Hn) as (p & Hp & Hpn).
  destruct (image_record_pointer _ _ _ Htos) as (pt & Hpt & Hptn).
  unfold post_image_load, bl2_plat_handle_post_image_load.
  rewrite Hp, Himg. simpl. eqb_ids. simpl.
  unfold handle_bl32. rewrite Hpn. simpl. rewrite Hhdr, Himg. simpl.
  rewrite !get_node_alter by done. rewrite Hpt. simpl.
  as_records. through_stores. decide_ids. rewrite Htos. simpl.
  lazymatch goal with
  | |- context [invalidate_mmc_tail ?i ?q ?s] =>
      destruct (invalidate_mmc_tail_table i q s) as (st' & Htail & Hst')
  end.
  { simpl. as_records. through_stores. decide_ids. rewrite Hn. by eexists. }
  exists st'. rewrite Htail. split; [done|]. rewrite Hst'. simpl.
  intros id'. through_stores.
  destruct (decide (id' = BL32_IMAGE_ID)) as [->|?]; [by rewrite Hn|done].
Qed.

(** X21: the monolithic case touches the trusted OS record only, and in it
    only [pc], the maximum size and the first argument word: base address,
    loaded size, attributes and the other entry point fields are kept, and
    so is every other record. *)
Theorem monolithic_trusted_os_frame st n tos :
  ids_distinct ->
  STM32MP_USE_STM32IMAGE = false ->
  image_record BL32_IMAGE_ID (bl_mem_params_desc st) = Some n ->
  image_record TOS_FW_CONFIG_ID (bl_mem_params_desc st) = Some tos ->
  optee_header_is_valid (image_base (image_info n)) = false ->
  ∃ st' n',
    post_image_load BL32_IMAGE_ID st = Done (0, st')
    ∧ image_record BL32_IMAGE_ID (bl_mem_params_desc st') = Some n'
    ∧ h_attr (image_info n') = h_attr (image_info n)
    ∧ image_size (image_info n') = image_size (image_info n)
    ∧ spsr (ep_info n') = spsr (ep_info n)
    ∧ lr_svc (ep_info n') = lr_svc (ep_info n)
    ∧ arg1 (ep_info n') = arg1 (ep_info n)
    ∧ arg2 (ep_info n') = arg2 (ep_info n)
    ∧ arg3 (ep_info n') = arg3 (ep_info n)
    ∧ ∀ id', id' ≠ BL32_IMAGE_ID ->
             image_record id' (bl_mem_params_desc st')
               = image_record id' (bl_mem_params_desc st).
Proof.
  intros Hd Himg Hn Htos Hhdr.
  destruct (post_image_load_bl32_monolithic st n tos Hd Himg Hn Htos Hhdr)
    as (st' & Hrun & Hrec).
  eexists st', _. split_and!; [exact Hrun| |..].
  - by rewrite Hrec, decide_True.
  - done.
  - done.
  - done.
  - done.
  - done.
  - done.
  - done.
  - intros id' Hne. by rewrite Hrec, decide_False.
Qed.

(** X22: the cache maintenance at the end, for an identity that takes the
    default case. In a build for SD card or eMMC, one invalidation of two
    blocks from the end of the loaded image is asked for when the record has
    no skip-loading attribute, and none when it has; in other builds none is
    asked for. *)
Theorem other_identity_cache_maintenance st image_id n :
  image_id ≠ FW_CONFIG_ID ->
  image_id ≠ BL32_IMAGE_ID ->
  image_id ≠ BL33_IMAGE_ID ->
  image_record image_id (bl_mem_params_desc st) = Some n ->
  ∃ st',
    post_image_load image_id st = Done (0, st')
    ∧ dcache_inv st'
        = if (STM32MP_SDMMC || STM32MP_EMMC) && negb (skip_loading n)
          then (u32 (image_base (image_info n) + image_size (image_info n)),
                u32 (2 * MMC_BLOCK_SIZE)) :: dcache_inv st
          else dcache_inv st.
Proof.
  intros Hfw H32 H33 Hn.
  destruct (image_record_pointer _ _ _ Hn) as (p & Hp & Hpn).
  unfold post_image_load, bl2_plat_handle_post_image_load.
  rewrite Hp. simpl. eqb_ids. rewrite andb_false_r. simpl.
  unfold invalidate_mmc_tail, skip_loading. simpl.
  destruct (STM32MP_SDMMC || STM32MP_EMMC); simpl; [|by eexists].
  eqb_ids. rewrite Hpn. simpl.
  destruct (Z.land _ _ =? 0); simpl; by eexists.
Qed.

(** X23: in a build that loads STM32 images, the monolithic case only
    clears the first argument word: entry point and maximum size of the
    trusted OS record stay as they were, and no other record is read or
    written. *)
Theorem monolithic_trusted_os_stm32image st n :
  STM32MP_USE_STM32IMAGE = true ->
  image_record BL32_IMAGE_ID (bl_mem_params_desc st) = Some n ->
  optee_header_is_valid (image_base (image_info n)) = false ->
  ∃ st',
    post_image_load BL32_IMAGE_ID st = Done (0, st')
    ∧ image_record BL32_IMAGE_ID (bl_mem_params_desc st')
        = Some (set_ep_info (with_arg0 0) n)
    ∧ ∀ id', id' ≠ BL32_IMAGE_ID ->
             image_record id' (bl_mem_params_desc st')
               = image_record id' (bl_mem_params_desc st).
Proof.
  intros Himg Hn Hhdr.
  destruct (image_record_pointer _ _ _ Hn) as (p & Hp & Hpn).
  unfold post_image_load, bl2_plat_handle_post_image_load.
  rewrite Hp, Himg. simpl. rewrite Z.eqb_refl.
  unfold handle_bl32. rewrite Hpn. simpl. rewrite Hhdr, Himg. simpl.
  lazymatch goal with
  | |- context [invalidate_mmc_tail ?i ?q ?s] =>
      destruct (invalidate_mmc_tail_table i q s) as (st' & Htail & Hst')
  end.
  { simpl. as_records. through_stores. decide_ids. rewrite Hn. by eexists. }
  exists st'. rewrite Htail. split; [done|]. rewrite Hst'. simpl. split.
  - through_stores. decide_ids. by rewrite Hn.
  - intros id' Hne. through_stores. by decide_ids.
Qed.

End post_image_load_facts.

(** The effect of the firmware-config passes depends on the Config Store
    only through its entries for the identities iterated over. *)
Lemma fw_config_effect_agree `{pd : platform_def}
    (dtb_infos dtb_infos' : gmap Z dyn_cfg_dtb_info_t) (dt_get_ddr_size : Z)
    (ids : list Z) (id' : Z) (r : option bl_mem_params_node_t) :
  Forall (λ id, dtb_infos' !! id = dtb_infos !! id) ids ->
  foldl (λ acc id, body_effect dtb_infos' dt_get_ddr_size id id' acc) r ids
    = foldl (λ acc id, body_effect dtb_infos dt_get_ddr_size id id' acc) r ids.
Proof.
  intros Hagree. revert r.
  induction Hagree as [|id ids Hid _ IH]; intros r; simpl; [done|].
  rewrite IH. f_equal. unfold body_effect. by rewrite Hid.
Qed.

(** X17: handling the firmware config a second time changes no record,
    provided the second run reads the same DDR size and finds in the Config
    Store, which every run populates anew, the same entries for the four
    identities it iterates over.  The pass only stores values that depend on
    those entries and on the DDR geometry, not on what the records held. *)
Theorem fw_config_twice_changes_nothing `{pd : platform_def}
    (dtb_infos dtb_infos' : gmap Z dyn_cfg_dtb_info_t) (dt_get_ddr_size : Z)
    (optee_header_is_valid : Z -> bool)
    (parse_optee_header :
       entry_point_info_t -> image_info_t -> image_info_t ->
       Z * entry_point_info_t * image_info_t * image_info_t)
    (st : bl2_state) :
  ids_distinct ->
  table_ready dtb_infos (bl_mem_params_desc st) ->
  STM32MP_USE_STM32IMAGE = false ->
  Forall (λ id, dtb_infos' !! id = dtb_infos !! id) image_ids ->
  ∃ st1 st2,
    bl2_plat_handle_post_image_load dtb_infos dt_get_ddr_size
      optee_header_is_valid parse_optee_header FW_CONFIG_ID st = Done (0, st1)
    ∧ bl2_plat_handle_post_image_load dtb_infos' dt_get_ddr_size
        optee_header_is_valid parse_optee_header FW_CONFIG_ID st1
        = Done (0, st2)
    ∧ ∀ id', image_record id' (bl_mem_params_desc st2)
             = image_record id' (bl_mem_params_desc st1).
Proof.
  intros Hd Ht Himg Hagree.
  destruct (post_image_load_fw_config_ready dtb_infos dt_get_ddr_size
              optee_header_is_valid parse_optee_header st Hd Ht Himg)
    as (tbl1 & Hrun1 & Hget1 & Hrec1).
  destruct (post_image_load_fw_config_ready dtb_infos' dt_get_ddr_size
              optee_header_is_valid parse_optee_header
              {| bl_mem_params_desc := tbl1; dcache_inv := dcache_inv st |} Hd)
    as (tbl2 & Hrun2 & Hget2 & Hrec2); [|done|].
  { destruct Ht as [Hcore Htos]. split.
    - by apply (table_core_stable (bl_mem_params_desc st)).
    - simpl. rewrite Hget1. intros Hentry. apply Htos.
      rewrite <- (proj1 (Forall_forall _ _) Hagree TOS_FW_CONFIG_ID); [done|].
      unfold image_ids. rewrite !elem_of_cons. tauto. }
  eexists _, _. split_and!; [exact Hrun1|exact Hrun2|].
  intros id'. simpl bl_mem_params_desc in *. rewrite Hrec2, Hrec1.
  rewrite (fw_config_effect_agree dtb_infos dtb_infos') by done.
  by apply fw_config_effect_idempotent.
Qed.

(** C1: when the Config Store has an entry for the trusted OS, handling the
    firmware config sets the base of the paged-overlay record to
    [STM32MP_DDR_BASE + dt_get_ddr_size() - STM32MP_DDR_S_SIZE -
    STM32MP_DDR_SHMEM_SIZE] (in 32-bit arithmetic, hence that very number
    when it fits) and its maximum size to [STM32MP_DDR_S_SIZE]; with the same
    DDR geometry, any other Config Store with a trusted OS entry gives the
    same base. *)
Theorem paged_overlay_placement `{pd : platform_def}
    (dtb_infos : gmap Z dyn_cfg_dtb_info_t) (dt_get_ddr_size : Z)
    (optee_header_is_valid : Z -> bool)
    (parse_optee_header :
       entry_point_info_t -> image_info_t -> image_info_t ->
       Z * entry_point_info_t * image_info_t * image_info_t)
    (st : bl2_state) (config_entry : dyn_cfg_dtb_info_t) :
  ids_distinct ->
  table_complete (bl_mem_params_desc st) ->
  STM32MP_USE_STM32IMAGE = false ->
  dtb_infos !! BL32_IMAGE_ID = Some config_entry ->
  ∃ st' n',
    bl2_plat_handle_post_image_load dtb_infos dt_get_ddr_size
      optee_header_is_valid parse_optee_header FW_CONFIG_ID st = Done (0, st')
    ∧ image_record BL32_EXTRA2_IMAGE_ID (bl_mem_params_desc st') = Some n'
    ∧ image_base (image_info n')
        = u32 (STM32MP_DDR_BASE + dt_get_ddr_size
               - STM32MP_DDR_S_SIZE - STM32MP_DDR_SHMEM_SIZE)
    ∧ (0 <= STM32MP_DDR_BASE + dt_get_ddr_size
            - STM32MP_DDR_S_SIZE - STM32MP_DDR_SHMEM_SIZE < 2 ^ 32 ->
       image_base (image_info n')
         = STM32MP_DDR_BASE + dt_get_ddr_size
           - STM32MP_DDR_S_SIZE - STM32MP_DDR_SHMEM_SIZE)
    ∧ image_max_size (image_info n') = STM32MP_DDR_S_SIZE
    ∧ ∀ dtb_infos' config_entry',
        dtb_infos' !! BL32_IMAGE_ID = Some config_entry' ->
        ∃ st'' n'',
          bl2_plat_handle_post_image_load dtb_infos' dt_get_ddr_size
            optee_header_is_valid parse_optee_header FW_CONFIG_ID st
            = Done (0, st'')
          ∧ image_record BL32_EXTRA2_IMAGE_ID (bl_mem_params_desc st'') = Some n''
          ∧ image_base (image_info n'') = image_base (image_info n').
Proof.
  intros Hd Ht Himg Hci.
  destruct (fw_config_paged_overlay dtb_infos dt_get_ddr_size
              optee_header_is_valid parse_optee_header st config_entry
              Hd Ht Himg Hci) as (st' & n & Hrun & Hn & Hn').
  eexists st', _. split_and!; [exact Hrun|exact Hn'| | | |].
  - simpl. apply paged_image_base_eq.
  - intros Hfit. simpl. rewrite paged_image_base_eq.
    unfold u32, wrap. by apply Z.mod_small.
  - done.
  - intros dtb_infos' config_entry' Hci'.
    destruct (fw_config_paged_overlay dtb_infos' dt_get_ddr_size
                optee_header_is_valid parse_optee_header st config_entry'
                Hd Ht Himg Hci') as (st'' & m & Hrun' & Hm & Hm').
    eexists st'', _. by split_and!.
Qed.

(** ** The reference platform meets the hypotheses *)

Lemma reference_ids_distinct : ids_distinct (pd := stm32mp1_reference).
Proof. apply (bool_decide_unpack _). vm_compute. exact I. Defined.

Lemma reference_table_complete :
  table_complete (pd := stm32mp1_reference) reference_table.
Proof. apply (bool_decide_unpack _). vm_compute. exact I. Defined.

Lemma paged_overlay_placement_witness :
  ∃ st' n',
    bl2_plat_handle_post_image_load (pd := stm32mp1_reference)
      reference_config reference_ddr_size no_composite_header parse_fails
      31 reference_state = Done (0, st')
    ∧ image_record 22 (bl_mem_params_desc st') = Some n'
    ∧ image_base (image_info n') = 0xDE000000
    ∧ image_max_size (image_info n') = 0x01E00000.
Proof.
  destruct (paged_overlay_placement (pd := stm32mp1_reference)
              reference_config reference_ddr_size no_composite_header
              parse_fails reference_state
              {| config_addr := 0xDE000000; config_max_size := 0x01E00000 |}
              reference_ids_distinct reference_table_complete
              eq_refl ltac:(vm_compute; reflexivity))
    as (st' & n' & Hrun & Hrec & Hbase & _ & Hmax & _).
  exists st', n'. split_and!; [exact Hrun|exact Hrec|exact Hbase|exact Hmax].
Defined.

Lemma fw_config_resolves_listed_images_witness :
  (∃ st' n',
     bl2_plat_handle_post_image_load (pd := stm32mp1_reference)
       reference_config reference_ddr_size no_composite_header parse_fails
       31 reference_state = Done (0, st')
     ∧ image_record 5 (bl_mem_params_desc st') = Some n'
     ∧ image_base (image_info n') = 0xC0100000
     ∧ image_max_size (image_info n') = 0x02000000
     ∧ skip_loading (pd := stm32mp1_reference) n' = false)
  ∧ (∃ st',
       bl2_plat_handle_post_image_load (pd := stm32mp1_reference)
         reference_config reference_ddr_size no_composite_header parse_fails
         31 reference_state = Done (0, st')
       ∧ image_record 26 (bl_mem_params_desc st')
           = Some (compiled_node 26 2 0 0x1000)).
Proof.
  split.
  - destruct (fw_config_resolves_listed_images (pd := stm32mp1_reference)
                reference_config reference_ddr_size no_composite_header
                parse_fails reference_state 5
                reference_ids_distinct reference_table_complete eq_refl)
      as (st' & n & Hrun & Hn & Hres).
    { apply (bool_decide_unpack _). vm_compute. exact I. }
    change (reference_config !! @BL33_IMAGE_ID stm32mp1_reference)
      with (Some {| config_addr := 0xC0100000; config_max_size := 0x02000000 |})
      in Hres.
    destruct Hres as (n' & Hn' & Hbase & Hmax & Hskip).
    exists st', n'. by split_and!.
  - destruct (fw_config_resolves_listed_images (pd := stm32mp1_reference)
                reference_config reference_ddr_size no_composite_header
                parse_fails reference_state 26
                reference_ids_distinct reference_table_complete eq_refl)
      as (st' & n & Hrun & Hn & Hres).
    { apply (bool_decide_unpack _). vm_compute. exact I. }
    change (reference_config !! @TOS_FW_CONFIG_ID stm32mp1_reference)
      with (@None dyn_cfg_dtb_info_t) in Hres.
    exists st'. split; [exact Hrun|].
    rewrite Hres. rewrite <- Hn. vm_compute. reflexivity.
Defined.

Lemma monolithic_trusted_os_witness :
  ∃ st' n',
    bl2_plat_handle_post_image_load (pd := stm32mp1_reference)
      reference_config reference_ddr_size no_composite_header parse_fails
      4 reference_state_resolved = Done (0, st')
    ∧ image_record 4 (bl_mem_params_desc st') = Some n'
    ∧ pc (ep_info n') = 0xDE000000
    ∧ image_max_size (image_info n') = 0x01E01000
    ∧ arg0 (ep_info n') = 0.
Proof.
  edestruct (monolithic_trusted_os (pd := stm32mp1_reference)
               reference_config reference_ddr_size no_composite_header
               parse_fails reference_state_resolved)
    as (st' & n' & Hrun & Hrec & Hbase & Hpc & Hmax & _ & Harg0).
  - exact reference_ids_distinct.
  - reflexivity.
  - vm_compute. reflexivity.
  - vm_compute. reflexivity.
  - reflexivity.
  - exists st', n'. split_and!; [exact Hrun|exact Hrec| |exact Hmax|exact Harg0].
    rewrite Hpc, Hbase. reflexivity.
Defined.

Lemma malformed_composite_header_panics_witness :
  bl2_plat_handle_post_image_load (pd := stm32mp1_reference)
    reference_config reference_ddr_size composite_header_everywhere
    parse_needs_room 4 reference_state = Panic
  ∧ bl2_plat_handle_post_image_load (pd := stm32mp1_reference_stm32image)
      reference_config reference_ddr_size composite_header_everywhere
      parse_fails 4 reference_state = Panic.
Proof.
  split.
  - eapply (malformed_composite_header_panics (pd := stm32mp1_reference)).
    + exact reference_ids_distinct.
    + vm_compute. reflexivity.
    + vm_compute. reflexivity.
    + vm_compute. reflexivity.
    + reflexivity.
    + vm_compute. discriminate.
  - eapply (malformed_composite_header_panics
              (pd := stm32mp1_reference_stm32image)).
    + apply (bool_decide_unpack _). vm_compute. exact I.
    + vm_compute. reflexivity.
    + vm_compute. reflexivity.
    + vm_compute. reflexivity.
    + reflexivity.
    + vm_compute. discriminate.
Defined.

Lemma other_identity_is_a_no_op_witness :
  ∃ st',
    bl2_plat_handle_post_image_load (pd := stm32mp1_reference)
      reference_config reference_ddr_size no_composite_header parse_fails
      3 reference_state = Done (0, st')
    ∧ bl_mem_params_desc st' = bl_mem_params_desc reference_state.
Proof.
  apply (other_identity_is_a_no_op (pd := stm32mp1_reference)).
  - simpl. lia.
  - simpl. lia.
  - simpl. lia.
  - vm_compute. by eexists.
Defined.

(** * Part VI: further properties of the SiP service *)

Section sbsa_sip_svc_more.

Variable PLATFORM_CORE_COUNT : Z.
Variable is_caller_non_secure : Z -> bool.

Local Abbreviation store_cpu := (store_cpu PLATFORM_CORE_COUNT).
Local Abbreviation cpu_walk := (cpu_walk PLATFORM_CORE_COUNT).
Local Abbreviation sip_svc_init := (sip_svc_init PLATFORM_CORE_COUNT).
Local Abbreviation read_cpuinfo_from_dt := (read_cpuinfo_from_dt PLATFORM_CORE_COUNT).
Local Abbreviation sbsa_state_init := (sbsa_state_init PLATFORM_CORE_COUNT).
Local Abbreviation sbsa_sip_smc_handler :=
  (sbsa_sip_smc_handler PLATFORM_CORE_COUNT is_caller_non_secure).

Lemma store_cpu_header st i v :
  descriptor_header (store_cpu st i v) = descriptor_header st.
Proof. unfold store_cpu. by destruct (_ && _). Qed.

Lemma cpu_walk_header nodes c nid mp st :
  descriptor_header (cpu_walk nodes c nid mp st).2 = descriptor_header st.
Proof.
  revert c nid mp st. induction nodes as [|node rest IH]; intros; simpl; [done|].
  by rewrite IH, store_cpu_header.
Qed.

Lemma to_int_u32 v : to_int (u32 v) = to_int v.
Proof.
  unfold to_int, u32, wrap. by rewrite Z.mod_mod by lia.
Qed.

Lemma to_int_small v : 0 <= v < 2 ^ 31 -> to_int v = v.
Proof.
  intros Hv. unfold to_int, u32, wrap. rewrite Z.mod_small by lia.
  by rewrite (proj2 (Z.ltb_lt _ _)) by lia.
Qed.

(** The run of the initialisation on a usable blob with a processor
    topology node, once the version reader is through. *)
Lemma sip_svc_init_run mpidr0 dtb st0 sv subnodes :
  dt_usable dtb = true ->
  read_platform_version dtb st0 = Done sv ->
  dt_cpus dtb = Some subnodes ->
  sip_svc_init mpidr0 dtb st0
    = Done (set_num_cpus
              (cpu_walk (from_cpu0 subnodes) 0 0 (u64 mpidr0)
                 (read_platform_config_from_dt dtb sv)).2
              (u32 (Z.of_nat (length (from_cpu0 subnodes))))).
Proof.
  intros Hu Hv Hc. unfold dt_usable in Hu. apply andb_prop in Hu as [Ho Hh].
  apply negb_true_iff in Ho, Hh.
  unfold sip_svc_init. rewrite Ho, Hh, Hv. simpl.
  unfold read_cpuinfo_from_dt. rewrite Hc.
  pose proof (cpu_walk_count PLATFORM_CORE_COUNT (from_cpu0 subnodes) 0 0
                (u64 mpidr0) (read_platform_config_from_dt dtb sv)) as Hcount.
  destruct (cpu_walk _ _ _ _ _) as [n sw]. simpl in *. by rewrite Hcount.
Qed.

Lemma read_platform_version_run dtb st root major minor :
  dt_root dtb = Some root ->
  machine_version_major root = Some major ->
  machine_version_minor root = Some minor ->
  read_platform_version dtb st
    = Done (set_version st (to_int major) (to_int minor)).
Proof.
  intros Hr Hma Hmi. unfold read_platform_version.
  rewrite Hr, Hma, Hmi. simpl. by rewrite !to_int_u32.
Qed.

Lemma read_platform_config_from_dt_version dtb st :
  platform_version_major (read_platform_config_from_dt dtb st)
    = platform_version_major st
  ∧ platform_version_minor (read_platform_config_from_dt dtb st)
    = platform_version_minor st.
Proof.
  unfold read_platform_config_from_dt.
  destruct (dt_intc dtb) as [node|]; [|done].
  destruct (intc_reg node); [|done]. simpl.
  destruct (intc_reg0 node); [|done].
  destruct (intc_reg1 node); [|done].
  by destruct (intc_its node) as [[?|]|].
Qed.

Lemma handler_version st x1 x2 x3 x4 flags :
  is_caller_non_secure flags = true ->
  sbsa_sip_smc_handler st SIP_SVC_VERSION x1 x2 x3 x4 flags
    = SMC_RET3 0 (u64 (platform_version_major st))
                 (u64 (platform_version_minor st)).
Proof. intros Hns. unfold sbsa_sip_smc_handler. by rewrite Hns. Qed.

Lemma handler_get_gic st x1 x2 x3 x4 flags :
  is_caller_non_secure flags = true ->
  sbsa_sip_smc_handler st SIP_SVC_GET_GIC x1 x2 x3 x4 flags
    = SMC_RET3 0 (gicd_base st) (gicr_base st).
Proof. intros Hns. unfold sbsa_sip_smc_handler. by rewrite Hns. Qed.

Lemma handler_get_gic_its st x1 x2 x3 x4 flags :
  is_caller_non_secure flags = true ->
  sbsa_sip_smc_handler st SIP_SVC_GET_GIC_ITS x1 x2 x3 x4 flags
    = SMC_RET2 0 (gic_its_addr st).
Proof. intros Hns. unfold sbsa_sip_smc_handler. by rewrite Hns. Qed.

Lemma handler_get_cpu_count st x1 x2 x3 x4 flags :
  is_caller_non_secure flags = true ->
  sbsa_sip_smc_handler st SIP_SVC_GET_CPU_COUNT x1 x2 x3 x4 flags
    = SMC_RET2 0 (num_cpus st).
Proof. intros Hns. unfold sbsa_sip_smc_handler. by rewrite Hns. Qed.

(** X1: on a usable blob whose root node has both version properties and
    which has a /cpus node, initialisation runs to its end and a version
    query then returns the two property values, as [int] widened to 64 bits:
    the values themselves when they are below 2^31. *)
Theorem version_query_returns_blob_version
    mpidr0 dtb st0 root major minor subnodes x1 x2 x3 x4 flags :
  dt_usable dtb = true ->
  dt_root dtb = Some root ->
  machine_version_major root = Some major ->
  machine_version_minor root = Some minor ->
  dt_cpus dtb = Some subnodes ->
  is_caller_non_secure flags = true ->
  ∃ st,
    sip_svc_init mpidr0 dtb st0 = Done st
    ∧ sbsa_sip_smc_handler st SIP_SVC_VERSION x1 x2 x3 x4 flags
        = SMC_RET3 0 (u64 (to_int major)) (u64 (to_int minor))
    ∧ (0 <= major < 2 ^ 31 -> 0 <= minor < 2 ^ 31 ->
       sbsa_sip_smc_handler st SIP_SVC_VERSION x1 x2 x3 x4 flags
         = SMC_RET3 0 major minor).
Proof.
  intros Hu Hr Hma Hmi Hc Hns.
  eexists. split.
  { eapply sip_svc_init_run; [done| |done].
    by eapply read_platform_version_run. }
  rewrite handler_version by done.
  pose proof (cpu_walk_header (from_cpu0 subnodes) 0 0 (u64 mpidr0)
    (read_platform_config_from_dt dtb
       (set_version st0 (to_int major) (to_int minor)))) as Hh.
  destruct (read_platform_config_from_dt_version dtb
              (set_version st0 (to_int major) (to_int minor))) as [H1 H2].
  unfold descriptor_header in Hh. simpl in *.
  injection Hh as Hmaj Hmin _ _ _. rewrite Hmaj, Hmin, H1, H2. simpl.
  split; [done|]. intros Hmajor Hminor.
  rewrite !to_int_small by done. by rewrite !u64_small by lia.
Qed.

(** What is left of a completed initialisation on a usable blob. *)
Lemma sip_svc_init_inv mpidr0 dtb st0 st :
  sip_svc_init mpidr0 dtb st0 = Done st ->
  dt_usable dtb = true ->
  ∃ sv subnodes,
    read_platform_version dtb st0 = Done sv
    ∧ dt_cpus dtb = Some subnodes
    ∧ st = set_num_cpus
             (cpu_walk (from_cpu0 subnodes) 0 0 (u64 mpidr0)
                (read_platform_config_from_dt dtb sv)).2
             (u32 (Z.of_nat (length (from_cpu0 subnodes)))).
Proof.
  intros Hinit Hu.
  destruct (read_platform_version dtb st0) as [sv| | |] eqn:Hv;
    try (unfold sip_svc_init in Hinit; unfold dt_usable in Hu;
         apply andb_prop in Hu as [Ho Hh]; apply negb_true_iff in Ho, Hh;
         rewrite Ho, Hh, Hv in Hinit; done).
  destruct (dt_cpus dtb) as [subnodes|] eqn:Hc.
  - exists sv, subnodes. split_and!; try done.
    rewrite (sip_svc_init_run mpidr0 dtb st0 sv subnodes Hu Hv Hc) in Hinit.
    by injection Hinit as <-.
  - unfold sip_svc_init in Hinit. unfold dt_usable in Hu.
    apply andb_prop in Hu as [Ho Hh]. apply negb_true_iff in Ho, Hh.
    rewrite Ho, Hh, Hv in Hinit. simpl in Hinit.
    unfold read_cpuinfo_from_dt in Hinit. by rewrite Hc in Hinit.
Qed.

Lemma read_platform_version_frame dtb st sv :
  read_platform_version dtb st = Done sv ->
  gic_its_addr sv = gic_its_addr st ∧ gicd_base sv = gicd_base st
  ∧ gicr_base sv = gicr_base st ∧ num_cpus sv = num_cpus st
  ∧ cpu sv = cpu st ∧ cpu_overrun sv = cpu_overrun st.
Proof.
  unfold read_platform_version.
  destruct (dt_root dtb) as [r|]; [|by intros [= <-]].
  destruct (machine_version_major r); [|done].
  destruct (machine_version_minor r); [|done].
  simpl. by intros [= <-].
Qed.

Lemma read_platform_config_from_dt_frame dtb st :
  num_cpus (read_platform_config_from_dt dtb st) = num_cpus st
  ∧ cpu (read_platform_config_from_dt dtb st) = cpu st
  ∧ cpu_overrun (read_platform_config_from_dt dtb st) = cpu_overrun st.
Proof.
  unfold read_platform_config_from_dt.
  destruct (dt_intc dtb) as [node|]; [|done].
  destruct (intc_reg node); [|done]. simpl.
  destruct (intc_reg0 node); [|done].
  destruct (intc_reg1 node); [|done].
  by destruct (intc_its node) as [[?|]|].
Qed.

Lemma read_platform_version_readable dtb st :
  dt_version_readable dtb = true <-> ∃ sv, read_platform_version dtb st = Done sv.
Proof.
  unfold dt_version_readable, read_platform_version.
  destruct (dt_root dtb) as [r|]; [|by split; [eexists|]].
  destruct (machine_version_major r) as [a|], (machine_version_minor r) as [b|];
    simpl; split; try done; try (by eexists); by intros [sv Hsv].
Qed.

(** X2: the reader of the interrupt controller node stores both bases or
    none. Either it leaves the whole state as it was, or the node is there
    with a "reg" property whose entries 0 and 1 were both read, the two bases
    hold them, and the translation service address is either untouched or the
    entry read from the nested node. *)
Theorem gic_bases_all_or_nothing dtb st :
  read_platform_config_from_dt dtb st = st
  ∨ ∃ node gicd gicr,
      dt_intc dtb = Some node ∧ intc_reg node = true
      ∧ intc_reg0 node = Some gicd ∧ intc_reg1 node = Some gicr
      ∧ gicd_base (read_platform_config_from_dt dtb st) = u64 gicd
      ∧ gicr_base (read_platform_config_from_dt dtb st) = u64 gicr
      ∧ (gic_its_addr (read_platform_config_from_dt dtb st) = gic_its_addr st
         ∨ ∃ its, intc_its node = Some (Some its)
                  ∧ gic_its_addr (read_platform_config_from_dt dtb st) = u64 its).
Proof.
  unfold read_platform_config_from_dt.
  destruct (dt_intc dtb) as [node|]; [|by left].
  destruct (intc_reg node) eqn:Hreg; [|by left]. simpl.
  destruct (intc_reg0 node) as [gicd|] eqn:H0; [|by left].
  destruct (intc_reg1 node) as [gicr|] eqn:H1; [|by left].
  right. exists node, gicd, gicr.
  destruct (intc_its node) as [[its|]|]; split_and!; try done;
    try (by left). right. by exists its.
Qed.

(** X3: on a usable blob that the version reader gets through, with a /cpus
    node and an interrupt controller node whose register entries 0 and 1 are
    readable, initialisation runs to its end and the interrupt-controller
    queries return the two entries, and the entry of the nested translation
    service node when that is readable (the address held before otherwise). *)
Theorem gic_queries_return_blob_bases
    mpidr0 dtb st0 subnodes node gicd gicr x1 x2 x3 x4 flags :
  dt_usable dtb = true ->
  dt_version_readable dtb = true ->
  dt_cpus dtb = Some subnodes ->
  dt_intc dtb = Some node ->
  intc_reg node = true ->
  intc_reg0 node = Some gicd ->
  intc_reg1 node = Some gicr ->
  is_caller_non_secure flags = true ->
  ∃ st,
    sip_svc_init mpidr0 dtb st0 = Done st
    ∧ sbsa_sip_smc_handler st SIP_SVC_GET_GIC x1 x2 x3 x4 flags
        = SMC_RET3 0 (u64 gicd) (u64 gicr)
    ∧ sbsa_sip_smc_handler st SIP_SVC_GET_GIC_ITS x1 x2 x3 x4 flags
        = SMC_RET2 0 (match intc_its node with
                      | Some (Some its) => u64 its
                      | _ => gic_its_addr st0
                      end).
Proof.
  intros Hu Hv Hc Hi Hreg H0 H1 Hns.
  destruct (proj1 (read_platform_version_readable dtb st0) Hv) as [sv Hsv].
  eexists. split; [by eapply sip_svc_init_run|].
  rewrite handler_get_gic, handler_get_gic_its by done.
  pose proof (cpu_walk_header (from_cpu0 subnodes) 0 0 (u64 mpidr0)
                (read_platform_config_from_dt dtb sv)) as Hh.
  unfold descriptor_header in Hh. simpl in *.
  injection Hh as _ _ Hits Hgicd Hgicr. rewrite Hits, Hgicd, Hgicr.
  destruct (read_platform_version_frame dtb st0 sv Hsv) as (Hits0 & _).
  unfold read_platform_config_from_dt. rewrite Hi, Hreg, H0, H1. simpl.
  destruct (intc_its node) as [[its|]|]; simpl; by rewrite ?Hits0.
Qed.

Lemma sip_svc_init_unusable mpidr0 dtb st :
  dt_usable dtb = false -> sip_svc_init mpidr0 dtb st = Done st.
Proof.
  unfold sip_svc_init, dt_usable.
  destruct (dt_open_err dtb <? 0); [done|].
  by destruct (dt_header_err dtb <? 0).
Qed.

(** X4: a blob that [fdt_open_into] or [fdt_check_header] rejects is not
    read at all: initialisation returns with the state it found, without
    panic, and on the zero-initialised state every query then returns
    zeros. *)
Theorem unusable_blob_leaves_defaults mpidr0 dtb st x1 x2 x3 x4 flags :
  dt_usable dtb = false ->
  is_caller_non_secure flags = true ->
  sip_svc_init mpidr0 dtb st = Done st
  ∧ sbsa_sip_smc_handler sbsa_state_init SIP_SVC_VERSION x1 x2 x3 x4 flags
      = SMC_RET3 0 0 0
  ∧ sbsa_sip_smc_handler sbsa_state_init SIP_SVC_GET_GIC x1 x2 x3 x4 flags
      = SMC_RET3 0 0 0
  ∧ sbsa_sip_smc_handler sbsa_state_init SIP_SVC_GET_GIC_ITS x1 x2 x3 x4 flags
      = SMC_RET2 0 0
  ∧ sbsa_sip_smc_handler sbsa_state_init SIP_SVC_GET_CPU_COUNT x1 x2 x3 x4 flags
      = SMC_RET2 0 0.
Proof.
  intros Hu Hns. split_and!.
  - by apply sip_svc_init_unusable.
  - by rewrite handler_version.
  - by rewrite handler_get_gic.
  - by rewrite handler_get_gic_its.
  - by rewrite handler_get_cpu_count.
Qed.

(** X5: how initialisation ends. It panics exactly when the blob is usable,
    the version reader gets through, and there is no /cpus node; it runs to
    its end exactly when the blob is unusable, or the version reader gets
    through and there is a /cpus node; no assertion is involved. *)
Theorem sip_svc_init_outcomes mpidr0 dtb st :
  (sip_svc_init mpidr0 dtb st = Panic
   <-> dt_usable dtb = true ∧ dt_version_readable dtb = true
       ∧ dt_cpus dtb = None)
  ∧ ((∃ st', sip_svc_init mpidr0 dtb st = Done st')
     <-> dt_usable dtb = false
         ∨ (dt_version_readable dtb = true ∧ is_Some (dt_cpus dtb)))
  ∧ sip_svc_init mpidr0 dtb st ≠ AssertFail.
Proof.
  destruct (dt_usable dtb) eqn:Hu.
  - destruct (read_platform_version dtb st) as [sv| | |] eqn:Hv.
    + assert (dt_version_readable dtb = true) as Hr
        by (apply (read_platform_version_readable dtb st); by eexists).
      destruct (dt_cpus dtb) as [subnodes|] eqn:Hc.
      * rewrite (sip_svc_init_run mpidr0 dtb st sv subnodes Hu Hv Hc).
        split_and!; [split; [done|by intros (_ & _ & ?)]| |done].
        split; [by right|by eexists].
      * assert (sip_svc_init mpidr0 dtb st = Panic) as ->.
        { unfold sip_svc_init. unfold dt_usable in Hu.
          apply andb_prop in Hu as [Ho Hh]. apply negb_true_iff in Ho, Hh.
          rewrite Ho, Hh, Hv. simpl. unfold read_cpuinfo_from_dt.
          by rewrite Hc. }
        split_and!; [done| |done].
        split; [by intros [? ?]|]. intros [?|[_ [? ?]]]; done.
    + exfalso. unfold read_platform_version in Hv.
      destruct (dt_root dtb) as [r|]; [|done].
      by destruct (machine_version_major r), (machine_version_minor r).
    + exfalso. unfold read_platform_version in Hv.
      destruct (dt_root dtb) as [r|]; [|done].
      by destruct (machine_version_major r), (machine_version_minor r).
    + assert (dt_version_readable dtb = false) as Hr.
      { destruct (dt_version_readable dtb) eqn:Hr; [|done].
        apply (read_platform_version_readable dtb st) in Hr as [sv Hsv].
        congruence. }
      assert (sip_svc_init mpidr0 dtb st = NullDeref) as ->.
      { unfold sip_svc_init. unfold dt_usable in Hu.
        apply andb_prop in Hu as [Ho Hh]. apply negb_true_iff in Ho, Hh.
        by rewrite Ho, Hh, Hv. }
      rewrite Hr. split_and!; [split; [done|by intros (_ & ? & _)]| |done].
      split; [by intros [? ?]|]. intros [?|[? _]]; done.
  - rewrite (sip_svc_init_unusable mpidr0 dtb st Hu).
    split_and!; [split; [done|by intros (? & _)]| |done].
    split; [by left|by eexists].
Qed.

Lemma from_cpu0_found pre c0 post :
  Forall (λ node, cpu_name node ≠ "cpu@0") pre ->
  cpu_name c0 = "cpu@0" ->
  from_cpu0 (pre ++ c0 :: post) = c0 :: post.
Proof.
  intros Hpre Hc0. induction Hpre as [|node pre Hnode _ IH]; simpl.
  - by rewrite (proj2 (String.eqb_eq _ _) Hc0).
  - by rewrite (proj2 (String.eqb_neq _ _) Hnode).
Qed.

Lemma from_cpu0_not_found nodes :
  Forall (λ node, cpu_name node ≠ "cpu@0") nodes -> from_cpu0 nodes = [].
Proof.
  intros Hn. induction Hn as [|node nodes Hnode _ IH]; simpl; [done|].
  by rewrite (proj2 (String.eqb_neq _ _) Hnode).
Qed.

(** X6: the count is taken from the sub-node named "cpu@0" on. Sub-nodes
    before it are not counted; every sub-node after it is, whatever its name;
    and a cpu-count query returns that number. *)
Theorem cpu_count_starts_at_cpu0
    mpidr0 dtb st0 st pre c0 post x1 x2 x3 x4 flags :
  sip_svc_init mpidr0 dtb st0 = Done st ->
  dt_usable dtb = true ->
  dt_cpus dtb = Some (pre ++ c0 :: post) ->
  Forall (λ node, cpu_name node ≠ "cpu@0") pre ->
  cpu_name c0 = "cpu@0" ->
  1 + Z.of_nat (length post) < 2 ^ 32 ->
  is_caller_non_secure flags = true ->
  sbsa_sip_smc_handler st SIP_SVC_GET_CPU_COUNT x1 x2 x3 x4 flags
    = SMC_RET2 0 (1 + Z.of_nat (length post)).
Proof.
  intros Hinit Hu Hc Hpre Hc0 Hfit Hns.
  rewrite handler_get_cpu_count by done. f_equal.
  rewrite (num_cpus_follows_node_count PLATFORM_CORE_COUNT mpidr0 dtb st0 st
             _ Hinit Hu Hc).
  rewrite from_cpu0_found by done. simpl length.
  unfold u32, wrap. rewrite Z.mod_small; lia.
Qed.

(** X7: on a usable blob that the version reader gets through, when /cpus
    is there and none of its sub-nodes is named "cpu@0" the walk does not
    start: initialisation runs to its end, the count is 0, and the per-CPU
    array is left as it was, with no store outside it. *)
Theorem no_cpu0_means_no_cpus mpidr0 dtb st0 subnodes :
  dt_usable dtb = true ->
  dt_version_readable dtb = true ->
  dt_cpus dtb = Some subnodes ->
  Forall (λ node, cpu_name node ≠ "cpu@0") subnodes ->
  ∃ st,
    sip_svc_init mpidr0 dtb st0 = Done st
    ∧ num_cpus st = 0 ∧ cpu st = cpu st0 ∧ cpu_overrun st = cpu_overrun st0.
Proof.
  intros Hu Hr Hc Hnames.
  destruct (proj1 (read_platform_version_readable dtb st0) Hr) as [sv Hv].
  eexists. split; [exact (sip_svc_init_run mpidr0 dtb st0 sv subnodes Hu Hv Hc)|].
  rewrite from_cpu0_not_found by done. simpl.
  destruct (read_platform_version_frame _ _ _ Hv) as (_ & _ & _ & _ & Hcpu & Hov).
  destruct (read_platform_config_from_dt_frame dtb sv) as (_ & Hcpu' & Hov').
  split_and!; [done| |]; congruence.
Qed.

(** The stores of the walk that fall outside the array. *)
Lemma cpu_walk_overrun nodes c nid mp st :
  0 <= c ->
  length (cpu_overrun (cpu_walk nodes c nid mp st).2)
    = (length (cpu_overrun st)
       + Z.to_nat (c + Z.of_nat (length nodes) - Z.max c PLATFORM_CORE_COUNT))%nat.
Proof.
  revert c nid mp st. induction nodes as [|node rest IH]; intros c nid mp st Hc.
  - simpl. lia.
  - simpl cpu_walk. rewrite IH by lia. simpl length.
    unfold store_cpu.
    destruct (Z.ltb_spec c PLATFORM_CORE_COUNT);
      rewrite (proj2 (Z.leb_le 0 c)) by done; simpl; lia.
Qed.

(** X8: starting from the zero-initialised state, the walk stores outside
    the array once for each sub-node beyond the capacity, so a blob with at
    most [PLATFORM_CORE_COUNT] sub-nodes from "cpu@0" on causes no such store
    and leaves a count within the capacity. *)
Theorem overrun_counts_excess_nodes mpidr0 dtb st subnodes :
  sip_svc_init mpidr0 dtb sbsa_state_init = Done st ->
  dt_usable dtb = true ->
  dt_cpus dtb = Some subnodes ->
  0 <= PLATFORM_CORE_COUNT ->
  length (cpu_overrun st)
    = (length (from_cpu0 subnodes) - Z.to_nat PLATFORM_CORE_COUNT)%nat
  ∧ (Z.of_nat (length (from_cpu0 subnodes)) <= PLATFORM_CORE_COUNT ->
     cpu_overrun st = [] ∧ num_cpus st <= PLATFORM_CORE_COUNT).
Proof.
  intros Hinit Hu Hc Hcap.
  destruct (sip_svc_init_inv _ _ _ _ Hinit Hu)
    as (sv & subnodes' & Hv & Hc' & ->).
  rewrite Hc in Hc'. injection Hc' as <-.
  destruct (read_platform_version_frame _ _ _ Hv) as (_ & _ & _ & _ & _ & Hov).
  destruct (read_platform_config_from_dt_frame dtb sv) as (_ & _ & Hov').
  assert (length (cpu_overrun
            (cpu_walk (from_cpu0 subnodes) 0 0 (u64 mpidr0)
               (read_platform_config_from_dt dtb sv)).2)
          = (length (from_cpu0 subnodes) - Z.to_nat PLATFORM_CORE_COUNT)%nat)
    as Hlen.
  { rewrite cpu_walk_overrun by lia. rewrite Hov', Hov. simpl. lia. }
  split; [exact Hlen|]. intros Hfit. simpl. split.
  - apply length_zero_iff_nil. rewrite Hlen. lia.
  - pose proof (u32_le (Z.of_nat (length (from_cpu0 subnodes)))). lia.
Qed.

(** After initialisation from the zero-initialised state on a usable blob,
    a slot within the capacity holds the entry of its position in the
    traversal sequence, whatever the count says. *)
Lemma sip_svc_init_slot mpidr0 dtb st (k : nat) e :
  sip_svc_init mpidr0 dtb sbsa_state_init = Done st ->
  dt_usable dtb = true ->
  spec_cpu_sequence mpidr0 dtb !! k = Some e ->
  Z.of_nat k < PLATFORM_CORE_COUNT ->
  cpu st !! k = Some e.
Proof.
  intros Hinit Hu He Hk.
  destruct (sip_svc_init_cpus _ _ _ _ _ Hinit)
    as [[Hu' _]|[_ (subnodes & st1 & Hcpus & Hst1 & _ & Hcpu)]]; [congruence|].
  unfold spec_cpu_sequence in He. rewrite Hcpus in He. rewrite Hcpu.
  replace k with (Z.to_nat (0 + Z.of_nat k)) at 1 by lia.
  apply cpu_walk_lookup_entry; try done; try lia.
  rewrite Hst1. apply length_replicate.
Qed.

(** X9: after initialisation from the zero-initialised state, every slot
    of the per-CPU array at or beyond the number of sub-nodes visited still
    holds zeros, and a cpu-node query for it returns (0, 0, 0). *)
Theorem unvisited_slots_read_zero mpidr0 dtb st index x2 x3 x4 flags :
  sip_svc_init mpidr0 dtb sbsa_state_init = Done st ->
  Z.of_nat (length (spec_cpu_sequence mpidr0 dtb)) <= index < PLATFORM_CORE_COUNT ->
  index < 2 ^ 64 ->
  is_caller_non_secure flags = true ->
  sbsa_sip_smc_handler st SIP_SVC_GET_CPU_NODE index x2 x3 x4 flags
    = SMC_RET3 0 0 0.
Proof.
  intros Hinit Hidx Hsmall Hns.
  rewrite handler_cpu_node, u64_small by (done || lia).
  rewrite (proj2 (Z.ltb_lt _ _)) by lia.
  assert (cpu st !! Z.to_nat index = Some cpu_data_zero) as Hslot.
  { destruct (sip_svc_init_cpus _ _ _ _ _ Hinit)
      as [[_ ->]|[_ (subnodes & st1 & Hcpus & Hst1 & _ & Hcpu)]].
    - simpl. apply lookup_replicate_2. lia.
    - rewrite Hcpu. unfold spec_cpu_sequence in Hidx. rewrite Hcpus in Hidx.
      rewrite spec_cpu_entries_length in Hidx.
      rewrite cpu_walk_lookup_outside by lia.
      rewrite Hst1. simpl. apply lookup_replicate_2. lia. }
  by rewrite (list_lookup_total_correct _ _ _ Hslot).
Qed.

Lemma u32_u64 v : u32 (u64 v) = u32 v.
Proof.
  unfold u32, u64, wrap. apply Z.mod_mod_divide. exists (2 ^ 32). lia.
Qed.

Lemma u32_u32 v : u32 (u32 v) = u32 v.
Proof. unfold u32, wrap. by rewrite Z.mod_mod by lia. Qed.

(** An entry of the sequence holds the properties of its sub-node, cut to 32
    bits, when the sub-node has them. *)
Lemma spec_cpu_entries_own nodes nid mp (k : nat) node :
  nodes !! k = Some node ->
  ∃ e, spec_cpu_entries nodes nid mp !! k = Some e
       ∧ (∀ v, cpu_numa_node_id node = Some v -> nodeid e = u32 v)
       ∧ (∀ r, cpu_reg node = Some r -> mpidr e = u32 r).
Proof.
  revert nid mp k. induction nodes as [|n0 rest IH]; intros nid mp k Hk; [done|].
  destruct k as [|k].
  - injection Hk as ->. eexists. split; [done|]. simpl. split.
    + by intros v ->.
    + intros r ->. simpl. apply u32_u64.
  - simpl in Hk. simpl. by apply IH.
Qed.

(** An entry takes over from the entry before it what its sub-node lacks. *)
Lemma spec_cpu_entries_inherit nodes nid mp (k : nat) node e :
  nodes !! S k = Some node ->
  spec_cpu_entries nodes nid mp !! k = Some e ->
  ∃ e', spec_cpu_entries nodes nid mp !! S k = Some e'
        ∧ (cpu_numa_node_id node = None -> nodeid e' = nodeid e)
        ∧ (cpu_reg node = None -> mpidr e' = mpidr e).
Proof.
  revert nid mp k e. induction nodes as [|n0 rest IH]; intros nid mp k e Hk He;
    [done|].
  destruct k as [|k].
  - destruct rest as [|n1 rest]; [done|]. simpl in Hk. injection Hk as ->.
    simpl in He. injection He as <-. eexists. split; [done|]. simpl. split.
    + by intros ->.
    + by intros ->.
  - simpl in Hk, He. simpl. by eapply IH.
Qed.

(** X10: a slot within the capacity holds what its sub-node says: the NUMA
    node id and the affinity identifier of the sub-node at that position from
    "cpu@0" on, each cut to 32 bits. *)
Theorem slot_holds_node_properties
    mpidr0 dtb st subnodes (k : nat) node v r x2 x3 x4 flags :
  sip_svc_init mpidr0 dtb sbsa_state_init = Done st ->
  dt_usable dtb = true ->
  dt_cpus dtb = Some subnodes ->
  from_cpu0 subnodes !! k = Some node ->
  Z.of_nat k < PLATFORM_CORE_COUNT ->
  Z.of_nat k < 2 ^ 64 ->
  cpu_numa_node_id node = Some v ->
  cpu_reg node = Some r ->
  is_caller_non_secure flags = true ->
  cpu st !! k = Some {| nodeid := u32 v; mpidr := u32 r |}
  ∧ sbsa_sip_smc_handler st SIP_SVC_GET_CPU_NODE (Z.of_nat k) x2 x3 x4 flags
      = SMC_RET3 0 (u32 v) (u32 r).
Proof.
  intros Hinit Hu Hc Hnode Hk Hk64 Hv Hr Hns.
  destruct (spec_cpu_entries_own _ 0 (u64 mpidr0) _ _ Hnode)
    as (e & He & Hnid & Hmp).
  assert (cpu st !! k = Some {| nodeid := u32 v; mpidr := u32 r |}) as Hslot.
  { rewrite (sip_svc_init_slot mpidr0 dtb st k e); try done.
    - destruct e as [n m]. simpl in *. by rewrite (Hnid v), (Hmp r).
    - unfold spec_cpu_sequence. by rewrite Hc. }
  split; [exact Hslot|].
  rewrite handler_cpu_node, u64_small by (done || lia).
  rewrite (proj2 (Z.ltb_lt _ _)) by lia. rewrite Nat2Z.id.
  by rewrite (list_lookup_total_correct _ _ _ Hslot).
Qed.

(** X11: the two properties are sparse and inherit downward. A sub-node
    without NUMA property gets the node id of the slot before it (0 for the
    first), and a sub-node whose register entry is not read gets the affinity
    identifier of the slot before it. *)
Theorem missing_properties_inherit mpidr0 dtb st subnodes :
  sip_svc_init mpidr0 dtb sbsa_state_init = Done st ->
  dt_usable dtb = true ->
  dt_cpus dtb = Some subnodes ->
  (∀ node, from_cpu0 subnodes !! 0%nat = Some node ->
     0 < PLATFORM_CORE_COUNT ->
     cpu_numa_node_id node = None ->
     nodeid (cpu st !!! 0%nat) = 0)
  ∧ (∀ (k : nat) node, from_cpu0 subnodes !! S k = Some node ->
       Z.of_nat (S k) < PLATFORM_CORE_COUNT ->
       (cpu_numa_node_id node = None ->
          nodeid (cpu st !!! S k) = nodeid (cpu st !!! k))
       ∧ (cpu_reg node = None ->
            mpidr (cpu st !!! S k) = mpidr (cpu st !!! k))).
Proof.
  intros Hinit Hu Hc.
  assert (∀ (k : nat) e, spec_cpu_entries (from_cpu0 subnodes) 0 (u64 mpidr0)
                           !! k = Some e ->
                         Z.of_nat k < PLATFORM_CORE_COUNT ->
                         cpu st !!! k = e) as Hslot.
  { intros k e He Hk. apply list_lookup_total_correct.
    apply (sip_svc_init_slot mpidr0 dtb); try done.
    unfold spec_cpu_sequence. by rewrite Hc. }
  split.
  - intros node Hnode Hcap Hnuma.
    destruct (from_cpu0 subnodes) as [|n0 rest]; [done|].
    injection Hnode as ->. rewrite (Hslot 0%nat _ eq_refl) by done.
    simpl. by rewrite Hnuma.
  - intros k node Hnode Hk.
    destruct (lookup_lt_is_Some_2 (spec_cpu_entries (from_cpu0 subnodes) 0
                                     (u64 mpidr0)) k) as [e He].
    { rewrite spec_cpu_entries_length. apply lookup_lt_Some in Hnode. lia. }
    destruct (spec_cpu_entries_inherit _ _ _ _ _ _ Hnode He)
      as (e' & He' & Hnid & Hmp).
    rewrite (Hslot (S k) e'), (Hslot k e) by (done || lia). by split.
Qed.

End sbsa_sip_svc_more.

(** ** The reference blobs meet the hypotheses *)

Lemma version_query_returns_blob_version_witness :
  ∃ st,
    sip_svc_init 4 0 dtb_with_gic (sbsa_state_init 4) = Done st
    ∧ sbsa_sip_smc_handler 4 flags_bit0 st SIP_SVC_VERSION 0 0 0 0 1
        = SMC_RET3 0 0 9.
Proof.
  destruct (version_query_returns_blob_version 4 flags_bit0 0 dtb_with_gic
              (sbsa_state_init 4)
              {| machine_version_major := Some 0; machine_version_minor := Some 9 |}
              0 9 (numbered_cpu <$> seq 0 2) 0 0 0 0 1
              eq_refl eq_refl eq_refl eq_refl eq_refl eq_refl)
    as (st & Hinit & _ & Hq).
  exists st. split; [exact Hinit|]. apply Hq; lia.
Defined.

Lemma gic_queries_return_blob_bases_witness :
  ∃ st,
    sip_svc_init 4 0 dtb_with_gic (sbsa_state_init 4) = Done st
    ∧ sbsa_sip_smc_handler 4 flags_bit0 st SIP_SVC_GET_GIC 0 0 0 0 1
        = SMC_RET3 0 0x40060000 0x40080000
    ∧ sbsa_sip_smc_handler 4 flags_bit0 st SIP_SVC_GET_GIC_ITS 0 0 0 0 1
        = SMC_RET2 0 0x44081000.
Proof.
  apply (gic_queries_return_blob_bases 4 flags_bit0 0 dtb_with_gic
           (sbsa_state_init 4) (numbered_cpu <$> seq 0 2)
           {| intc_reg := true; intc_reg0 := Some 0x40060000;
              intc_reg1 := Some 0x40080000;
              intc_its := Some (Some 0x44081000) |}
           0x40060000 0x40080000 0 0 0 0 1);
    reflexivity.
Defined.

Lemma unusable_blob_leaves_defaults_witness :
  dt_usable dtb_unusable = false
  ∧ sip_svc_init 4 0 dtb_unusable (sbsa_state_init 4) = Done (sbsa_state_init 4)
  ∧ sbsa_sip_smc_handler 4 flags_bit0 (sbsa_state_init 4)
      SIP_SVC_GET_CPU_COUNT 0 0 0 0 1 = SMC_RET2 0 0.
Proof.
  destruct (unusable_blob_leaves_defaults 4 flags_bit0 0 dtb_unusable
              (sbsa_state_init 4) 0 0 0 0 1 eq_refl eq_refl)
    as (Hinit & _ & _ & _ & Hcount).
  split_and!; [reflexivity|exact Hinit|exact Hcount].
Defined.

Lemma cpu_count_starts_at_cpu0_witness :
  sip_svc_init 4 0 dtb_with_cpu_map (sbsa_state_init 4)
    = Done (sbsa_after dtb_with_cpu_map)
  ∧ sbsa_sip_smc_handler 4 flags_bit0 (sbsa_after dtb_with_cpu_map)
      SIP_SVC_GET_CPU_COUNT 0 0 0 0 1 = SMC_RET2 0 3.
Proof.
  assert (sip_svc_init 4 0 dtb_with_cpu_map (sbsa_state_init 4)
            = Done (sbsa_after dtb_with_cpu_map)) as Hinit
    by (vm_compute; reflexivity).
  split; [exact Hinit|].
  apply (cpu_count_starts_at_cpu0 4 flags_bit0 0 dtb_with_cpu_map
           (sbsa_state_init 4) (sbsa_after dtb_with_cpu_map)
           [ {| cpu_name := "cpu-map"; cpu_reg := None;
                cpu_numa_node_id := None |} ]
           {| cpu_name := "cpu@0"; cpu_reg := Some 0;
              cpu_numa_node_id := Some 1 |}
           [ {| cpu_name := "cpu@1"; cpu_reg := Some 0x100000001;
                cpu_numa_node_id := None |};
             {| cpu_name := "idle-states"; cpu_reg := None;
                cpu_numa_node_id := None |} ]
           0 0 0 0 1 Hinit eq_refl eq_refl).
  - apply (bool_decide_unpack _). vm_compute. exact I.
  - reflexivity.
  - simpl. lia.
  - reflexivity.
Defined.

Lemma no_cpu0_means_no_cpus_witness :
  dt_version_readable dtb_without_cpu0 = true
  ∧ ∃ st,
      sip_svc_init 4 0 dtb_without_cpu0 (sbsa_state_init 4) = Done st
      ∧ platform_version_minor st = 9
      ∧ num_cpus st = 0
      ∧ cpu st = cpu (sbsa_state_init 4).
Proof.
  split; [reflexivity|].
  destruct (no_cpu0_means_no_cpus 4 0 dtb_without_cpu0 (sbsa_state_init 4)
              [ {| cpu_name := "cpu-map"; cpu_reg := None;
                   cpu_numa_node_id := None |};
                {| cpu_name := "cpu@1"; cpu_reg := Some 1;
                   cpu_numa_node_id := None |} ])
    as (st & Hinit & Hnum & Hcpu & _).
  - reflexivity.
  - reflexivity.
  - reflexivity.
  - apply (bool_decide_unpack _). vm_compute. exact I.
  - exists st. split_and!; [exact Hinit| |exact Hnum|exact Hcpu].
    assert (Done st = Done (sbsa_after dtb_without_cpu0)) as Heq
      by (rewrite <- Hinit; vm_compute; reflexivity).
    injection Heq as ->. reflexivity.
Defined.

Lemma overrun_counts_excess_nodes_witness :
  sip_svc_init 4 0 (dtb_with_cpus 3) (sbsa_state_init 4) = Done sbsa_three_of_four
  ∧ cpu_overrun sbsa_three_of_four = []
  ∧ num_cpus sbsa_three_of_four <= 4.
Proof.
  assert (sip_svc_init 4 0 (dtb_with_cpus 3) (sbsa_state_init 4)
            = Done sbsa_three_of_four) as Hinit by (vm_compute; reflexivity).
  destruct (overrun_counts_excess_nodes 4 0 (dtb_with_cpus 3)
              sbsa_three_of_four (numbered_cpu <$> seq 0 3)
              Hinit eq_refl eq_refl) as [_ Hfit]; [lia|].
  destruct Hfit as [Hov Hnum]; [simpl; lia|].
  by split_and!.
Defined.

Lemma unvisited_slots_read_zero_witness :
  sip_svc_init 4 0 (dtb_with_cpus 3) (sbsa_state_init 4) = Done sbsa_three_of_four
  ∧ sbsa_sip_smc_handler 4 flags_bit0 sbsa_three_of_four
      SIP_SVC_GET_CPU_NODE 3 0 0 0 1 = SMC_RET3 0 0 0.
Proof.
  assert (sip_svc_init 4 0 (dtb_with_cpus 3) (sbsa_state_init 4)
            = Done sbsa_three_of_four) as Hinit by (vm_compute; reflexivity).
  split; [exact Hinit|].
  apply (unvisited_slots_read_zero 4 flags_bit0 0 (dtb_with_cpus 3)
           sbsa_three_of_four 3 0 0 0 1 Hinit).
  - simpl. lia.
  - lia.
  - reflexivity.
Defined.

Lemma slot_holds_node_properties_witness :
  sip_svc_init 4 0 dtb_with_cpu_map (sbsa_state_init 4)
    = Done (sbsa_after dtb_with_cpu_map)
  ∧ cpu (sbsa_after dtb_with_cpu_map) !! 0%nat
      = Some {| nodeid := 1; mpidr := 0 |}
  ∧ sbsa_sip_smc_handler 4 flags_bit0 (sbsa_after dtb_with_cpu_map)
      SIP_SVC_GET_CPU_NODE 0 0 0 0 1 = SMC_RET3 0 1 0.
Proof.
  assert (sip_svc_init 4 0 dtb_with_cpu_map (sbsa_state_init 4)
            = Done (sbsa_after dtb_with_cpu_map)) as Hinit
    by (vm_compute; reflexivity).
  split; [exact Hinit|].
  apply (slot_holds_node_properties 4 flags_bit0 0 dtb_with_cpu_map
           (sbsa_after dtb_with_cpu_map)
           [ {| cpu_name := "cpu-map"; cpu_reg := None;
                cpu_numa_node_id := None |};
             {| cpu_name := "cpu@0"; cpu_reg := Some 0;
                cpu_numa_node_id := Some 1 |};
             {| cpu_name := "cpu@1"; cpu_reg := Some 0x100000001;
                cpu_numa_node_id := None |};
             {| cpu_name := "idle-states"; cpu_reg := None;
                cpu_numa_node_id := None |} ]
           0%nat
           {| cpu_name := "cpu@0"; cpu_reg := Some 0;
              cpu_numa_node_id := Some 1 |}
           1 0 0 0 0 1 Hinit eq_refl eq_refl eq_refl);
    (reflexivity || (simpl; lia)).
Defined.

Lemma missing_properties_inherit_witness :
  sip_svc_init 4 0 dtb_with_cpu_map (sbsa_state_init 4)
    = Done (sbsa_after dtb_with_cpu_map)
  ∧ nodeid (cpu (sbsa_after dtb_with_cpu_map) !!! 1%nat)
      = nodeid (cpu (sbsa_after dtb_with_cpu_map) !!! 0%nat)
  ∧ mpidr (cpu (sbsa_after dtb_with_cpu_map) !!! 2%nat)
      = mpidr (cpu (sbsa_after dtb_with_cpu_map) !!! 1%nat).
Proof.
  assert (sip_svc_init 4 0 dtb_with_cpu_map (sbsa_state_init 4)
            = Done (sbsa_after dtb_with_cpu_map)) as Hinit
    by (vm_compute; reflexivity).
  destruct (missing_properties_inherit 4 0 dtb_with_cpu_map
              (sbsa_after dtb_with_cpu_map)
              [ {| cpu_name := "cpu-map"; cpu_reg := None;
                   cpu_numa_node_id := None |};
                {| cpu_name := "cpu@0"; cpu_reg := Some 0;
                   cpu_numa_node_id := Some 1 |};
                {| cpu_name := "cpu@1"; cpu_reg := Some 0x100000001;
                   cpu_numa_node_id := None |};
                {| cpu_name := "idle-states"; cpu_reg := None;
                   cpu_numa_node_id := None |} ]
              Hinit eq_refl eq_refl) as [_ Hnext].
  split; [exact Hinit|]. split.
  - apply (Hnext 0%nat {| cpu_name := "cpu@1"; cpu_reg := Some 0x100000001;
                          cpu_numa_node_id := None |});
      (reflexivity || (simpl; lia)).
  - apply (Hnext 1%nat {| cpu_name := "idle-states"; cpu_reg := None;
                          cpu_numa_node_id := None |});
      (reflexivity || (simpl; lia)).
Defined.

(** ** The reference platform meets the further hypotheses *)

Lemma reference_table_ready :
  table_ready (pd := stm32mp1_reference) reference_config reference_table.
Proof.
  split.
  - apply (bool_decide_unpack _). vm_compute. exact I.
  - intros _. vm_compute. by eexists.
Defined.

Lemma reference_table_core_sans_tos :
  table_core (pd := stm32mp1_reference) reference_table_sans_tos.
Proof. apply (bool_decide_unpack _). vm_compute. exact I. Defined.

Lemma fw_config_frame_witness :
  ∃ st',
    bl2_plat_handle_post_image_load (pd := stm32mp1_reference)
      reference_config reference_ddr_size no_composite_header parse_fails
      31 reference_state = Done (0, st')
    ∧ dcache_inv st' = []
    ∧ image_record 3 (bl_mem_params_desc st')
        = Some (compiled_node 3 0 0x2FFC2000 0x10000).
Proof.
  destruct (fw_config_frame (pd := stm32mp1_reference)
              reference_config reference_ddr_size no_composite_header
              parse_fails reference_state
              reference_ids_distinct reference_table_ready eq_refl)
    as (st' & Hrun & Hinv & _ & Hother & _).
  exists st'. split_and!; [exact Hrun|exact Hinv|].
  rewrite (Hother 3).
  - vm_compute. reflexivity.
  - apply (bool_decide_unpack _). vm_compute. exact I.
  - simpl. lia.
  - simpl. lia.
Defined.

Lemma fw_config_without_tos_record_witness :
  ∃ st' n',
    bl2_plat_handle_post_image_load (pd := stm32mp1_reference)
      reference_config reference_ddr_size no_composite_header parse_fails
      31 reference_state_sans_tos = Done (0, st')
    ∧ image_record 4 (bl_mem_params_desc st') = Some n'
    ∧ image_base (image_info n') = 0xDE000000.
Proof.
  destruct (fw_config_without_tos_record (pd := stm32mp1_reference)
              reference_config reference_ddr_size no_composite_header
              parse_fails reference_state_sans_tos
              reference_ids_distinct reference_table_core_sans_tos eq_refl)
    as (st' & Hrun & Hplaced).
  { vm_compute. reflexivity. }
  { vm_compute. reflexivity. }
  destruct (Hplaced 4 {| config_addr := 0xDE000000; config_max_size := 0x01E00000 |})
    as (n' & Hn' & Hbase & _).
  { apply (bool_decide_unpack _). vm_compute. exact I. }
  { vm_compute. reflexivity. }
  exists st', n'. by split_and!.
Defined.

Lemma fw_config_entry_without_record_asserts_witness :
  bl2_plat_handle_post_image_load (pd := stm32mp1_reference)
    reference_config_with_tos reference_ddr_size no_composite_header parse_fails
    31 reference_state_sans_tos = AssertFail.
Proof.
  apply (fw_config_entry_without_record_asserts (pd := stm32mp1_reference)).
  - exact reference_ids_distinct.
  - exact reference_table_core_sans_tos.
  - reflexivity.
  - vm_compute. by eexists.
  - vm_compute. reflexivity.
Defined.

Lemma fw_config_seeds_pager_witness :
  ∃ st' pager',
    bl2_plat_handle_post_image_load (pd := stm32mp1_reference)
      reference_config reference_ddr_size no_composite_header parse_fails
      31 reference_state = Done (0, st')
    ∧ image_record 21 (bl_mem_params_desc st') = Some pager'
    ∧ image_base (image_info pager') = 0xDE000000
    ∧ image_max_size (image_info pager') = 0x01E00000.
Proof.
  destruct (fw_config_seeds_pager (pd := stm32mp1_reference)
              reference_config reference_ddr_size no_composite_header
              parse_fails reference_state
              {| config_addr := 0xDE000000; config_max_size := 0x01E00000 |}
              reference_ids_distinct reference_table_ready eq_refl)
    as (st' & pager & pager' & paged & paged' & Hrun & _ & Hrec & _ & _
        & Hbase & Hmax & _).
  { vm_compute. reflexivity. }
  exists st', pager'. by split_and!.
Defined.

Lemma fw_config_entry_points_witness :
  ∃ st' n',
    bl2_plat_handle_post_image_load (pd := stm32mp1_reference)
      reference_config reference_ddr_size no_composite_header parse_fails
      31 reference_state = Done (0, st')
    ∧ image_record 5 (bl_mem_params_desc st') = Some n'
    ∧ pc (ep_info n') = 0xC0100000.
Proof.
  destruct (fw_config_entry_points (pd := stm32mp1_reference)
              reference_config reference_ddr_size no_composite_header
              parse_fails reference_state 5
              {| config_addr := 0xC0100000; config_max_size := 0x02000000 |}
              reference_ids_distinct reference_table_ready eq_refl)
    as (st' & n & n' & Hrun & _ & Hrec & Hep & _).
  { apply (bool_decide_unpack _). vm_compute. exact I. }
  { vm_compute. reflexivity. }
  exists st', n'. split_and!; [exact Hrun|exact Hrec|].
  rewrite Hep; [reflexivity|]. right. reflexivity.
Defined.

Lemma fw_config_twice_changes_nothing_witness :
  ∃ st1 st2,
    bl2_plat_handle_post_image_load (pd := stm32mp1_reference)
      reference_config reference_ddr_size no_composite_header parse_fails
      31 reference_state = Done (0, st1)
    ∧ bl2_plat_handle_post_image_load (pd := stm32mp1_reference)
        reference_config_repopulated reference_ddr_size no_composite_header
        parse_fails 31 st1 = Done (0, st2)
    ∧ image_record 4 (bl_mem_params_desc st2)
        = image_record 4 (bl_mem_params_desc st1).
Proof.
  destruct (fw_config_twice_changes_nothing (pd := stm32mp1_reference)
              reference_config reference_config_repopulated
              reference_ddr_size no_composite_header
              parse_fails reference_state
              reference_ids_distinct reference_table_ready eq_refl)
    as (st1 & st2 & Hrun1 & Hrun2 & Hsame).
  - repeat (apply Forall_cons; split; [vm_compute; reflexivity|]).
    apply Forall_nil_2.
  - exists st1, st2. split_and!; [exact Hrun1|exact Hrun2|apply Hsame].
Defined.

Lemma bl33_sets_return_address_witness :
  ∃ st' n32',
    bl2_plat_handle_post_image_load (pd := stm32mp1_reference)
      reference_config reference_ddr_size no_composite_header parse_fails
      5 reference_state_resolved = Done (0, st')
    ∧ image_record 4 (bl_mem_params_desc st') = Some n32'
    ∧ lr_svc (ep_info n32') = 0xC0100000.
Proof.
  edestruct (bl33_sets_return_address (pd := stm32mp1_reference)
               reference_config reference_ddr_size no_composite_header
               parse_fails reference_state_resolved)
    as (st' & n32' & Hrun & Hrec & Hlr & _).
  - exact reference_ids_distinct.
  - vm_compute. reflexivity.
  - vm_compute. reflexivity.
  - exists st', n32'. split_and!; [exact Hrun|exact Hrec|].
    rewrite Hlr. reflexivity.
Defined.

Lemma fw_config_then_bl33_links_return_witness :
  ∃ st1 st2 n32,
    bl2_plat_handle_post_image_load (pd := stm32mp1_reference)
      reference_config reference_ddr_size no_composite_header parse_fails
      31 reference_state = Done (0, st1)
    ∧ bl2_plat_handle_post_image_load (pd := stm32mp1_reference)
        reference_config reference_ddr_size no_composite_header parse_fails
        5 st1 = Done (0, st2)
    ∧ image_record 4 (bl_mem_params_desc st2) = Some n32
    ∧ lr_svc (ep_info n32) = 0xC0100000.
Proof.
  apply (fw_config_then_bl33_links_return (pd := stm32mp1_reference)
           reference_config reference_ddr_size no_composite_header
           parse_fails reference_state
           {| config_addr := 0xC0100000; config_max_size := 0x02000000 |}
           reference_ids_distinct reference_table_ready eq_refl).
  vm_compute. reflexivity.
Defined.

Lemma composite_trusted_os_arguments_witness :
  ∃ st' n',
    bl2_plat_handle_post_image_load (pd := stm32mp1_reference)
      reference_config reference_ddr_size composite_header_everywhere
      parse_succeeds 4 reference_state_resolved = Done (0, st')
    ∧ image_record 4 (bl_mem_params_desc st') = Some n'
    ∧ pc (ep_info n') = 0xDE00001C
    ∧ arg0 (ep_info n') = 0xDE000000.
Proof.
  edestruct (composite_trusted_os_arguments (pd := stm32mp1_reference)
               reference_config reference_ddr_size composite_header_everywhere
               parse_succeeds reference_state_resolved)
    as (st' & Hrun & Hrec & _).
  - exact reference_ids_distinct.
  - reflexivity.
  - vm_compute. reflexivity.
  - vm_compute. reflexivity.
  - vm_compute. reflexivity.
  - reflexivity.
  - reflexivity.
  - eexists st', _. split_and!; [exact Hrun|exact Hrec| |]; reflexivity.
Defined.

Lemma monolithic_trusted_os_frame_witness :
  ∃ st' n',
    bl2_plat_handle_post_image_load (pd := stm32mp1_reference)
      reference_config reference_ddr_size no_composite_header parse_fails
      4 reference_state_resolved = Done (0, st')
    ∧ image_record 4 (bl_mem_params_desc st') = Some n'
    ∧ h_attr (image_info n') = 0
    ∧ image_record 26 (bl_mem_params_desc st')
        = image_record 26 (bl_mem_params_desc reference_state_resolved).
Proof.
  edestruct (monolithic_trusted_os_frame (pd := stm32mp1_reference)
               reference_config reference_ddr_size no_composite_header
               parse_fails reference_state_resolved)
    as (st' & n' & Hrun & Hrec & Hattr & _ & _ & _ & _ & _ & _ & Hother).
  - exact reference_ids_distinct.
  - reflexivity.
  - vm_compute. reflexivity.
  - vm_compute. reflexivity.
  - reflexivity.
  - exists st', n'. split_and!; [exact Hrun|exact Hrec| |].
    + rewrite Hattr. reflexivity.
    + apply Hother. simpl. lia.
Defined.

Lemma other_identity_cache_maintenance_witness :
  ∃ st',
    bl2_plat_handle_post_image_load (pd := stm32mp1_reference)
      reference_config reference_ddr_size no_composite_header parse_fails
      3 reference_state = Done (0, st')
    ∧ dcache_inv st' = [(0x2FFC2000, 1024)].
Proof.
  apply (other_identity_cache_maintenance (pd := stm32mp1_reference)
           reference_config reference_ddr_size no_composite_header
           parse_fails reference_state 3
           (compiled_node 3 0 0x2FFC2000 0x10000)).
  - simpl. lia.
  - simpl. lia.
  - simpl. lia.
  - vm_compute. reflexivity.
Defined.

Lemma monolithic_trusted_os_stm32image_witness :
  ∃ st',
    bl2_plat_handle_post_image_load (pd := stm32mp1_reference_stm32image)
      reference_config reference_ddr_size no_composite_header parse_fails
      4 reference_state_resolved = Done (0, st')
    ∧ image_record 4 (bl_mem_params_desc st')
        = image_record 4 (bl_mem_params_desc reference_state_resolved).
Proof.
  edestruct (monolithic_trusted_os_stm32image
               (pd := stm32mp1_reference_stm32image)
               reference_config reference_ddr_size no_composite_header
               parse_fails reference_state_resolved)
    as (st' & Hrun & Hrec & _).
  - reflexivity.
  - vm_compute. reflexivity.
  - reflexivity.
  - exists st'. split; [exact Hrun|].
    etrans; [exact Hrec|]. vm_compute. reflexivity.
Defined.

(** * Part VII: properties of the reset reason report *)

Section print_reset_reason_facts.

Context `{rd : rcc_def}.

(** A line is not among the lines of a list of other lines. *)
Ltac absent_line Hin :=
  exfalso;
  repeat (apply elem_of_cons in Hin as [Hin|Hin]; [discriminate Hin|]);
  by apply elem_of_nil in Hin.

(** Follows the chain of tests in [Hin] flag by flag, dropping each branch
    that logs a line other than the one looked for. *)
Ltac follow_flags Hin :=
  repeat match type of Hin with
         | context [flag_set ?r ?m] =>
             let Hm := fresh "Hflag" in
             destruct (flag_set r m) eqn:Hm; simpl in Hin;
             try (absent_line Hin)
         end.

(** X24: the report ends in the error line "Unidentified reset reason"
    exactly when the register value is not 0 and none of the thirteen flags
    the function knows is set. *)
Theorem unidentified_reset_reason_iff rstsr :
  ERROR_Unidentified_reset_reason ∈ print_reset_reason rstsr
  <-> rstsr ≠ 0
      ∧ flag_set rstsr RCC_MP_RSTSCLRR_PADRSTF = false
      ∧ flag_set rstsr RCC_MP_RSTSCLRR_STDBYRSTF = false
      ∧ flag_set rstsr RCC_MP_RSTSCLRR_CSTDBYRSTF = false
      ∧ flag_set rstsr RCC_MP_RSTSCLRR_PORRSTF = false
      ∧ flag_set rstsr RCC_MP_RSTSCLRR_BORRSTF = false
      ∧ flag_set rstsr RCC_MP_RSTSCLRR_MCSYSRSTF = false
      ∧ flag_set rstsr RCC_MP_RSTSCLRR_MPSYSRSTF = false
      ∧ flag_set rstsr RCC_MP_RSTSCLRR_HCSSRSTF = false
      ∧ flag_set rstsr RCC_MP_RSTSCLRR_IWDG1RSTF = false
      ∧ flag_set rstsr RCC_MP_RSTSCLRR_IWDG2RSTF = false
      ∧ flag_set rstsr RCC_MP_RSTSCLRR_MPUP0RSTF = false
      ∧ flag_set rstsr RCC_MP_RSTSCLRR_MPUP1RSTF = false
      ∧ flag_set rstsr RCC_MP_RSTSCLRR_VCORERSTF = false.
Proof.
  unfold print_reset_reason. split.
  - intros Hin. destruct (Z.eqb_spec rstsr 0) as [Heq|Hne]; [absent_line Hin|].
    split; [done|]. follow_flags Hin. by split_and!.
  - intros (Hne & Hflags). destruct_and!.
    rewrite (proj2 (Z.eqb_neq _ _) Hne).
    repeat match goal with Hf : flag_set _ _ = false |- _ => rewrite Hf; clear Hf end.
    simpl. apply elem_of_cons. right. by apply elem_of_cons; left.
Qed.

(** X25: an exit from standby is the first thing looked for and the pad
    reset flag is the only thing that hides it: "System exits from STANDBY"
    is reported exactly when the value is not 0, the pad reset flag is clear
    and the standby flag is set, whatever the other flags are. *)
Theorem standby_exit_iff rstsr :
  INFO_System_exits_from_STANDBY ∈ print_reset_reason rstsr
  <-> rstsr ≠ 0
      ∧ flag_set rstsr RCC_MP_RSTSCLRR_PADRSTF = false
      ∧ flag_set rstsr RCC_MP_RSTSCLRR_STDBYRSTF = true.
Proof.
  unfold print_reset_reason. split.
  - intros Hin. destruct (Z.eqb_spec rstsr 0) as [Heq|Hne]; [absent_line Hin|].
    split; [done|]. follow_flags Hin. by split.
  - intros (Hne & Hpad & Hstdby).
    rewrite (proj2 (Z.eqb_neq _ _) Hne), Hpad, Hstdby. simpl.
    apply elem_of_cons. right. by apply elem_of_cons; left.
Qed.

(** X26: a value of 0 gets the single warning "Reset reason unknown";
    every other value gets the line with the value followed by exactly one
    reason line. *)
Theorem one_reason_per_report rstsr :
  (rstsr = 0 -> print_reset_reason rstsr = [WARN_Reset_reason_unknown])
  ∧ (rstsr ≠ 0 ->
     ∃ reason,
       print_reset_reason rstsr = [INFO_Reset_reason rstsr; reason]
       ∧ reason ≠ WARN_Reset_reason_unknown
       ∧ ∀ v, reason ≠ INFO_Reset_reason v).
Proof.
  unfold print_reset_reason. split.
  - by intros ->.
  - intros Hne. rewrite (proj2 (Z.eqb_neq _ _) Hne).
    repeat match goal with
           | |- context [flag_set ?r ?m] =>
               destruct (flag_set r m); simpl;
               try (eexists; split_and!; [reflexivity|done|done])
           end.
Qed.

End print_reset_reason_facts.
